(** * Research Colossus backend: the orchestration engine

    A shallow embedding of the session/branch/task state machine of the
    backend: the Celery job [run_research_loop] of [app/workers/tasks.py],
    the route handlers [start_research] and [pause_branch] of
    [app/api/routes.py], the record types of [app/db/models.py] and the
    Gemini wrappers of [app/services/gemini_service.py].

    Modelling conventions.
    - A Python [str] is a [string], one [ascii] per character (code points
      below 256); [int] is [Z];
      [datetime] is a [Z] clock reading; [Optional[T]] is [option T].
    - A table is the list of its rows in insertion order.  A [select] with no
      [order_by] returns the matching rows in table order.  An ORM object is
      the row that carries its primary key: writing an attribute and
      committing rewrites that row.
    - The route handlers get their database session from [get_session] of
      [app/db/session.py], which is not among the sources; its objects are
      taken to stay loaded across commits, so reading an attribute reads
      the row.  The worker builds its own [AsyncSession(engine)], whose
      commits expire the objects it holds: see [workers.instance].
    - The Gemini API and the clock are an explicit [environment]; everything
      the code does to the outside (commits, service calls, API requests,
      Celery enqueues) is appended to the [trace] of the [world]. *)

From Stdlib Require Import ZArith List String Ascii Bool Arith Lia Sorted Permutation.
Import ListNotations.

Local Open Scope list_scope.
Local Open Scope Z_scope.
Local Open Scope string_scope.

(** ** Python string helpers *)

Module Py.

Definition nl : string := String (ascii_of_nat 10) EmptyString.
Definition dquote : string := String (ascii_of_nat 34) EmptyString.

(** [sep.join(l)] *)
Definition join (sep : string) (l : list string) : string := String.concat sep l.

(** [s[:n]] *)
Fixpoint slice_to (n : nat) (s : string) : string :=
  match n, s with
  | O, _ => EmptyString
  | S _, EmptyString => EmptyString
  | S n', String c s' => String c (slice_to n' s')
  end.

(** [c.lower()] on the code points below 256: the letters A-Z, and the
    capital letters of Latin-1 (192-222 but for the multiplication sign). *)
Definition lower_char (c : ascii) : ascii :=
  let n := nat_of_ascii c in
  if (Nat.leb 65 n && Nat.leb n 90)%bool then ascii_of_nat (n + 32)
  else if (Nat.leb 192 n && Nat.leb n 222 && negb (Nat.eqb n 215))%bool
       then ascii_of_nat (n + 32)
       else c.

(** [s.lower()] *)
Fixpoint lower (s : string) : string :=
  match s with
  | EmptyString => EmptyString
  | String c s' => String (lower_char c) (lower s')
  end.

(** [needle in s] *)
Fixpoint contains (needle s : string) : bool :=
  String.prefix needle s
  || match s with
     | EmptyString => false
     | String _ s' => contains needle s'
     end.

(** [c.isspace()] on the code points below 256. *)
Definition is_space (c : ascii) : bool :=
  let n := nat_of_ascii c in
  (Nat.eqb n 32 || (Nat.leb 9 n && Nat.leb n 13) || (Nat.leb 28 n && Nat.leb n 31)
   || Nat.eqb n 133 || Nat.eqb n 160)%bool.

Fixpoint lstrip (s : string) : string :=
  match s with
  | EmptyString => EmptyString
  | String c s' => if is_space c then lstrip s' else s
  end.

Fixpoint rstrip (s : string) : string :=
  match s with
  | EmptyString => EmptyString
  | String c s' =>
      match rstrip s' with
      | EmptyString => if is_space c then EmptyString else String c EmptyString
      | r => String c r
      end
  end.

(** [s.strip()] *)
Definition strip (s : string) : string := rstrip (lstrip s).

(** [x or default] on strings *)
Definition or_str (x default : string) : string :=
  match x with EmptyString => default | _ => x end.

(** [x or default] on an optional string ([None] and the empty string are both falsy) *)
Definition opt_or (x : option string) (default : string) : string :=
  match x with
  | Some s => or_str s default
  | None => default
  end.

(** [list(dict.fromkeys(l))]: first occurrences, in order *)
Fixpoint dedup (l : list string) : list string :=
  match l with
  | [] => []
  | x :: l' => x :: filter (fun y => negb (String.eqb x y)) (dedup l')
  end.

End Py.

(** ** Records of [app/db/models.py] *)

Module ResearchSession.
Record t := mk {
  id : Z;
  original_prompt : string;
  status : string;
  created_at : Z;
  final_synthesis : option string
}.
Definition with_status (s : t) (st : string) : t :=
  mk (id s) (original_prompt s) st (created_at s) (final_synthesis s).
Definition with_final_synthesis (s : t) (f : option string) : t :=
  mk (id s) (original_prompt s) (status s) (created_at s) f.
End ResearchSession.

Module ResearchBranch.
Record t := mk {
  id : Z;
  session_id : Z;
  name : string;
  status : string;
  created_at : Z
}.
Definition with_status (b : t) (st : string) : t :=
  mk (id b) (session_id b) (name b) st (created_at b).
End ResearchBranch.

Module ResearchTask.
Record t := mk {
  id : Z;
  branch_id : Z;
  description : string;
  assigned_to : string;
  status : string;
  priority : Z;
  result : option string;
  python_code : option string;
  experiment_spec : option string;
  dependencies : list string;
  created_at : Z
}.
Definition with_status (k : t) (st : string) : t :=
  mk (id k) (branch_id k) (description k) (assigned_to k) st (priority k)
     (result k) (python_code k) (experiment_spec k) (dependencies k) (created_at k).
Definition with_result (k : t) (r : option string) : t :=
  mk (id k) (branch_id k) (description k) (assigned_to k) (status k) (priority k)
     r (python_code k) (experiment_spec k) (dependencies k) (created_at k).
Definition with_dependencies (k : t) (d : list string) : t :=
  mk (id k) (branch_id k) (description k) (assigned_to k) (status k) (priority k)
     (result k) (python_code k) (experiment_spec k) d (created_at k).
End ResearchTask.

Module AgentLog.
Record t := mk {
  id : Z;
  session_id : Z;
  agent_name : string;
  message : string;
  type : string;
  timestamp : Z
}.
End AgentLog.

Module KnowledgeFact.
Record t := mk {
  id : Z;
  session_id : Z;
  content : string;
  source_agent : string;
  confidence : Z;
  created_at : Z
}.
End KnowledgeFact.

(** ** The database *)

Record database := mkdb {
  sessions : list ResearchSession.t;
  branches : list ResearchBranch.t;
  tasks : list ResearchTask.t;
  logs : list AgentLog.t;
  facts : list KnowledgeFact.t
}.

Definition with_sessions (d : database) (l : list ResearchSession.t) : database :=
  mkdb l (branches d) (tasks d) (logs d) (facts d).
Definition with_branches (d : database) (l : list ResearchBranch.t) : database :=
  mkdb (sessions d) l (tasks d) (logs d) (facts d).
Definition with_tasks (d : database) (l : list ResearchTask.t) : database :=
  mkdb (sessions d) (branches d) l (logs d) (facts d).
Definition with_logs (d : database) (l : list AgentLog.t) : database :=
  mkdb (sessions d) (branches d) (tasks d) l (facts d).

(** The next value of a table's id sequence. *)
Definition next_id (ids : list Z) : Z := (1 + fold_right Z.max 0 ids)%Z.

(** ** The scheduler query of [_execute_research_loop] *)

Module Query.

(** [select(ResearchTask).join(ResearchBranch)]: the inner join on the
    foreign key [ResearchTask.branch_id = ResearchBranch.id]. *)
Definition join_branch (d : database) : list (ResearchTask.t * ResearchBranch.t) :=
  flat_map
    (fun k => map (pair k)
                (filter (fun b => (ResearchBranch.id b =? ResearchTask.branch_id k)%Z)
                   (branches d)))
    (tasks d).

(** [.where(ResearchBranch.session_id == session_id,
            ResearchTask.status == "pending")] *)
Definition pending_where (session_id : Z) (r : ResearchTask.t * ResearchBranch.t) : bool :=
  (ResearchBranch.session_id (snd r) =? session_id)%Z
  && (ResearchTask.status (fst r) =? "pending").

(** [.order_by(ResearchTask.priority.desc(), ResearchTask.id)]:
    [before k1 k2] when [k1] sorts no later than [k2]. *)
Definition before (k1 k2 : ResearchTask.t) : bool :=
  ((ResearchTask.priority k2 <? ResearchTask.priority k1)
   || ((ResearchTask.priority k1 =? ResearchTask.priority k2)
       && (ResearchTask.id k1 <=? ResearchTask.id k2)))%Z.

Fixpoint insert (k : ResearchTask.t) (l : list ResearchTask.t) : list ResearchTask.t :=
  match l with
  | [] => [k]
  | h :: l' => if before k h then k :: l else h :: insert k l'
  end.

Definition order_by (l : list ResearchTask.t) : list ResearchTask.t :=
  fold_right insert [] l.

Definition pending_tasks (d : database) (session_id : Z) : list ResearchTask.t :=
  order_by (map fst (filter (pending_where session_id) (join_branch d))).

(** [task_res.first()] *)
Definition first {A : Type} (l : list A) : option A := hd_error l.

(** [select(KnowledgeFact).where(KnowledgeFact.session_id == session_id)] *)
Definition session_facts (d : database) (session_id : Z) : list KnowledgeFact.t :=
  filter (fun f => (KnowledgeFact.session_id f =? session_id)%Z) (facts d).

(** [select(ResearchSession).where(ResearchSession.id == session_id)] *)
Definition session_rows (d : database) (session_id : Z) : list ResearchSession.t :=
  filter (fun s => (ResearchSession.id s =? session_id)%Z) (sessions d).

End Query.

(** The scheduler: the task the loop picks next, if any. *)
Definition select_next (d : database) (session_id : Z) : option ResearchTask.t :=
Query.first (Query.pending_tasks d session_id).

(** A task of the table that is pending and whose branch belongs to the
    session. *)
Definition pending_in_session (d : database) (session_id : Z) (k : ResearchTask.t) : Prop :=
In k (tasks d)
/\ ResearchTask.status k = "pending"
/\ exists b, In b (branches d)
             /\ ResearchBranch.id b = ResearchTask.branch_id k
             /\ ResearchBranch.session_id b = session_id.

(** ** The outside world *)

(** One [client.models.generate_content] request: the model name and the
    text parts of the single user message. *)
Record request := mkreq {
  model : string;
  parts : list string
}.

(** What the API call does: it returns a response, of which the code reads
    [resp.text] and the web URIs of the first candidate's grounding chunks,
    or it raises an exception [e], of which the code reads [str(e)]. *)
Inductive api_result :=
| Response (text : option string) (grounding_uris : list string)
| ApiError (message : string).

(** Descriptors of the planning response, as [start_research] reads them
    with [dict.get]: [None] is an absent key. *)
Record task_descriptor := mktd {
  td_description : option string;
  td_assigned_to : option string;
  td_status : option string;
  td_priority : option Z;
  td_dependencies : option (list string)
}.

Record branch_descriptor := mkbd {
  bd_name : option string;
  bd_tasks : option (list task_descriptor)
}.

(** The outcome of [_extract_json(raw)] followed by the [isinstance(data,
    list)] test of [orchestrate_plan]. *)
Inductive plan_decoding :=
| DecodeFails
| NotAList
| Plan (branches : list branch_descriptor).

Record environment := mkenvironment {
  (** [os.getenv("GEMINI_API_KEY")] *)
  GEMINI_API_KEY : option string;
  MODEL_REASONING : string;
  (** the answer of the API to a request, given how many requests came
      before it *)
  generate_content : nat -> request -> api_result;
  (** [datetime.utcnow()], given how many times the clock was read before *)
  utcnow : nat -> Z;
  (** [_extract_json] and the shape of the decoded value *)
  extract_plan : string -> plan_decoding;
  (** whether the database takes the value for an INTEGER column: the
      engine and its dialect are set up in [app/db/session.py], which is
      not among the sources *)
  integer_column : Z -> bool
}.

(** The INTEGER of PostgreSQL, the database of the default [DATABASE_URL]
    and of the JSONB columns of the models: a signed 32-bit integer. *)
Definition postgresql_integer (z : Z) : bool :=
  ((-2147483648 <=? z) && (z <=? 2147483647))%Z.

(** An environment whose database is PostgreSQL. *)
Definition mkenv (key : option string) (model_reasoning : string)
    (answers : nat -> request -> api_result) (clock : nat -> Z)
    (decode : string -> plan_decoding) : environment :=
  mkenvironment key model_reasoning answers clock decode postgresql_integer.

Record attachment := mkatt {
  att_name : option string;
  att_content : option string
}.

Record fact_payload := mkfp {
  fp_source_agent : string;
  fp_content : string;
  fp_confidence : Z
}.

Inductive service_call :=
| OrchestratePlan (prompt : string) (attachments : list attachment)
| ExecuteAgentTask (task_desc role context : string)
| SynthesizeResearch (original_prompt : string) (knowledge_facts : list fact_payload).

Inductive event :=
| Commit (snapshot : database)
| Invoke (c : service_call)
| Generate (r : request)
| Enqueue (session_id : Z).

Record world := mkworld {
  db : database;
  trace : list event;
  clock_reads : nat
}.

Inductive exn :=
| QuotaExhaustedError (msg : string)
| RuntimeError (msg : string)
| ClientError (msg : string)
| JSONDecodeError
| ValueError (msg : string)
| MultipleResultsFound
| HTTPException (status_code : Z) (detail : string)
(** a local variable read before any value was bound to it *)
| UnboundLocalError (name : string)
(** a value that has no attribute of that name *)
| AttributeError (name : string)
(** SQLAlchemy: a column of an expired object read outside an awaited call *)
| MissingGreenlet
(** SQLAlchemy: the database driver refused a statement or a parameter *)
| DBAPIError.

(** ** A state and exception monad for the handlers *)

Inductive result (A : Type) :=
| Ok (a : A)
| Raise (e : exn).
Arguments Ok {A} a.
Arguments Raise {A} e.

Definition M (A : Type) : Type := world -> result A * world.

Definition ret {A : Type} (a : A) : M A := fun w => (Ok a, w).

Definition bind {A B : Type} (c : M A) (k : A -> M B) : M B :=
  fun w =>
    match c w with
    | (Ok a, w') => k a w'
    | (Raise e, w') => (Raise e, w')
    end.

Definition raise {A : Type} (e : exn) : M A := fun w => (Raise e, w).

Declare Scope monad_scope.
Delimit Scope monad_scope with monad.
Notation "x <- c ;; k" := (bind c (fun x => k))
  (at level 61, c at next level, right associativity) : monad_scope.
Notation "c ;; k" := (bind c (fun _ => k))
  (at level 61, right associativity) : monad_scope.
Local Open Scope monad_scope.

Definition emit (e : event) : M unit :=
  fun w => (Ok tt, mkworld (db w) (trace w ++ [e]) (clock_reads w)).

(** An attribute write or [session.add]: a change of the rows. *)
Definition modify (f : database -> database) : M unit :=
  fun w => (Ok tt, mkworld (f (db w)) (trace w) (clock_reads w)).

Definition read {A : Type} (f : database -> A) : M A :=
  fun w => (Ok (f (db w)), w).

(** [await session.commit()] *)
Definition commit : M unit :=
  fun w => (Ok tt, mkworld (db w) (trace w ++ [Commit (db w)]) (clock_reads w)).

(** [datetime.utcnow()] *)
Definition now (env : environment) : M Z :=
  fun w => (Ok (utcnow env (clock_reads w)), mkworld (db w) (trace w) (S (clock_reads w))).

Fixpoint for_each {A : Type} (l : list A) (body : A -> M unit) : M unit :=
  match l with
  | [] => ret tt
  | x :: l' => body x ;; for_each l' body
  end.

(** [res.one_or_none()] *)
Definition one_or_none {A : Type} (rows : list A) : M (option A) :=
  match rows with
  | [] => ret None
  | [x] => ret (Some x)
  | _ => raise MultipleResultsFound
  end.

(** The number of API requests in a trace. *)
Definition is_generate (e : event) : bool :=
  match e with Generate _ => true | _ => false end.

Definition count_generate (es : list event) : nat :=
  List.length (filter is_generate es).

(** ** [app/services/gemini_service.py] *)

Module gemini_service.

(** [get_client]: the guard on the environment variable. *)
Definition get_client (env : environment) : M unit :=
  match GEMINI_API_KEY env with
  | None | Some EmptyString =>
      raise (RuntimeError "GEMINI_API_KEY environment variable is not set")
  | Some _ => ret tt
  end.

(** [client.models.generate_content(model=..., contents=...)] *)
Definition call_api (env : environment) (r : request) : M api_result :=
  fun w =>
    (Ok (generate_content env (count_generate (trace w)) r),
     mkworld (db w) (trace w ++ [Generate r]) (clock_reads w)).

(** [_handle_gemini_error(e, operation)]: the exception it raises. *)
Definition _handle_gemini_error (e : string) (operation : string) : exn :=
  let error_str := Py.lower e in
  if Py.contains "429" error_str
     || Py.contains "resource_exhausted" error_str
     || Py.contains "quota" error_str
  then QuotaExhaustedError
         ("Gemini API quota exhausted during " ++ operation ++ ". "
          ++ "Please wait for quota reset or upgrade to a paid plan. "
          ++ "See: https://ai.google.dev/pricing")
  else ClientError e.

Definition orchestrate_system_prompt : string :=
  let q := Py.dquote in
  "You are the Research Colossus Orchestrator." ++ Py.nl
  ++ "Create a Tree-of-Thoughts style research plan." ++ Py.nl
  ++ "For each branch, define a name and a sequence of tasks." ++ Py.nl
  ++ "Each task should include: id, description, assigned_to (role), priority (1-10), status ('pending')." ++ Py.nl
  ++ "Return strictly valid JSON matching this structure:" ++ Py.nl
  ++ "[{" ++ Py.nl
  ++ "  " ++ q ++ "id" ++ q ++ ": " ++ q ++ "branch-1" ++ q ++ "," ++ Py.nl
  ++ "  " ++ q ++ "name" ++ q ++ ": " ++ q ++ "Branch Name" ++ q ++ "," ++ Py.nl
  ++ "  " ++ q ++ "tasks" ++ q ++ ": [" ++ Py.nl
  ++ "    {" ++ q ++ "id" ++ q ++ ": " ++ q ++ "task-1" ++ q ++ ", "
  ++ q ++ "description" ++ q ++ ": " ++ q ++ "..." ++ q ++ ", "
  ++ q ++ "assigned_to" ++ q ++ ": " ++ q ++ "Theoretical Physicist" ++ q ++ ", "
  ++ q ++ "priority" ++ q ++ ": 8, "
  ++ q ++ "status" ++ q ++ ": " ++ q ++ "pending" ++ q ++ "}" ++ Py.nl
  ++ "  ]" ++ Py.nl
  ++ "}]" ++ Py.nl.

Definition attachment_chunk (att : attachment) : string :=
  let name := match att_name att with Some n => n | None => "attachment" end in
  let content := match att_content att with Some c => c | None => EmptyString end in
  let content :=
    if Nat.ltb 4000 (String.length content)
    then Py.slice_to 4000 content ++ Py.nl ++ "...[truncated]..."
    else content in
  "FILE: " ++ name ++ Py.nl ++ content.

Definition orchestrate_plan (env : environment) (prompt : string)
    (attachments : list attachment) : M (list branch_descriptor) :=
  emit (Invoke (OrchestratePlan prompt attachments)) ;;
  get_client env ;;
  let attachment_text :=
    match attachments with
    | [] => EmptyString
    | _ => Py.nl ++ Py.nl ++ "ATTACHED CONTEXT:" ++ Py.nl
           ++ Py.join (Py.nl ++ Py.nl) (map attachment_chunk attachments)
    end in
  let user_text := orchestrate_system_prompt ++ Py.nl ++ Py.nl ++ "USER PROMPT: " ++ prompt in
  let user_text :=
    match attachment_text with
    | EmptyString => user_text
    | _ => user_text ++ Py.nl ++ Py.nl ++ attachment_text
    end in
  resp <- call_api env (mkreq (MODEL_REASONING env) [user_text]) ;;
  match resp with
  | ApiError e => raise (_handle_gemini_error e "orchestrate_plan")
  | Response text _ =>
      let raw := Py.opt_or text EmptyString in
      match extract_plan env raw with
      | DecodeFails => raise JSONDecodeError
      | NotAList => raise (ValueError "orchestrate_plan: expected a list of branches")
      | Plan data => ret data
      end
  end.

Definition execute_agent_task (env : environment) (task_desc role context : string)
    : M (string * list string) :=
  emit (Invoke (ExecuteAgentTask task_desc role context)) ;;
  get_client env ;;
  let system_instruction :=
    "You are a world-class " ++ role ++ ". "
    ++ "Perform deep scientific reasoning on the given task." ++ Py.nl
    ++ "Use the provided context as axioms when helpful." ++ Py.nl
    ++ "Provide rigorous and detailed output." in
  let contents :=
    [ system_instruction;
      "TASK: " ++ task_desc;
      "CONTEXT:" ++ Py.nl ++ Py.or_str context "No prior context." ] in
  resp <- call_api env (mkreq (MODEL_REASONING env) contents) ;;
  match resp with
  | ApiError e => raise (_handle_gemini_error e "execute_agent_task")
  | Response text uris =>
      let text := Py.opt_or text EmptyString in
      ret (text, Py.dedup uris)
  end.

Definition synthesize_research (env : environment) (original_prompt : string)
    (knowledge_facts : list fact_payload) : M string :=
  emit (Invoke (SynthesizeResearch original_prompt knowledge_facts)) ;;
  get_client env ;;
  let knowledge_str :=
    Py.join (Py.nl ++ Py.nl)
      (map (fun fact => "[" ++ fp_source_agent fact ++ "]: " ++ fp_content fact)
         knowledge_facts) in
  let prompt :=
    "Synthesize a Final Scientific Report." ++ Py.nl
    ++ "Query: " ++ Py.dquote ++ original_prompt ++ Py.dquote ++ Py.nl ++ Py.nl
    ++ "Validated Knowledge Bank:" ++ Py.nl
    ++ knowledge_str ++ Py.nl ++ Py.nl
    ++ "Format:" ++ Py.nl
    ++ "1. Executive Summary" ++ Py.nl
    ++ "2. Methodology (Reasoning Traces)" ++ Py.nl
    ++ "3. Key Findings (proven via Simulation or Axioms)" ++ Py.nl
    ++ "4. Future Work (Computational Specs created)" ++ Py.nl in
  resp <- call_api env (mkreq (MODEL_REASONING env) [prompt]) ;;
  match resp with
  | Response text _ => ret (Py.opt_or text "Synthesis failed.")
  | ApiError _ => ret "Could not synthesize final report."
  end.

End gemini_service.

(** ** Row updates *)

(** Attribute writes on the ORM object with primary key [task_id]. *)
Definition update_task (task_id : Z) (f : ResearchTask.t -> ResearchTask.t)
    (d : database) : database :=
  with_tasks d
    (map (fun k => if (ResearchTask.id k =? task_id)%Z then f k else k) (tasks d)).

Definition update_session (session_id : Z) (f : ResearchSession.t -> ResearchSession.t)
    (d : database) : database :=
  with_sessions d
    (map (fun s => if (ResearchSession.id s =? session_id)%Z then f s else s) (sessions d)).

Definition update_branch (branch_id : Z) (f : ResearchBranch.t -> ResearchBranch.t)
    (d : database) : database :=
  with_branches d
    (map (fun b => if (ResearchBranch.id b =? branch_id)%Z then f b else b) (branches d)).

(** [session.add(AgentLog(...))]: the row gets the next id of the table. *)
Definition add_log (session_id : Z) (agent_name message type : string) (timestamp : Z)
    (d : database) : database :=
  with_logs d
    (logs d ++ [AgentLog.mk (next_id (map AgentLog.id (logs d)))
                  session_id agent_name message type timestamp])%list.

(** ** [app/workers/tasks.py] *)

Module workers.

(** One line of the knowledge context: [f"- [{f.source_agent}] {f.content}"]. *)
Definition fact_line (f : KnowledgeFact.t) : string :=
  "- [" ++ KnowledgeFact.source_agent f ++ "] " ++ KnowledgeFact.content f.

Definition knowledge_context (d : database) (session_id : Z) : string :=
  Py.join Py.nl (map fact_line (Query.session_facts d session_id)).

(** An ORM object held by the worker.  [_run] opens [AsyncSession(engine)]
    with the default [expire_on_commit]: every commit expires the objects
    of the session, and the next read of a column of an expired object
    would have to reload the row, which an [AsyncSession] cannot do in a
    plain attribute access: it raises [MissingGreenlet].  Writing a column
    needs no reload.  An object returned by a query is loaded. *)
Record instance (A : Type) := mkinstance {
  columns : A;
  expired : bool
}.
Arguments mkinstance {A} _ _.
Arguments columns {A} _.
Arguments expired {A} _.

Definition loaded {A : Type} (row : A) : instance A := mkinstance row false.

Definition expire {A : Type} (o : instance A) : instance A := mkinstance (columns o) true.

(** [o.column], read. *)
Definition getattr {A B : Type} (o : instance A) (column : A -> B) : M B :=
  if expired o then raise MissingGreenlet else ret (column (columns o)).

(** The body of the [while] loop once a task has been fetched (lines
    71-101): from [task.status = "running"] to the commit of the completion
    log.  Each commit expires [task]. *)
Definition execute_task (env : environment) (session_id : Z)
    (task : instance ResearchTask.t) : M unit :=
  let task_id := ResearchTask.id (columns task) in
  modify (update_task task_id (fun k => ResearchTask.with_status k "running")) ;;
  commit ;;
  let task := expire task in
  context <- read (fun d => knowledge_context d session_id) ;;
  task_desc <- getattr task ResearchTask.description ;;
  role <- getattr task ResearchTask.assigned_to ;;
  r <- gemini_service.execute_agent_task env task_desc role context ;;
  let content := fst r in
  modify (update_task task_id
            (fun k => ResearchTask.with_status
                        (ResearchTask.with_result k (Some content)) "done")) ;;
  commit ;;
  let task := expire task in
  agent_name <- getattr task ResearchTask.assigned_to ;;
  description <- getattr task ResearchTask.description ;;
  timestamp <- now env ;;
  modify (add_log session_id agent_name
            ("Completed task: " ++ Py.slice_to 100 description) "success" timestamp) ;;
  commit.

(** The [while True] loop (lines 56-101); [None] when the fuel runs out.
    It returns [research_session] as the loop leaves it: expired by the
    commits of a pass. *)
Fixpoint while_pending (fuel : nat) (env : environment) (session_id : Z)
    (research_session : instance ResearchSession.t) (w : world)
    : option (result (instance ResearchSession.t) * world) :=
  match fuel with
  | O => None
  | S fuel' =>
      match select_next (db w) session_id with
      | None => Some (Ok research_session, w)
      | Some task =>
          match execute_task env session_id (loaded task) w with
          | (Ok _, w') => while_pending fuel' env session_id (expire research_session) w'
          | (Raise e, w') => Some (Raise e, w')
          end
      end
  end.

(** The code after the loop (lines 103-119): the final report. *)
Definition synthesis_step (env : environment)
    (research_session : instance ResearchSession.t) (session_id : Z) : M unit :=
  facts <- read (fun d => Query.session_facts d session_id) ;;
  let facts_payload :=
    map (fun f => mkfp (KnowledgeFact.source_agent f) (KnowledgeFact.content f)
                    (KnowledgeFact.confidence f)) facts in
  original_prompt <- getattr research_session ResearchSession.original_prompt ;;
  synthesis <- gemini_service.synthesize_research env original_prompt facts_payload ;;
  modify (update_session (ResearchSession.id (columns research_session))
            (fun s => ResearchSession.with_final_synthesis
                        (ResearchSession.with_status s "completed") (Some synthesis))) ;;
  commit.

(** Rows of the task table with status [pending]. *)
Definition pending_rows (d : database) : nat :=
  List.length (filter (fun k => ResearchTask.status k =? "pending") (tasks d)).

(** The nested function [_execute_research_loop] (lines 54-119), for the
    object [research_session] it is given. *)
Definition _execute_research_loop (env : environment)
    (research_session : instance ResearchSession.t) (session_id : Z) (w : world)
    : option (result unit * world) :=
  match while_pending (S (pending_rows (db w))) env session_id research_session w with
  | None => None
  | Some (Ok research_session, w') =>
      Some (synthesis_step env research_session session_id w')
  | Some (Raise e, w') => Some (Raise e, w')
  end.

(** The [except QuotaExhaustedError as e] handler (lines 39-52). *)
Definition on_quota_exhausted (env : environment) (research_session : ResearchSession.t)
    (session_id : Z) (e : string) : M unit :=
  modify (update_session (ResearchSession.id research_session)
            (fun s => ResearchSession.with_status s "failed")) ;;
  commit ;;
  timestamp <- now env ;;
  modify (add_log session_id "System" ("Research halted: " ++ e) "error" timestamp) ;;
  commit.

(** The call of line 38.  [_execute_research_loop] is a local name of
    [_run]: the [def] that binds it (line 54) is a statement of [_run]'s
    body placed after the [async with] block of lines 26-52.  When line 38
    runs, that statement has not been executed, the name has no value, and
    reading it raises [UnboundLocalError]; the arguments are not evaluated
    and the nested function is not entered. *)
Definition call_execute_research_loop : M unit :=
  raise (UnboundLocalError "_execute_research_loop").

(** [try: c  except QuotaExhaustedError as e: handler(e)] *)
Definition try_except_quota (c : M unit) (handler : string -> M unit) : M unit :=
  fun w =>
    match c w with
    | (Raise (QuotaExhaustedError e), w') => handler e w'
    | r => r
    end.

(** [run_research_loop]: the coroutine [_run] (lines 23-52), run to its
    end by [asyncio.run]. *)
Definition run_research_loop (env : environment) (session_id : Z) : M unit :=
  rows <- read (fun d => Query.session_rows d session_id) ;;
  research_session <- one_or_none rows ;;
  match research_session with
  | None => ret tt
  | Some research_session =>
      modify (update_session (ResearchSession.id research_session)
                (fun s => ResearchSession.with_status s "running")) ;;
      commit ;;
      try_except_quota call_execute_research_loop
        (on_quota_exhausted env research_session session_id)
  end.

End workers.

(** ** [app/api/routes.py] *)

Module routes.

(** The value under the key ["prompt"] of the request body, when the key
    is there: a string, or a JSON value of another type (null, a number, a
    boolean, an array, an object). *)
Inductive prompt_value :=
| PromptText (text : string)
| PromptOther.

Record start_payload := mkpayload {
  prompt : option prompt_value;
  attachments : option (list attachment)
}.

Inductive reply :=
| ErrorReply (error : string)
| SessionReply (session_id : Z)
| BranchReply (branch_id : Z) (status : string).

(** [try: c  except QuotaExhaustedError as e: handler(e)] *)
Definition try_except_quota {A : Type} (c : M A) (handler : string -> M A) : M A :=
  fun w =>
    match c w with
    | (Raise (QuotaExhaustedError e), w') => handler e w'
    | r => r
    end.

Definition add_session (original_prompt : string) (created_at : Z) (d : database)
    : database :=
  with_sessions d
    (sessions d ++ [ResearchSession.mk (next_id (map ResearchSession.id (sessions d)))
                      original_prompt "pending" created_at None])%list.

Definition add_branch (session_id : Z) (name : string) (created_at : Z) (d : database)
    : database :=
  with_branches d
    (branches d ++ [ResearchBranch.mk (next_id (map ResearchBranch.id (branches d)))
                      session_id name "active" created_at])%list.

(** [task_data.get("priority", 5)] *)
Definition task_priority (task_data : task_descriptor) : Z :=
  match td_priority task_data with Some p => p | None => 5%Z end.

Definition add_task (branch_id : Z) (task_data : task_descriptor) (created_at : Z)
    (d : database) : database :=
  with_tasks d
    (tasks d ++ [ResearchTask.mk (next_id (map ResearchTask.id (tasks d)))
                   branch_id
                   (match td_description task_data with Some s => s | None => EmptyString end)
                   (match td_assigned_to task_data with Some s => s | None => "Agent" end)
                   (match td_status task_data with Some s => s | None => "pending" end)
                   (task_priority task_data)
                   None None None
                   (match td_dependencies task_data with Some l => l | None => [] end)
                   created_at])%list.

(** The body of [for task_data in branch_data.get("tasks", [])]. *)
Definition persist_task (env : environment) (branch_id : Z) (task_data : task_descriptor)
    : M unit :=
  created_at <- now env ;;
  modify (add_task branch_id task_data created_at).

(** Whether the task table can hold the priorities of these descriptors. *)
Definition tasks_fit (env : environment) (added : list task_descriptor) : bool :=
  forallb (fun task_data => integer_column env (task_priority task_data)) added.

(** [await session.commit()] of line 74, which inserts the task rows added
    since the commit of line 61, whose state is [committed].  When the
    priority of one of them does not fit the INTEGER column the insert is
    refused, the transaction is rolled back, so that none of these rows is
    written, and the error leaves the handler. *)
Definition commit_tasks (env : environment) (added : list task_descriptor)
    (committed : database) : M unit :=
  if tasks_fit env added then commit
  else modify (fun _ => committed) ;; raise DBAPIError.

(** The body of [for branch_data in branches]. *)
Definition persist_branch (env : environment) (session_id : Z)
    (branch_data : branch_descriptor) : M unit :=
  created_at <- now env ;;
  branch_id <- read (fun d => next_id (map ResearchBranch.id (branches d))) ;;
  modify (add_branch session_id
            (match bd_name branch_data with Some n => n | None => "Branch" end)
            created_at) ;;
  commit ;;
  committed <- read (fun d => d) ;;
  let added := match bd_tasks branch_data with Some l => l | None => [] end in
  for_each added (persist_task env branch_id) ;;
  commit_tasks env added committed.

Definition start_research (env : environment) (payload : start_payload) : M reply :=
  raw <- match prompt payload with
         | None => ret EmptyString
         | Some (PromptText p) => ret p
         | Some PromptOther => raise (AttributeError "strip")
         end ;;
  let prompt := Py.strip raw in
  let attachments := match attachments payload with Some l => l | None => [] end in
  match prompt with
  | EmptyString => ret (ErrorReply "prompt is required")
  | _ =>
      created_at <- now env ;;
      session_id <- read (fun d => next_id (map ResearchSession.id (sessions d))) ;;
      modify (add_session prompt created_at) ;;
      commit ;;
      branches <- try_except_quota (gemini_service.orchestrate_plan env prompt attachments)
                    (fun e =>
                       modify (update_session session_id
                                 (fun s => ResearchSession.with_status s "failed")) ;;
                       commit ;;
                       raise (HTTPException 503 e)) ;;
      for_each branches (persist_branch env session_id) ;;
      emit (Enqueue session_id) ;;
      ret (SessionReply session_id)
  end.

Definition pause_branch (branch_id : Z) : M reply :=
  rows <- read (fun d => filter (fun b => (ResearchBranch.id b =? branch_id)%Z) (branches d)) ;;
  branch <- one_or_none rows ;;
  match branch with
  | None => ret (ErrorReply "branch not found")
  | Some branch =>
      let status :=
        if negb (ResearchBranch.status branch =? "paused") then "paused" else "active" in
      modify (update_branch (ResearchBranch.id branch)
                (fun b => ResearchBranch.with_status b status)) ;;
      commit ;;
      ret (BranchReply (ResearchBranch.id branch) status)
  end.

End routes.

(** ** Observations used to state the properties *)

(** The status column of the session row with the given id. *)
Definition session_status (d : database) (session_id : Z) : option string :=
  option_map ResearchSession.status
    (find (fun s => (ResearchSession.id s =? session_id)%Z) (sessions d)).

Definition session_synthesis (d : database) (session_id : Z) : option (option string) :=
  option_map ResearchSession.final_synthesis
    (find (fun s => (ResearchSession.id s =? session_id)%Z) (sessions d)).

(** Calls of the Gemini wrappers in a trace. *)
Definition is_invoke (e : event) : bool :=
  match e with Invoke _ => true | _ => false end.

Definition is_synthesis (e : event) : bool :=
  match e with Invoke (SynthesizeResearch _ _) => true | _ => false end.

Definition is_commit (e : event) : bool :=
  match e with Commit _ => true | _ => false end.

(** The database once [task.status = "running"] is written. *)
Definition marked_running (task : ResearchTask.t) (d : database) : database :=
  update_task (ResearchTask.id task) (fun k => ResearchTask.with_status k "running") d.

(** The world after the first two statements of [run_research_loop] on an
    existing session: [research_session.status = "running"] and its commit. *)
Definition started (research_session : ResearchSession.t) (w : world) : world :=
  let d := update_session (ResearchSession.id research_session)
             (fun s => ResearchSession.with_status s "running") (db w) in
  mkworld d (trace w ++ [Commit d]) (clock_reads w).

(** Whether the environment has a usable API key. *)
Definition has_api_key (env : environment) : bool :=
  match GEMINI_API_KEY env with
  | None | Some EmptyString => false
  | Some _ => true
  end.

(** [research_session] as [_run] holds it when it reaches line 38: loaded
    by the query of line 27, expired by the commit of line 35. *)
Definition held_by_run (research_session : ResearchSession.t)
    : workers.instance ResearchSession.t :=
  workers.expire (workers.loaded research_session).

(** ** Concrete scenarios *)

Module Scenario.

Definition plan1 : list branch_descriptor :=
  [ mkbd (Some "B1")
      (Some [ mktd (Some "A") (Some "Physicist") (Some "pending") (Some 8%Z) None;
              mktd (Some "B") None None None (Some ["task-1"]) ]);
    mkbd None None ].

(** An environment whose API answers the [n]-th request with [answers n]. *)
Definition environment_with (key : option string) (answers : nat -> api_result)
    : environment :=
  mkenv key "gemini-2.0-flash-exp" (fun n _ => answers n) (fun n => Z.of_nat n)
    (fun _ => Plan plan1).

Definition env_ok : environment :=
  environment_with (Some "key") (fun _ => Response (Some "findings") []).

Definition env_quota_first : environment :=
  environment_with (Some "key") (fun _ => ApiError "429 RESOURCE_EXHAUSTED").

Definition env_failing_synthesis : environment :=
  environment_with (Some "key") (fun _ => ApiError "connection reset").

Definition task (id branch_id : Z) (description : string) (priority : Z)
    (dependencies : list string) : ResearchTask.t :=
  ResearchTask.mk id branch_id description "Physicist" "pending" priority
    None None None dependencies 0.

Definition session1 : ResearchSession.t := ResearchSession.mk 1 "X" "pending" 0 None.

Definition task_A := task 1 1 "A" 8 [].
Definition task_B := task 2 1 "B" 3 [].
Definition task_C := task 3 2 "C" 9 ["task-2"].

(** One session, an active branch with tasks A (priority 8) and B
    (priority 3), a paused branch with task C (priority 9, depending on
    B), two knowledge facts. *)
Definition db0 : database :=
  mkdb [session1]
    [ResearchBranch.mk 1 1 "B1" "active" 0; ResearchBranch.mk 2 1 "B2" "paused" 0]
    [task_A; task_B; task_C]
    []
    [KnowledgeFact.mk 1 1 "c1" "Librarian" 50 0; KnowledgeFact.mk 2 1 "c2" "Critic" 70 0].

Definition w0 : world := mkworld db0 [] 0.

(** A session with no task at all. *)
Definition idle_db : database := mkdb [session1] [] [] [] [].
Definition idle_w : world := mkworld idle_db [] 0.

Definition empty_w : world := mkworld (mkdb [] [] [] [] []) [] 0.

Definition payload1 : routes.start_payload :=
  routes.mkpayload (Some (routes.PromptText " X ")) None.

(** The world left by a session creation whose planning call ran out of
    quota: session 1 exists with status [failed]. *)
Definition failed_w : world := snd (routes.start_research env_quota_first payload1 empty_w).



End Scenario.

(** ** Observations on [start_research] *)

(** The prompt and the attachments [start_research] reads from the payload. *)
Definition payload_prompt (payload : routes.start_payload) : string :=
  Py.strip (match routes.prompt payload with
            | Some (routes.PromptText p) => p
            | _ => EmptyString
            end).

Definition payload_attachments (payload : routes.start_payload) : list attachment :=
  match routes.attachments payload with Some l => l | None => [] end.

(** The world once the new session row is committed, before planning. *)
Definition session_created (env : environment) (prompt : string) (w : world) : world :=
  let d := routes.add_session prompt (utcnow env (clock_reads w)) (db w) in
  mkworld d (trace w ++ [Commit d]) (S (clock_reads w)).

Definition new_session_id (w : world) : Z :=
  next_id (map ResearchSession.id (sessions (db w))).

Definition is_enqueue (e : event) : bool :=
  match e with Enqueue _ => true | _ => false end.

(** A branch row made from a branch descriptor. *)
Definition branch_matches (session_id : Z) (bd : branch_descriptor) (b : ResearchBranch.t)
    : Prop :=
  ResearchBranch.session_id b = session_id
  /\ ResearchBranch.name b = match bd_name bd with Some n => n | None => "Branch" end
  /\ ResearchBranch.status b = "active".

(** A task row made from a task descriptor, with the defaults for absent
    keys. *)
Definition task_matches (branch_id : Z) (td : task_descriptor) (k : ResearchTask.t) : Prop :=
  ResearchTask.branch_id k = branch_id
  /\ ResearchTask.description k
     = match td_description td with Some s => s | None => EmptyString end
  /\ ResearchTask.assigned_to k
     = match td_assigned_to td with Some s => s | None => "Agent" end
  /\ ResearchTask.status k = match td_status td with Some s => s | None => "pending" end
  /\ ResearchTask.priority k = match td_priority td with Some p => p | None => 5%Z end
  /\ ResearchTask.dependencies k
     = match td_dependencies td with Some l => l | None => [] end
  /\ ResearchTask.result k = None.

Definition descriptor_tasks (bd : branch_descriptor) : list task_descriptor :=
  match bd_tasks bd with Some l => l | None => [] end.

(** The branch rows and task rows that persist a plan: one branch row per
    branch descriptor, in order, and for each of them one task row per
    task descriptor, in order, attached to that branch row. *)
Inductive persisted (session_id : Z)
  : list branch_descriptor -> list ResearchBranch.t -> list ResearchTask.t -> Prop :=
| persisted_nil : persisted session_id [] [] []
| persisted_cons bd plan b bs ks rest :
    branch_matches session_id bd b ->
    Forall2 (task_matches (ResearchBranch.id b)) (descriptor_tasks bd) ks ->
    persisted session_id plan bs rest ->
    persisted session_id (bd :: plan) (b :: bs) (ks ++ rest).

(** Whether the task table can hold every priority of the plan. *)
Definition priorities_fit (env : environment) (plan : list branch_descriptor) : bool :=
  routes.tasks_fit env (flat_map descriptor_tasks plan).

(** ** Further observations on the routes *)

(** A string made of whitespace only. *)
Fixpoint blank (s : string) : bool :=
  match s with
  | EmptyString => true
  | String c s' => Py.is_space c && blank s'
  end.

(** [payload.get("prompt", "")], when it is a string. *)
Definition raw_prompt (payload : routes.start_payload) : string :=
  match routes.prompt payload with
  | Some (routes.PromptText p) => p
  | _ => EmptyString
  end.

(** Whether the prompt of the payload, if there is one, is a string. *)
Definition prompt_is_text (payload : routes.start_payload) : bool :=
  match routes.prompt payload with
  | Some routes.PromptOther => false
  | _ => true
  end.

(** The session row [start_research] inserts. *)
Definition created_session (env : environment) (payload : routes.start_payload) (w : world)
    (status : string) : ResearchSession.t :=
  ResearchSession.mk (new_session_id w) (Py.strip (raw_prompt payload)) status
    (utcnow env (clock_reads w)) None.

(** The status [pause_branch] gives a branch. *)
Definition toggled (status : string) : string :=
  if negb (status =? "paused") then "paused" else "active".

Definition branch_rows (d : database) (branch_id : Z) : list ResearchBranch.t :=
  filter (fun b => (ResearchBranch.id b =? branch_id)%Z) (branches d).

(** ** More scenarios *)

Module Cases.

(** An API whose answer cannot be decoded. *)
Definition env_malformed : environment :=
  mkenv (Some "key") "gemini-2.0-flash-exp"
    (fun _ _ => Response (Some "I cannot plan this.") [])
    (fun n => Z.of_nat n) (fun _ => DecodeFails).

Definition world_of (r : result routes.reply * world) : world := snd r.

(** A plan whose second branch has a task with a priority out of range. *)
Definition plan_second_fails : list branch_descriptor :=
  [ mkbd (Some "B1") (Some [ mktd (Some "A") None None (Some 8%Z) None ]);
    mkbd (Some "B2") (Some [ mktd (Some "B") None None None None;
                             mktd (Some "C") None None (Some 9223372036854775808%Z) None ]);
    mkbd (Some "B3") None ].

Definition env_second_fails : environment :=
  mkenv (Some "key") "gemini-2.0-flash-exp" (fun _ _ => Response (Some "findings") [])
    (fun n => Z.of_nat n) (fun _ => Plan plan_second_fails).

End Cases.

(** ** Further observations on the Gemini wrappers *)

(** [att.get("name", "attachment")] and [att.get("content", "")] *)
Definition attachment_name (att : attachment) : string :=
  match att_name att with Some n => n | None => "attachment" end.

Definition attachment_content (att : attachment) : string :=
  match att_content att with Some c => c | None => EmptyString end.

Definition truncation_marker : string := Py.nl ++ "...[truncated]...".

(** The three wrappers the core uses, as one type of call. *)
Definition service_result (env : environment) (c : service_call) (w : world)
    : (result unit * world) :=
  match c with
  | OrchestratePlan prompt attachments =>
      let r := gemini_service.orchestrate_plan env prompt attachments w in
      (match fst r with Ok _ => Ok tt | Raise e => Raise e end, snd r)
  | ExecuteAgentTask task_desc role context =>
      let r := gemini_service.execute_agent_task env task_desc role context w in
      (match fst r with Ok _ => Ok tt | Raise e => Raise e end, snd r)
  | SynthesizeResearch original_prompt knowledge_facts =>
      let r := gemini_service.synthesize_research env original_prompt knowledge_facts w in
      (match fst r with Ok _ => Ok tt | Raise e => Raise e end, snd r)
  end.

(** ** [_extract_json]: the text handed to [json.loads] *)

Module Json.

(** The line boundaries of [str.splitlines], among the code points below
    256: LF, VT, FF, CR, FS, GS, RS and NEL; CR LF counts as one. *)
Definition is_linebreak (c : ascii) : bool :=
  let n := nat_of_ascii c in
  ((Nat.leb 10 n && Nat.leb n 13) || (Nat.leb 28 n && Nat.leb n 30) || Nat.eqb n 133)%bool.

Definition is_cr (c : ascii) : bool := Nat.eqb (nat_of_ascii c) 13.
Definition is_lf (c : ascii) : bool := Nat.eqb (nat_of_ascii c) 10.

(** The lines of [s], [cur] being the line read so far. *)
Fixpoint splitlines_from (cur : string) (s : string) : list string :=
  match s with
  | EmptyString => match cur with EmptyString => [] | _ => [cur] end
  | String c s' =>
      if is_cr c then
        match s' with
        | String c2 s'' =>
            if is_lf c2 then cur :: splitlines_from EmptyString s''
            else cur :: splitlines_from EmptyString s'
        | EmptyString => cur :: splitlines_from EmptyString s'
        end
      else if is_linebreak c then cur :: splitlines_from EmptyString s'
      else splitlines_from (cur ++ String c EmptyString) s'
  end.

(** [s.splitlines()] *)
Definition splitlines (s : string) : list string := splitlines_from EmptyString s.

(** [s.startswith(p)] *)
Definition startswith (p s : string) : bool := String.prefix p s.

(** [s.find(c)] and [s.rfind(c)] for a one-character [c]: the index of the
    first, of the last occurrence, or -1. *)
Fixpoint find (c : ascii) (s : string) : Z :=
  match s with
  | EmptyString => (-1)%Z
  | String a s' =>
      if Ascii.eqb a c then 0%Z
      else let i := find c s' in if (i =? -1)%Z then (-1)%Z else (i + 1)%Z
  end.

Fixpoint rfind (c : ascii) (s : string) : Z :=
  match s with
  | EmptyString => (-1)%Z
  | String a s' =>
      let i := rfind c s' in
      if (i =? -1)%Z then (if Ascii.eqb a c then 0%Z else (-1)%Z) else (i + 1)%Z
  end.

(** [s[n:]] *)
Fixpoint slice_from (n : nat) (s : string) : string :=
  match n, s with
  | O, _ => s
  | S _, EmptyString => EmptyString
  | S n', String _ s' => slice_from n' s'
  end.

(** [s[start:stop]] for indices that are not negative. *)
Definition slice (s : string) (start stop : Z) : string :=
  Py.slice_to (Z.to_nat (stop - start)) (slice_from (Z.to_nat start) s).

Definition fence : string := "```".

(** The first half of [_extract_json]: strip, then drop the Markdown
    fences. *)
Definition unfenced (raw : string) : string :=
  let text := Py.strip raw in
  if startswith fence text then
    let lines := splitlines text in
    let lines :=
      match lines with
      | first :: rest => if startswith fence first then rest else lines
      | [] => lines
      end in
    let lines :=
      match lines with
      | [] => lines
      | _ => if startswith fence (List.last lines EmptyString)
             then List.removelast lines else lines
      end in
    Py.strip (Py.join Py.nl lines)
  else text.

(** The second half: the span from the first opening brace or bracket to
    the last closing one. *)
Definition bracket_span (text : string) : string :=
  let start_candidates :=
    filter (fun i => negb (i =? -1)%Z) [find "{"%char text; find "["%char text] in
  match start_candidates with
  | [] => text
  | i :: rest =>
      let start := fold_left Z.min rest i in
      let end_brace := rfind "}"%char text in
      let end_bracket := rfind "]"%char text in
      let end_ := Z.max end_brace end_bracket in
      if (negb (end_ =? -1) && (start <=? end_))%Z
      then slice text start (end_ + 1)
      else text
  end.

(** The argument [_extract_json] gives to [json.loads]. *)
Definition _extract_json_text (raw : string) : string := bracket_span (unfenced raw).

(** [_extract_json], for a given [json.loads] ([None] when it raises
    [JSONDecodeError]). *)
Definition _extract_json {A : Type} (json_loads : string -> option A) (raw : string)
    : option A :=
  json_loads (_extract_json_text raw).

(** Predicates on texts. *)
Fixpoint has_char (c : ascii) (s : string) : bool :=
  match s with
  | EmptyString => false
  | String a s' => Ascii.eqb a c || has_char c s'
  end.

Fixpoint all_chars (p : ascii -> bool) (s : string) : bool :=
  match s with
  | EmptyString => true
  | String a s' => p a && all_chars p s'
  end.

Definition first_char (s : string) : option ascii :=
  match s with EmptyString => None | String a _ => Some a end.

Fixpoint last_char (s : string) : option ascii :=
  match s with
  | EmptyString => None
  | String a EmptyString => Some a
  | String _ s' => last_char s'
  end.

Definition is_opening (c : ascii) : bool := Ascii.eqb c "{" || Ascii.eqb c "[".
Definition is_closing (c : ascii) : bool := Ascii.eqb c "}" || Ascii.eqb c "]".

(** A text that starts with an opening brace or bracket and ends with a
    closing one. *)
Definition bracketed (s : string) : Prop :=
  (exists a, first_char s = Some a /\ is_opening a = true)
  /\ (exists z, last_char s = Some z /\ is_closing z = true).

(** A text whose only line boundary is the line feed. *)
Definition unix_lines (s : string) : bool :=
  all_chars (fun c => negb (is_linebreak c) || is_lf c) s.

Definition one_line (s : string) : bool := all_chars (fun c => negb (is_linebreak c)) s.

Definition answer_fenced : string :=
  "Here is the plan:" ++ Py.nl ++ "```json" ++ Py.nl
  ++ "[{" ++ Py.dquote ++ "name" ++ Py.dquote ++ ": " ++ Py.dquote ++ "B1" ++ Py.dquote ++ "}]"
  ++ Py.nl ++ "```" ++ Py.nl.

End Json.

(** ** The wrappers of [gemini_service.py] that decode JSON *)

(** A decoded JSON value. *)
#[local] Unset Elimination Schemes.
Inductive json :=
| JNull
| JBool (b : bool)
| JNumber (n : Z)
| JString (s : string)
| JArray (items : list json)
| JObject (fields : list (string * json)).
#[local] Set Elimination Schemes.

(** These two wrappers are not called by the core; of what they do to the
    outside only the API request is traced. *)
Module gemini_json.

Definition review_request (env : environment) (task output : string) : request :=
  let q := Py.dquote in
  mkreq (MODEL_REASONING env)
    [ "You are the Peer Reviewer for Research Colossus." ++ Py.nl
      ++ "Review the output for rigor, coherence, and correctness." ++ Py.nl
      ++ "Rate from 0-100 and set approved=true if score >= 85." ++ Py.nl
      ++ "Return strictly JSON: {" ++ q ++ "score" ++ q ++ ": int, "
      ++ q ++ "feedback" ++ q ++ ": str, " ++ q ++ "approved" ++ q ++ ": bool}."
      ++ Py.nl ++ Py.nl
      ++ "TASK: " ++ task ++ Py.nl ++ Py.nl ++ "OUTPUT:" ++ Py.nl ++ output ++ Py.nl ].

(** The dictionary returned when the answer cannot be decoded. *)
Definition automatic_approval : list (string * json) :=
  [ ("score", JNumber 100);
    ("feedback", JString "Automatic approval (parse failure).");
    ("approved", JBool true) ].

Definition review_task_output (env : environment) (json_loads : string -> option json)
    (task output : string) : M (list (string * json)) :=
  gemini_service.get_client env ;;
  resp <- gemini_service.call_api env (review_request env task output) ;;
  match resp with
  | ApiError e => raise (gemini_service._handle_gemini_error e "review_task_output")
  | Response text _ =>
      let raw := Py.opt_or text EmptyString in
      match Json._extract_json json_loads raw with
      | None => ret automatic_approval
      | Some (JObject data) => ret data
      | Some _ => raise (ValueError "review_task_output: expected a JSON object")
      end
  end.

Definition simulation_request (env : environment) (task context : string) : request :=
  let q := Py.dquote in
  mkreq (MODEL_REASONING env)
    [ "You are a Scientific Computation Expert for Research Colossus." ++ Py.nl
      ++ "Given a task and context, decide whether to create a toy-model Python simulation"
      ++ Py.nl
      ++ "(numpy only, small runtime) or a heavy cluster specification." ++ Py.nl
      ++ "If toy model, return:" ++ Py.nl
      ++ "{" ++ q ++ "type" ++ q ++ ": " ++ q ++ "CODE" ++ q ++ ", "
      ++ q ++ "code" ++ q ++ ": " ++ q ++ "python code here" ++ q ++ ", "
      ++ q ++ "scenarios" ++ q ++ ": [" ++ q ++ "label1" ++ q ++ ", "
      ++ q ++ "label2" ++ q ++ "]}" ++ Py.nl
      ++ "If heavy experiment, return:" ++ Py.nl
      ++ "{" ++ Py.nl
      ++ "  " ++ q ++ "type" ++ q ++ ": " ++ q ++ "SPEC" ++ q ++ "," ++ Py.nl
      ++ "  " ++ q ++ "spec" ++ q ++ ": {" ++ Py.nl
      ++ "    " ++ q ++ "title" ++ q ++ ": " ++ q ++ "..." ++ q ++ "," ++ Py.nl
      ++ "    " ++ q ++ "complexity" ++ q ++ ": " ++ q ++ "HIGH" ++ q ++ " or "
      ++ q ++ "EXTREME" ++ q ++ "," ++ Py.nl
      ++ "    " ++ q ++ "requirements" ++ q ++ ": [" ++ q ++ "8x H100 GPUs" ++ q ++ ", "
      ++ q ++ "PyTorch 2.1" ++ q ++ "]," ++ Py.nl
      ++ "    " ++ q ++ "codeSnippet" ++ q ++ ": " ++ q ++ "CUDA / PyTorch code" ++ q ++ ","
      ++ Py.nl
      ++ "    " ++ q ++ "hypothesis" ++ q ++ ": " ++ q ++ "..." ++ q ++ "," ++ Py.nl
      ++ "    " ++ q ++ "expectedOutcome" ++ q ++ ": " ++ q ++ "..." ++ q ++ Py.nl
      ++ "  }" ++ Py.nl
      ++ "}" ++ Py.nl
      ++ "Return strictly valid JSON with one of these shapes." ++ Py.nl ++ Py.nl
      ++ "TASK: " ++ task ++ Py.nl ++ Py.nl ++ "CONTEXT:" ++ Py.nl ++ context ++ Py.nl ].

Definition generate_simulation_code (env : environment) (json_loads : string -> option json)
    (task context : string) : M (list (string * json)) :=
  gemini_service.get_client env ;;
  resp <- gemini_service.call_api env (simulation_request env task context) ;;
  match resp with
  | ApiError e => raise (gemini_service._handle_gemini_error e "generate_simulation_code")
  | Response text _ =>
      let raw := Py.opt_or text EmptyString in
      match Json._extract_json json_loads raw with
      | None => raise JSONDecodeError
      | Some (JObject data) => ret data
      | Some _ => raise (ValueError "generate_simulation_code: expected an object")
      end
  end.

(** A decoder that only knows the empty object, for examples. *)
Definition loads_empty_object (s : string) : option json :=
  if s =? "{}" then Some (JObject []) else None.

End gemini_json.

(** ** [app/core/socket_manager.py] *)

Module socket_manager.

(** A WebSocket object, by identity. *)
Definition WebSocket : Type := nat.

(** [self._connections]: the lists of connections by session id; [None]
    is an absent key. *)
Definition registry : Type := string -> option (list WebSocket).

Definition empty : registry := fun _ => None.

Definition store (r : registry) (session_id : string) (v : option (list WebSocket))
    : registry :=
  fun k => if k =? session_id then v else r k.

(** [websocket in conns] *)
Definition member (websocket : WebSocket) (conns : list WebSocket) : bool :=
  existsb (Nat.eqb websocket) conns.

(** [conns.remove(websocket)]: the first occurrence goes. *)
Fixpoint remove (websocket : WebSocket) (conns : list WebSocket) : list WebSocket :=
  match conns with
  | [] => []
  | x :: rest => if Nat.eqb x websocket then rest else x :: remove websocket rest
  end.

(** [connect], after the socket is accepted:
    [self._connections.setdefault(session_id, []).append(websocket)] *)
Definition connect (session_id : string) (websocket : WebSocket) (r : registry) : registry :=
  store r session_id
    (Some (match r session_id with Some conns => conns | None => [] end ++ [websocket])%list).

Definition disconnect (session_id : string) (websocket : WebSocket) (r : registry)
    : registry :=
  match r session_id with
  | None | Some [] => r
  | Some conns =>
      let conns := if member websocket conns then remove websocket conns else conns in
      match conns with
      | [] => store r session_id None
      | _ => store r session_id (Some conns)
      end
  end.

(** The loop of [send_json] over the copy [list(conns)]: [send_ok ws] tells
    whether [ws.send_json(message)] returns; when it raises, the socket is
    disconnected.  The second component lists the sockets that received
    the message. *)
Fixpoint broadcast (send_ok : WebSocket -> bool) (session_id : string)
    (snapshot : list WebSocket) (r : registry) : registry * list WebSocket :=
  match snapshot with
  | [] => (r, [])
  | ws :: rest =>
      if send_ok ws then
        let (r', delivered) := broadcast send_ok session_id rest r in
        (r', ws :: delivered)
      else broadcast send_ok session_id rest (disconnect session_id ws r)
  end.

Definition send_json (send_ok : WebSocket -> bool) (session_id : string) (r : registry)
    : registry * list WebSocket :=
  broadcast send_ok session_id
    (match r session_id with Some conns => conns | None => [] end) r.

(** The connections of a session: [self._connections.get(session_id, [])]. *)
Definition connections (r : registry) (session_id : string) : list WebSocket :=
  match r session_id with Some conns => conns | None => [] end.

(** No key of the registry holds an empty list. *)
Definition tidy (r : registry) : Prop := forall k, r k <> Some [].

(** The entry that holds the list [l]: none for the empty list. *)
Definition entry (l : list WebSocket) : option (list WebSocket) :=
  match l with [] => None | _ => Some l end.

Definition two_sessions : registry :=
  connect "2" 30%nat (connect "1" 11%nat (connect "1" 10%nat empty)).

End socket_manager.

(** ** [get_research_state] and [transcribe_speech] of [app/api/routes.py] *)

Module state_route.

Record task_view := mktv {
  tv_id : Z;
  tv_description : string;
  tv_assigned_to : string;
  tv_status : string;
  tv_priority : Z;
  tv_result : option string;
  tv_python_code : option string;
  tv_experiment_spec : option string;
  tv_dependencies : list string
}.

Record branch_view := mkbv {
  bv_id : Z;
  bv_name : string;
  bv_status : string;
  bv_tasks : list task_view
}.

Record session_view := mksv {
  sv_id : Z;
  sv_original_prompt : string;
  sv_status : string;
  sv_created_at : string;
  sv_final_synthesis : option string
}.

Record log_view := mklv {
  lv_id : Z;
  lv_agent_name : string;
  lv_message : string;
  lv_type : string;
  lv_timestamp : string
}.

Record fact_view := mkfv {
  fv_id : Z;
  fv_content : string;
  fv_source_agent : string;
  fv_confidence : Z;
  fv_created_at : string
}.

Inductive state_reply :=
| StateError (error : string)
| State (session : session_view) (branches : list branch_view) (logs : list log_view)
    (knowledge : list fact_view).

Definition view_task (t : ResearchTask.t) : task_view :=
  mktv (ResearchTask.id t) (ResearchTask.description t) (ResearchTask.assigned_to t)
    (ResearchTask.status t) (ResearchTask.priority t) (ResearchTask.result t)
    (ResearchTask.python_code t) (ResearchTask.experiment_spec t)
    (ResearchTask.dependencies t).

(** [select(ResearchTask).where(ResearchTask.branch_id == branch.id)] *)
Definition branch_tasks (d : database) (branch : ResearchBranch.t) : list ResearchTask.t :=
  filter (fun t => (ResearchTask.branch_id t =? ResearchBranch.id branch)%Z) (tasks d).

Definition view_branch (d : database) (branch : ResearchBranch.t) : branch_view :=
  mkbv (ResearchBranch.id branch) (ResearchBranch.name branch) (ResearchBranch.status branch)
    (map view_task (branch_tasks d branch)).

(** [select(ResearchBranch).where(ResearchBranch.session_id == session_id)] *)
Definition session_branches (d : database) (session_id : Z) : list ResearchBranch.t :=
  filter (fun b => (ResearchBranch.session_id b =? session_id)%Z) (branches d).

(** [.order_by(AgentLog.timestamp)]: ascending. *)
Fixpoint insert_log (l : AgentLog.t) (ls : list AgentLog.t) : list AgentLog.t :=
  match ls with
  | [] => [l]
  | h :: ls' =>
      if (AgentLog.timestamp l <? AgentLog.timestamp h)%Z then l :: ls
      else h :: insert_log l ls'
  end.

Definition order_by_timestamp (ls : list AgentLog.t) : list AgentLog.t :=
  fold_right insert_log [] ls.

(** [select(AgentLog).where(AgentLog.session_id == session_id)
     .order_by(AgentLog.timestamp)] *)
Definition session_logs (d : database) (session_id : Z) : list AgentLog.t :=
  order_by_timestamp
    (filter (fun l => (AgentLog.session_id l =? session_id)%Z) (logs d)).

Definition view_log (isoformat : Z -> string) (l : AgentLog.t) : log_view :=
  mklv (AgentLog.id l) (AgentLog.agent_name l) (AgentLog.message l) (AgentLog.type l)
    (isoformat (AgentLog.timestamp l)).

Definition view_fact (isoformat : Z -> string) (f : KnowledgeFact.t) : fact_view :=
  mkfv (KnowledgeFact.id f) (KnowledgeFact.content f) (KnowledgeFact.source_agent f)
    (KnowledgeFact.confidence f) (isoformat (KnowledgeFact.created_at f)).

(** [get_research_state]; [isoformat] is [datetime.isoformat]. *)
Definition get_research_state (isoformat : Z -> string) (session_id : Z) : M state_reply :=
  rows <- read (fun d => Query.session_rows d session_id) ;;
  session_obj <- one_or_none rows ;;
  match session_obj with
  | None => ret (StateError "session not found")
  | Some session_obj =>
      result_branches <- read (fun d => map (view_branch d) (session_branches d session_id)) ;;
      logs <- read (fun d => session_logs d session_id) ;;
      facts <- read (fun d => Query.session_facts d session_id) ;;
      ret (State
             (mksv (ResearchSession.id session_obj)
                (ResearchSession.original_prompt session_obj)
                (ResearchSession.status session_obj)
                (isoformat (ResearchSession.created_at session_obj))
                (ResearchSession.final_synthesis session_obj))
             result_branches
             (map (view_log isoformat) logs)
             (map (view_fact isoformat) facts))
  end.

End state_route.

(** [transcribe_audio] of [gemini_service.py] and its route. *)
Module speech.

(** The request of [transcribe_audio]: a text part and the inline audio. *)
Record speech_request := mksreq {
  speech_model : string;
  speech_text : string;
  inline_data : string;
  inline_mime_type : string
}.

(** What [transcribe_audio] needs from outside: the API key, the name of
    the speech model, [base64.b64encode(...).decode("utf-8")] and the
    answer of the API to the request. *)
Record speech_environment := mksenv {
  api_key : option string;
  MODEL_SPEECH : string;
  b64encode : string -> string;
  generate_speech : speech_request -> api_result
}.

(** The exceptions that leave [transcribe_audio]: the [RuntimeError] of
    [get_client], and the exception of the API call, which the handler
    logs and re-raises as it is. *)
Inductive audio_error :=
| MissingKey
| ApiFailure (msg : string).

Inductive transcription :=
| Transcript (text : string)
| Failed (exc : audio_error).

(** [get_client()]: [true] when it returns a client. *)
Definition get_client (env : speech_environment) : bool :=
  match api_key env with
  | None | Some EmptyString => false
  | Some _ => true
  end.

Definition speech_request_of (env : speech_environment) (audio_bytes mime_type : string)
    : speech_request :=
  mksreq (MODEL_SPEECH env) "Transcribe this audio into clear English text."
    (b64encode env audio_bytes) (Py.or_str mime_type "audio/webm").

Definition transcribe_audio (env : speech_environment) (audio_bytes mime_type : string)
    : transcription :=
  if get_client env then
    match generate_speech env (speech_request_of env audio_bytes mime_type) with
    | Response text _ => Transcript (Py.strip (Py.opt_or text EmptyString))
    | ApiError e => Failed (ApiFailure e)
    end
  else Failed MissingKey.

(** [str(exc)] *)
Definition str_of (e : audio_error) : string :=
  match e with
  | MissingKey => "GEMINI_API_KEY environment variable is not set"
  | ApiFailure msg => msg
  end.

(** The status code [transcribe_speech] gives a failure. *)
Definition failure_status (msg : string) : Z :=
  if Py.contains "RESOURCE_EXHAUSTED" msg || Py.contains "429" msg then 429%Z else 500%Z.

(** [transcribe_speech]: [data] is what [file.read()] returned,
    [content_type] is [file.content_type]. *)
Definition transcribe_speech (env : speech_environment) (data : string)
    (content_type : option string) : result string :=
  match data with
  | EmptyString => Raise (HTTPException 400 "Empty audio file")
  | _ =>
      let mime_type := Py.opt_or content_type "audio/webm" in
      match transcribe_audio env data mime_type with
      | Transcript transcript => Ok transcript
      | Failed exc =>
          let msg := str_of exc in
          Raise (HTTPException (failure_status msg) ("Transcription failed: " ++ msg))
      end
  end.

End speech.

(** ** The operations on the database *)

(** The entry points of the backend that read or write the database. *)
Inductive operation :=
| RunResearchLoop (env : environment) (session_id : Z)
| StartResearch (env : environment) (payload : routes.start_payload)
| PauseBranch (branch_id : Z)
| GetResearchState (isoformat : Z -> string) (session_id : Z).

(** The world an operation leaves behind, whether it returns or raises. *)
Definition world_after (op : operation) (w : world) : world :=
  match op with
  | RunResearchLoop env session_id => snd (workers.run_research_loop env session_id w)
  | StartResearch env payload => snd (routes.start_research env payload w)
  | PauseBranch branch_id => snd (routes.pause_branch branch_id w)
  | GetResearchState isoformat session_id =>
      snd (state_route.get_research_state isoformat session_id w)
  end.

(** The operation is the research loop invoked on this session. *)
Definition runs_loop_on (session_id : Z) (op : operation) : Prop :=
  match op with
  | RunResearchLoop _ sid => sid = session_id
  | _ => False
  end.

(** * Properties *)

(** ** The scheduler *)

Section Scheduler.

Implicit Types (k : ResearchTask.t) (d : database).

Lemma before_spec k1 k2 :
  Query.before k1 k2 = true <->
  (ResearchTask.priority k2 < ResearchTask.priority k1
   \/ (ResearchTask.priority k1 = ResearchTask.priority k2
       /\ ResearchTask.id k1 <= ResearchTask.id k2))%Z.
Proof.
  unfold Query.before.
  rewrite orb_true_iff, andb_true_iff, Z.ltb_lt, Z.eqb_eq, Z.leb_le.
  tauto.
Qed.

Lemma before_refl k : Query.before k k = true.
Proof. apply before_spec. right. split; lia. Qed.

Lemma before_total k1 k2 : Query.before k1 k2 = false -> Query.before k2 k1 = true.
Proof.
  intros H. apply before_spec.
  destruct (Query.before k1 k2) eqn:E; [discriminate|].
  assert (N : ~ Query.before k1 k2 = true) by congruence.
  rewrite before_spec in N. lia.
Qed.

Lemma before_trans k1 k2 k3 :
  Query.before k1 k2 = true -> Query.before k2 k3 = true -> Query.before k1 k3 = true.
Proof. rewrite !before_spec. lia. Qed.

Lemma in_insert k x l : In x (Query.insert k l) <-> x = k \/ In x l.
Proof.
  induction l as [|h l IH]; simpl.
  - intuition congruence.
  - destruct (Query.before k h); simpl; [intuition congruence|].
    rewrite IH. intuition congruence.
Qed.

Lemma in_order_by x l : In x (Query.order_by l) <-> In x l.
Proof.
  induction l as [|h l IH]; simpl; [tauto|].
  rewrite in_insert, IH. intuition congruence.
Qed.

(** The head of the ordered rows sorts before every row. *)
Lemma order_by_head l h rest :
  Query.order_by l = h :: rest -> forall x, In x l -> Query.before h x = true.
Proof.
  revert h rest. induction l as [|a l IH]; intros h rest E x Hx; [destruct Hx|].
  simpl in E. destruct (Query.order_by l) as [|h' t] eqn:El.
  - assert (l = []) as ->.
    { destruct l as [|b l']; [reflexivity|].
      assert (In b []) as []. rewrite <- El. apply in_order_by. now left. }
    simpl in E. injection E as <- <-. destruct Hx as [<-|[]]. apply before_refl.
  - simpl in E. destruct (Query.before a h') eqn:Eb; injection E as <- <-.
    + destruct Hx as [<-|Hx]; [apply before_refl|].
      eapply before_trans; [exact Eb|]. eapply IH; eauto.
    + destruct Hx as [<-|Hx]; [now apply before_total|].
      eapply IH; eauto.
Qed.

Lemma in_join_branch d k b :
  In (k, b) (Query.join_branch d) <->
  In k (tasks d) /\ In b (branches d) /\ ResearchBranch.id b = ResearchTask.branch_id k.
Proof.
  unfold Query.join_branch. rewrite in_flat_map. split.
  - intros (k' & Hk & Hin). apply in_map_iff in Hin as (b' & E & Hb).
    injection E as -> ->. apply filter_In in Hb as [Hb Hid].
    apply Z.eqb_eq in Hid. auto.
  - intros (Hk & Hb & Hid). exists k. split; [assumption|].
    apply in_map. apply filter_In. split; [assumption|]. now apply Z.eqb_eq.
Qed.

(** The rows of the scheduler query are the pending tasks of the session. *)
Lemma in_pending_tasks d session_id k :
  In k (Query.pending_tasks d session_id) <-> pending_in_session d session_id k.
Proof.
  unfold Query.pending_tasks, pending_in_session.
  rewrite in_order_by, in_map_iff. split.
  - intros ([k' b] & E & Hin). simpl in E. subst k'.
    apply filter_In in Hin as [Hin Hw]. apply in_join_branch in Hin as (Hk & Hb & Hid).
    unfold Query.pending_where in Hw. simpl in Hw.
    apply andb_true_iff in Hw as [Hs Hp].
    apply Z.eqb_eq in Hs. apply String.eqb_eq in Hp. eauto 6.
  - intros (Hk & Hp & b & Hb & Hid & Hs). exists (k, b). split; [reflexivity|].
    apply filter_In. split; [apply in_join_branch; auto|].
    unfold Query.pending_where. simpl.
    apply andb_true_iff. split; [now apply Z.eqb_eq | now apply String.eqb_eq].
Qed.

Lemma select_next_some d session_id k :
  select_next d session_id = Some k ->
  pending_in_session d session_id k
  /\ forall k', pending_in_session d session_id k' -> Query.before k k' = true.
Proof.
  unfold select_next, Query.first. intros E.
  destruct (Query.pending_tasks d session_id) as [|h rest] eqn:El; [discriminate|].
  injection E as ->. split.
  - apply in_pending_tasks. rewrite El. now left.
  - intros k' Hk'. apply in_pending_tasks in Hk'.
    unfold Query.pending_tasks in *. eapply order_by_head; [exact El|].
    now apply in_order_by.
Qed.

Lemma select_next_none d session_id :
  select_next d session_id = None <-> forall k, ~ pending_in_session d session_id k.
Proof.
  unfold select_next, Query.first. split.
  - intros E k Hk. apply in_pending_tasks in Hk.
    destruct (Query.pending_tasks d session_id); [destruct Hk | discriminate].
  - intros H. destruct (Query.pending_tasks d session_id) as [|h rest] eqn:El; [reflexivity|].
    exfalso. apply (H h). apply in_pending_tasks. rewrite El. now left.
Qed.

(** C1. For every session, the scheduler's selection returns a pending
    task of the session whose priority is maximal among the session's
    pending tasks and whose id is the smallest among those of that
    priority; it returns a task whenever the session has a pending task,
    and it returns none exactly when the session has no pending task. *)
Theorem select_next_highest_priority_lowest_id (d : database) (session_id : Z) :
  (forall k, select_next d session_id = Some k ->
     pending_in_session d session_id k
     /\ forall k', pending_in_session d session_id k' ->
          (ResearchTask.priority k' < ResearchTask.priority k
           \/ (ResearchTask.priority k' = ResearchTask.priority k
               /\ ResearchTask.id k <= ResearchTask.id k'))%Z)
  /\ ((exists k, pending_in_session d session_id k) ->
      exists k, select_next d session_id = Some k)
  /\ (select_next d session_id = None <->
      ~ exists k, pending_in_session d session_id k).
Proof.
  split; [|split].
  - intros k E. apply select_next_some in E as [Hp Hmax]. split; [assumption|].
    intros k' Hk'. apply Hmax in Hk'. apply before_spec in Hk'. lia.
  - intros [k Hk]. destruct (select_next d session_id) as [k0|] eqn:E; [eauto|].
    exfalso. rewrite select_next_none in E. exact (E k Hk).
  - rewrite select_next_none. split.
    + intros H [k Hk]. exact (H k Hk).
    + intros H k Hk. apply H. eauto.
Qed.

End Scheduler.

(** ** The state and exception monad *)

Ltac run_monad :=
  cbv beta delta [bind ret raise modify commit emit read now
                  gemini_service.call_api gemini_service.get_client] iota;
  simpl.

(** ** The session row *)

Section SessionRow.

Implicit Types (d : database) (rs : ResearchSession.t).

Lemma find_filter_head {A : Type} (p : A -> bool) (l : list A) x rest :
  filter p l = x :: rest -> find p l = Some x.
Proof.
  induction l as [|a l IH]; simpl; [discriminate|].
  destruct (p a); [congruence | exact IH].
Qed.

Lemma session_rows_found d session_id rs :
  Query.session_rows d session_id = [rs] ->
  ResearchSession.id rs = session_id
  /\ find (fun s => (ResearchSession.id s =? session_id)%Z) (sessions d) = Some rs.
Proof.
  intros H. split.
  - assert (Hin : In rs (Query.session_rows d session_id)) by (rewrite H; now left).
    apply filter_In in Hin as [_ E]. now apply Z.eqb_eq.
  - eapply find_filter_head. exact H.
Qed.

Lemma find_update_session d session_id f :
  (forall s, ResearchSession.id (f s) = ResearchSession.id s) ->
  find (fun s => (ResearchSession.id s =? session_id)%Z)
    (sessions (update_session session_id f d))
  = option_map f (find (fun s => (ResearchSession.id s =? session_id)%Z) (sessions d)).
Proof.
  intros Hf. unfold update_session. simpl.
  induction (sessions d) as [|a l IH]; simpl; [reflexivity|].
  destruct (ResearchSession.id a =? session_id)%Z eqn:E.
  - rewrite Hf, E. reflexivity.
  - rewrite E. exact IH.
Qed.

Lemma session_status_update d session_id f s0 :
  (forall s, ResearchSession.id (f s) = ResearchSession.id s) ->
  find (fun s => (ResearchSession.id s =? session_id)%Z) (sessions d) = Some s0 ->
  session_status (update_session session_id f d) session_id
  = Some (ResearchSession.status (f s0)).
Proof.
  intros Hf E. unfold session_status. rewrite find_update_session, E; auto.
Qed.

End SessionRow.

(** ** The entry point of the worker *)

Section EntryPoint.

Variable env : environment.
Variable session_id : Z.

Implicit Types (w : world) (rs : ResearchSession.t).

Lemma session_rows_none w :
  (forall s, In s (sessions (db w)) -> ResearchSession.id s <> session_id) ->
  Query.session_rows (db w) session_id = [].
Proof.
  unfold Query.session_rows. induction (sessions (db w)) as [|a l IH]; intros H; simpl.
  - reflexivity.
  - destruct (Z.eqb_spec (ResearchSession.id a) session_id) as [E|_].
    + exfalso. apply (H a); [now left | exact E].
    + apply IH. intros s Hs. apply H. now right.
Qed.

(** C10. Invoked with a session id that matches no session row, the entry
    point returns normally and leaves the world as it found it: the
    database (session, task, log and fact tables) is the same and the trace
    has no new commit, service call or API request. *)
Theorem run_research_loop_unknown_session w :
  (forall s, In s (sessions (db w)) -> ResearchSession.id s <> session_id) ->
  workers.run_research_loop env session_id w = (Ok tt, w).
Proof.
  intros H. unfold workers.run_research_loop. run_monad.
  rewrite (session_rows_none w H). reflexivity.
Qed.

Lemma started_status rs w :
  Query.session_rows (db w) session_id = [rs] ->
  session_status (db (started rs w)) session_id = Some "running".
Proof.
  intros Hrow. destruct (session_rows_found _ _ _ Hrow) as [Hid Hfind].
  unfold started. cbn [db]. rewrite Hid.
  erewrite session_status_update; [reflexivity | reflexivity | exact Hfind].
Qed.

(** On an existing session the entry point commits [running] and stops at
    the call of line 38. *)
Lemma run_research_loop_existing rs w :
  Query.session_rows (db w) session_id = [rs] ->
  workers.run_research_loop env session_id w
  = (Raise (UnboundLocalError "_execute_research_loop"), started rs w).
Proof.
  intros Hrow. unfold workers.run_research_loop. run_monad. rewrite Hrow. reflexivity.
Qed.

End EntryPoint.

(** An instance of C10: session 7 does not exist in the scenario. *)
Lemma run_research_loop_unknown_session_witness :
  workers.run_research_loop Scenario.env_ok 7 Scenario.w0 = (Ok tt, Scenario.w0).
Proof.
  apply (run_research_loop_unknown_session Scenario.env_ok 7 Scenario.w0).
  intros s [<-|[]]. simpl. lia.
Defined.

(** ** Slices and the classes of API errors *)

Section Helpers.

Lemma slice_to_prefix n s : String.prefix (Py.slice_to n s) s = true.
Proof.
  revert s. induction n as [|n IH]; intros [|c s]; simpl; try reflexivity.
  destruct (Ascii.ascii_dec c c) as [_|N]; [apply IH | now destruct N].
Qed.

Lemma handle_gemini_error_cases msg operation :
  (exists q, gemini_service._handle_gemini_error msg operation = QuotaExhaustedError q)
  \/ gemini_service._handle_gemini_error msg operation = ClientError msg.
Proof.
  unfold gemini_service._handle_gemini_error.
  destruct (_ || _ || _)%bool; eauto.
Qed.

End Helpers.

(** ** The loop the entry point never enters *)

Section LoopCall.

Variable env : environment.
Variable session_id : Z.

Implicit Types (w : world) (rs : ResearchSession.t) (task : ResearchTask.t).

(** A pass of the loop body on a task just fetched stops at the read of
    [task.description]. *)
Lemma execute_task_stops task w :
  workers.execute_task env session_id (workers.loaded task) w
  = (Raise MissingGreenlet,
     mkworld (marked_running task (db w))
       (trace w ++ [Commit (marked_running task (db w))]) (clock_reads w)).
Proof. reflexivity. Qed.

Lemma while_pending_stops fuel (o : workers.instance ResearchSession.t) w :
  workers.while_pending (S fuel) env session_id o w
  = match select_next (db w) session_id with
    | None => Some (Ok o, w)
    | Some task =>
        Some (Raise MissingGreenlet,
              mkworld (marked_running task (db w))
                (trace w ++ [Commit (marked_running task (db w))]) (clock_reads w))
    end.
Proof.
  cbn [workers.while_pending].
  destruct (select_next (db w) session_id) as [task|]; [|reflexivity].
  rewrite execute_task_stops. reflexivity.
Qed.

(** X1. Whatever the environment and the tables, one invocation of
    [run_research_loop] writes nothing but the status of its session: the
    branch, task, log and fact tables and the clock are as before, the
    only events it adds are commits (no call of a Gemini wrapper, no API
    request), and it never raises the quota error.  On an existing session
    it always ends with [UnboundLocalError], raised by its call of the
    loop right after the commit of [running]: the session table differs
    only by the status of that session, now [running]. *)
Theorem run_research_loop_writes_only_status w :
  let out := workers.run_research_loop env session_id w in
  branches (db (snd out)) = branches (db w)
  /\ tasks (db (snd out)) = tasks (db w)
  /\ logs (db (snd out)) = logs (db w)
  /\ facts (db (snd out)) = facts (db w)
  /\ clock_reads (snd out) = clock_reads w
  /\ (exists es, trace (snd out) = (trace w ++ es)%list
                 /\ Forall (fun e => is_commit e = true) es)
  /\ (forall q, fst out <> Raise (QuotaExhaustedError q))
  /\ (forall rs, Query.session_rows (db w) session_id = [rs] ->
        fst out = Raise (UnboundLocalError "_execute_research_loop")
        /\ sessions (db (snd out))
           = map (fun s => if (ResearchSession.id s =? session_id)%Z
                           then ResearchSession.with_status s "running" else s)
               (sessions (db w))).
Proof.
  cbv zeta. unfold workers.run_research_loop. run_monad.
  destruct (Query.session_rows (db w) session_id) as [|rs0 [|rs1 rows]] eqn:Hrow; simpl.
  - repeat (split; [reflexivity|]).
    split; [exists []; rewrite app_nil_r; split; [reflexivity | constructor]|].
    split; [discriminate | discriminate].
  - destruct (session_rows_found _ _ _ Hrow) as [Hid _].
    repeat (split; [reflexivity|]).
    split; [eexists; split; [reflexivity | repeat constructor]|].
    split; [discriminate|].
    intros rs [= <-]. split; [reflexivity|]. rewrite Hid. reflexivity.
  - repeat (split; [reflexivity|]).
    split; [exists []; rewrite app_nil_r; split; [reflexivity | constructor]|].
    split; [discriminate | discriminate].
Qed.

(** X2. The nested function [_execute_research_loop], entered with the
    session object as [_run] holds it at line 38 (expired by the commit of
    [running]), never calls a Gemini wrapper and never returns: it raises
    [MissingGreenlet] at its first read of a column of an expired object.
    With no pending task that is the read of
    [research_session.original_prompt], before the synthesis call, and
    nothing was written; with a pending task it is the read of
    [task.description] in the first pass, before the reasoning call, and
    the only write is the commit of that task as [running]. *)
Theorem execute_research_loop_stops_at_expired_read rs w :
  exists w',
    workers._execute_research_loop env (held_by_run rs) session_id w
    = Some (Raise MissingGreenlet, w')
    /\ sessions (db w') = sessions (db w)
    /\ logs (db w') = logs (db w)
    /\ clock_reads w' = clock_reads w
    /\ (exists es, trace w' = (trace w ++ es)%list
                   /\ Forall (fun e => is_commit e = true) es)
    /\ match select_next (db w) session_id with
       | None => w' = w
       | Some task =>
           db w' = marked_running task (db w)
           /\ trace w' = (trace w ++ [Commit (marked_running task (db w))])%list
       end.
Proof.
  unfold workers._execute_research_loop. rewrite while_pending_stops.
  destruct (select_next (db w) session_id) as [task|].
  - eexists. split; [reflexivity|]. cbn [db trace clock_reads].
    repeat (split; [reflexivity|]).
    split; [eexists; split; [reflexivity | repeat constructor]|].
    split; reflexivity.
  - exists w. split; [destruct w; reflexivity|].
    repeat (split; [reflexivity|]).
    split; [exists []; rewrite app_nil_r; split; [reflexivity | constructor]|].
    reflexivity.
Qed.

End LoopCall.

(** C2.  The scenario with an API that answers every request with a quota
    error: the entry point stops with [UnboundLocalError] at its call of
    the loop, before any task is selected and before any reasoning call.
    The handler of the quota error is not reached: the session is left
    [running], not [failed], and the log table has no [error] entry.  Run
    by itself on that world, the handler marks the session [failed] and
    writes one [error] log. *)
Theorem quota_handler_not_reached :
  let out := workers.run_research_loop Scenario.env_quota_first 1 Scenario.w0 in
  let handled := workers.on_quota_exhausted Scenario.env_quota_first Scenario.session1 1
                   "quota" (snd out) in
  fst out = Raise (UnboundLocalError "_execute_research_loop")
  /\ session_status (db (snd out)) 1 = Some "running"
  /\ tasks (db (snd out)) = tasks Scenario.db0
  /\ logs (db (snd out)) = []
  /\ filter is_invoke (trace (snd out)) = []
  /\ count_generate (trace (snd out)) = 0%nat
  /\ session_status (db (snd handled)) 1 = Some "failed"
  /\ map AgentLog.type (logs (db (snd handled))) = ["error"].
Proof. vm_compute. repeat split. Qed.

(** C4.  The session without tasks, with an API key: the entry point stops
    with [UnboundLocalError] before the synthesis step, so the session is
    left [running] with no final synthesis, whether the API would have
    answered or failed.  The wrapper [synthesize_research] by itself does
    return the fixed fallback message when the API call fails. *)
Theorem synthesis_step_not_reached :
  let out := workers.run_research_loop Scenario.env_failing_synthesis 1 Scenario.idle_w in
  let out_ok := workers.run_research_loop Scenario.env_ok 1 Scenario.idle_w in
  fst out = Raise (UnboundLocalError "_execute_research_loop")
  /\ session_status (db (snd out)) 1 = Some "running"
  /\ session_synthesis (db (snd out)) 1 = Some None
  /\ fst out_ok = Raise (UnboundLocalError "_execute_research_loop")
  /\ session_status (db (snd out_ok)) 1 = Some "running"
  /\ session_synthesis (db (snd out_ok)) 1 = Some None
  /\ fst (gemini_service.synthesize_research Scenario.env_failing_synthesis "X" []
            Scenario.idle_w)
     = Ok "Could not synthesize final report.".
Proof. vm_compute. repeat split. Qed.

(** C5.  The scenario, where task C is the one the scheduler selects.  The
    entry point stops with [UnboundLocalError] before the executor gets
    any task: no task row changes and no reasoning call is made.  One
    pass of the loop body on task C, entered directly, commits the task
    as [running], and then stops with [MissingGreenlet] at the read of the
    description of the task, which that commit has expired: the reasoning
    call is not made, no result is stored, the task is not marked [done]
    and no [success] log is written. *)
Theorem executor_stops_before_reasoning_call :
  let out := workers.run_research_loop Scenario.env_ok 1 Scenario.w0 in
  let pass := workers.execute_task Scenario.env_ok 1 (workers.loaded Scenario.task_C)
                Scenario.w0 in
  select_next Scenario.db0 1 = Some Scenario.task_C
  /\ fst out = Raise (UnboundLocalError "_execute_research_loop")
  /\ tasks (db (snd out)) = tasks Scenario.db0
  /\ filter is_invoke (trace (snd out)) = []
  /\ fst pass = Raise MissingGreenlet
  /\ trace (snd pass) = [Commit (marked_running Scenario.task_C Scenario.db0)]
  /\ tasks (db (snd pass))
     = [Scenario.task_A; Scenario.task_B;
        ResearchTask.with_status Scenario.task_C "running"]
  /\ logs (db (snd pass)) = [].
Proof. vm_compute. repeat split. Qed.

(** C6.  Task C of the scenario is pending, has the highest priority,
    belongs to the paused branch B2 and depends on the unfinished task B:
    the scheduler query selects it, also after [pause_branch] toggled the
    other branch, so eligibility ignores the branch status and the
    dependencies.  But the task is not executed: the entry point stops with
    [UnboundLocalError] before the query runs, leaving C [pending] without
    a result, and a pass of the loop body on C, entered directly, stops
    with [MissingGreenlet] before the reasoning call, leaving C [running]
    without a result. *)
Theorem selected_task_not_executed :
  let paused := snd (routes.pause_branch 1 Scenario.w0) in
  let out := workers.run_research_loop Scenario.env_ok 1 paused in
  let pass := workers.execute_task Scenario.env_ok 1 (workers.loaded Scenario.task_C)
                paused in
  map ResearchBranch.status (branches (db paused)) = ["paused"; "paused"]
  /\ select_next (db paused) 1 = Some Scenario.task_C
  /\ fst out = Raise (UnboundLocalError "_execute_research_loop")
  /\ select_next (db (snd out)) 1 = Some Scenario.task_C
  /\ filter is_invoke (trace (snd out)) = []
  /\ fst pass = Raise MissingGreenlet
  /\ filter is_invoke (trace (snd pass)) = []
  /\ map ResearchTask.result (tasks (db (snd pass))) = [None; None; None]
  /\ map ResearchTask.status (tasks (db (snd pass))) = ["pending"; "pending"; "running"].
Proof. vm_compute. repeat split. Qed.

(** C9.  The session without tasks: the entry point changes no task row,
    but it stops with [UnboundLocalError] before the synthesis step, so
    the synthesis service is called zero times, not once. *)
Theorem idle_session_never_synthesizes :
  let out := workers.run_research_loop Scenario.env_ok 1 Scenario.idle_w in
  fst out = Raise (UnboundLocalError "_execute_research_loop")
  /\ tasks (db (snd out)) = tasks Scenario.idle_db
  /\ List.length (filter is_synthesis (trace (snd out))) = 0%nat
  /\ filter is_invoke (trace (snd out)) = []
  /\ session_status (db (snd out)) 1 = Some "running".
Proof. vm_compute. repeat split. Qed.

(** ** What the scheduler does not look at *)

Section Eligibility.

Variable session_id : Z.

Implicit Types (k task : ResearchTask.t) (d : database) (w : world).

Lemma map_filter_flat_map {A B C : Type} (g : B -> C) (p : B -> bool) (F : A -> list B)
    (l : list A) :
  map g (filter p (flat_map F l)) = flat_map (fun a => map g (filter p (F a))) l.
Proof.
  induction l as [|a l IH]; simpl; [reflexivity|].
  rewrite filter_app, map_app, IH. reflexivity.
Qed.

(** The rows a task contributes to the query depend on the branches only
    through their ids and session ids. *)
Lemma joined_rows_keys k (bs bs' : list ResearchBranch.t) :
  map ResearchBranch.id bs' = map ResearchBranch.id bs ->
  map ResearchBranch.session_id bs' = map ResearchBranch.session_id bs ->
  map fst (filter (Query.pending_where session_id)
             (map (pair k)
                (filter (fun b => (ResearchBranch.id b =? ResearchTask.branch_id k)%Z) bs')))
  = map fst (filter (Query.pending_where session_id)
               (map (pair k)
                  (filter (fun b => (ResearchBranch.id b =? ResearchTask.branch_id k)%Z) bs))).
Proof.
  revert bs. induction bs' as [|b' bs' IH]; intros [|b bs] Hi Hs; simpl in *;
    try discriminate; [reflexivity|].
  injection Hi as Hi1 Hi. injection Hs as Hs1 Hs. rewrite Hi1.
  assert (E : Query.pending_where session_id (k, b') = Query.pending_where session_id (k, b)).
  { unfold Query.pending_where. simpl. now rewrite Hs1. }
  destruct (ResearchBranch.id b =? ResearchTask.branch_id k)%Z; [|now apply IH].
  cbn [map filter]. rewrite E.
  destruct (Query.pending_where session_id (k, b)); cbn [map fst];
    [f_equal|]; now apply IH.
Qed.

Lemma select_next_branch_keys d d' :
  tasks d' = tasks d ->
  map ResearchBranch.id (branches d') = map ResearchBranch.id (branches d) ->
  map ResearchBranch.session_id (branches d') = map ResearchBranch.session_id (branches d) ->
  select_next d' session_id = select_next d session_id.
Proof.
  intros Ht Hi Hs. unfold select_next, Query.pending_tasks, Query.join_branch.
  rewrite !map_filter_flat_map, Ht. f_equal. f_equal.
  apply flat_map_ext. intros k. now apply joined_rows_keys.
Qed.

Lemma update_branch_keys bid st d :
  map ResearchBranch.id (branches (update_branch bid (fun b => ResearchBranch.with_status b st) d))
  = map ResearchBranch.id (branches d)
  /\ map ResearchBranch.session_id
       (branches (update_branch bid (fun b => ResearchBranch.with_status b st) d))
     = map ResearchBranch.session_id (branches d).
Proof.
  unfold update_branch. simpl. rewrite !map_map.
  split; apply map_ext; intros b; destruct (ResearchBranch.id b =? bid)%Z; reflexivity.
Qed.

(** Toggling a branch between [active] and [paused] does not change what
    the scheduler selects. *)
Lemma pause_branch_select_next bid w r w' :
  routes.pause_branch bid w = (r, w') ->
  select_next (db w') session_id = select_next (db w) session_id.
Proof.
  unfold routes.pause_branch, one_or_none. run_monad.
  destruct (filter _ (branches (db w))) as [|b [|b2 rest]]; simpl;
    intros E; injection E as <- <-; try reflexivity.
  cbn [db]. apply select_next_branch_keys; [reflexivity | |]; apply update_branch_keys.
Qed.

(** A pending task that sorts strictly before every other pending task of
    the session is the one selected. *)
Lemma select_next_top d k :
  pending_in_session d session_id k ->
  (forall k', pending_in_session d session_id k' ->
     k' = k
     \/ (ResearchTask.priority k' < ResearchTask.priority k
         \/ (ResearchTask.priority k' = ResearchTask.priority k
             /\ ResearchTask.id k < ResearchTask.id k'))%Z) ->
  select_next d session_id = Some k.
Proof.
  intros Hk Htop.
  destruct (select_next d session_id) as [h|] eqn:E.
  - apply select_next_some in E as [Hh Hmin].
    specialize (Hmin k Hk). apply before_spec in Hmin.
    destruct (Htop h Hh) as [->|Hs]; [reflexivity | lia].
  - rewrite select_next_none in E. destruct (E k Hk).
Qed.

(** X3. A pending task of the session that precedes every other pending
    task of the session in the order (priority descending, id ascending)
    is the one the scheduler query selects, whatever the status of its
    branch and whatever its dependency list: the selection is the same
    after any branch is toggled through [pause_branch], and it is the same
    task when the dependency lists of the table are replaced by arbitrary
    ones. *)
Theorem selection_ignores_pause_and_dependencies d k :
  pending_in_session d session_id k ->
  (forall k', pending_in_session d session_id k' ->
     k' = k
     \/ (ResearchTask.priority k' < ResearchTask.priority k
         \/ (ResearchTask.priority k' = ResearchTask.priority k
             /\ ResearchTask.id k < ResearchTask.id k'))%Z) ->
  select_next d session_id = Some k
  /\ (forall bid w r w',
        db w = d -> routes.pause_branch bid w = (r, w') ->
        select_next (db w') session_id = Some k)
  /\ (forall deps : ResearchTask.t -> list string,
        select_next
          (with_tasks d (map (fun t => ResearchTask.with_dependencies t (deps t)) (tasks d)))
          session_id
        = Some (ResearchTask.with_dependencies k (deps k))).
Proof.
  intros Hk Htop.
  pose proof (select_next_top d k Hk Htop) as Hsel.
  split; [exact Hsel|]. split.
  - intros bid w r w' <- E. rewrite (pause_branch_select_next bid w r w' E). exact Hsel.
  - intros deps. apply select_next_top.
    + destruct Hk as (Hin & Hp & b & Hb & Hid & Hs).
      split; [|split; [exact Hp | exists b; auto]].
      simpl. apply in_map_iff. exists k. auto.
    + intros k' (Hin & Hp & b & Hb & Hid & Hs). simpl in Hin.
      apply in_map_iff in Hin as (k0 & <- & Hin0).
      destruct (Htop k0) as [->|Hlt]; [|left; reflexivity | right; exact Hlt].
      split; [exact Hin0|]. split; [exact Hp|]. exists b. auto.
Qed.

End Eligibility.

(** An instance of X3: task C of the scenario has priority 9, belongs to
    the paused branch B2 and depends on the unfinished task B. *)
Lemma selection_ignores_pause_and_dependencies_witness :
  select_next Scenario.db0 1 = Some Scenario.task_C
  /\ (forall bid w r w',
        db w = Scenario.db0 -> routes.pause_branch bid w = (r, w') ->
        select_next (db w') 1 = Some Scenario.task_C)
  /\ (forall deps : ResearchTask.t -> list string,
        select_next
          (with_tasks Scenario.db0
             (map (fun t => ResearchTask.with_dependencies t (deps t)) (tasks Scenario.db0)))
          1
        = Some (ResearchTask.with_dependencies Scenario.task_C (deps Scenario.task_C))).
Proof.
  apply (selection_ignores_pause_and_dependencies 1 Scenario.db0 Scenario.task_C).
  - split; [simpl; tauto|]. split; [reflexivity|].
    exists (ResearchBranch.mk 2 1 "B2" "paused" 0). simpl. tauto.
  - intros k' (Hin & _). simpl in Hin.
    destruct Hin as [<-|[<-|[<-|[]]]]; simpl; [right; lia | right; lia | left; reflexivity].
Defined.

(** ** Session creation and the plan builder *)

Section PlanBuilder.

Variable env : environment.

Implicit Types (w : world) (payload : routes.start_payload).

Lemma next_id_above ids x : In x ids -> (x < next_id ids)%Z.
Proof.
  unfold next_id. induction ids as [|a l IH]; intros Hin; [destruct Hin|].
  cbn [fold_right]. destruct Hin as [->|Hin]; [lia|]. specialize (IH Hin). lia.
Qed.

Lemma map_id_on {A : Type} (g : A -> A) (l : list A) :
  (forall x, In x l -> g x = x) -> map g l = l.
Proof.
  induction l as [|a l IH]; intros H; simpl; [reflexivity|].
  rewrite H by now left. rewrite IH; [reflexivity|]. intros x Hx. apply H. now right.
Qed.

(** Updating the row of the session just created leaves the older rows
    alone. *)
Lemma update_new_session w prompt timestamp f :
  sessions (update_session (new_session_id w) f (routes.add_session prompt timestamp (db w)))
  = (sessions (db w)
     ++ [f (ResearchSession.mk (new_session_id w) prompt "pending" timestamp None)])%list.
Proof.
  unfold update_session, routes.add_session, new_session_id. simpl.
  rewrite map_app. simpl. rewrite Z.eqb_refl. f_equal.
  apply map_id_on. intros s Hs.
  destruct (Z.eqb_spec (ResearchSession.id s) (next_id (map ResearchSession.id (sessions (db w)))))
    as [E|_]; [|reflexivity].
  pose proof (next_id_above (map ResearchSession.id (sessions (db w))) (ResearchSession.id s)
                (in_map _ _ _ Hs)). lia.
Qed.

Lemma find_new_session w (l : list ResearchSession.t) s :
  l = (sessions (db w) ++ [s])%list -> ResearchSession.id s = new_session_id w ->
  find (fun x => (ResearchSession.id x =? new_session_id w)%Z) l = Some s.
Proof.
  intros -> Hid. unfold new_session_id in *.
  assert (H : forall x, In x (sessions (db w)) ->
                        (ResearchSession.id x
                         < next_id (map ResearchSession.id (sessions (db w))))%Z).
  { intros x Hx. apply next_id_above. now apply in_map. }
  revert Hid H. generalize (next_id (map ResearchSession.id (sessions (db w)))) as n.
  intros n. generalize (sessions (db w)) as l.
  induction l as [|a l IH]; intros Hid H; simpl.
  - rewrite Hid, Z.eqb_refl. reflexivity.
  - destruct (Z.eqb_spec (ResearchSession.id a) n) as [E|_].
    + specialize (H a (or_introl eq_refl)). lia.
    + apply IH; [exact Hid|]. intros x Hx. apply H. now right.
Qed.

(** The planning call writes nothing to the database. *)
Lemma orchestrate_plan_frame prompt attachments w r w1 :
  gemini_service.orchestrate_plan env prompt attachments w = (r, w1) ->
  db w1 = db w
  /\ clock_reads w1 = clock_reads w
  /\ exists es, trace w1 = (trace w ++ es)%list /\ filter is_enqueue es = [].
Proof.
  unfold gemini_service.orchestrate_plan. run_monad.
  destruct (GEMINI_API_KEY env) as [[|c key]|]; simpl.
  - intros E. injection E as <- <-. simpl. repeat split. eexists. split; reflexivity.
  - destruct (generate_content env _ _) as [text uris|e]; simpl.
    + destruct (extract_plan env _); simpl; intros E; injection E as <- <-; simpl;
        repeat split; eexists; (split; [rewrite <- app_assoc; reflexivity | reflexivity]).
    + intros E; injection E as <- <-; simpl.
      repeat split; eexists; (split; [rewrite <- app_assoc; reflexivity | reflexivity]).
  - intros E. injection E as <- <-. simpl. repeat split. eexists. split; reflexivity.
Qed.

Lemma start_research_unfold payload w c p :
  payload_prompt payload = String c p ->
  routes.start_research env payload w
  = let prompt := String c p in
    let sid := new_session_id w in
    match gemini_service.orchestrate_plan env prompt (payload_attachments payload)
            (session_created env prompt w) with
    | (Raise (QuotaExhaustedError e), w1) =>
        let d := update_session sid (fun s => ResearchSession.with_status s "failed") (db w1) in
        (Raise (HTTPException 503 e), mkworld d (trace w1 ++ [Commit d]) (clock_reads w1))
    | (Raise e, w1) => (Raise e, w1)
    | (Ok plan, w1) =>
        (for_each plan (routes.persist_branch env sid) ;;
         emit (Enqueue sid) ;;
         ret (routes.SessionReply sid)) w1
    end.
Proof.
  unfold routes.start_research, payload_prompt, payload_attachments.
  destruct (routes.prompt payload) as [[text|]|]; intros Hp;
    [| cbv in Hp; discriminate | cbv in Hp; discriminate].
  unfold bind at 1, ret at 1. cbv zeta. rewrite Hp.
  unfold routes.try_except_quota, session_created, new_session_id. run_monad.
  destruct (gemini_service.orchestrate_plan env _ _ _) as [[plan|e] w1]; [reflexivity|].
  destruct e; reflexivity.
Qed.

(** C7. If the planning call of [start_research] raises the
    quota-exhaustion error, the handler raises an HTTP exception with
    status code 503 carrying the error text; the session row it had just
    created is committed with status [failed]; the branch table and the
    task table are unchanged; and the research loop is not enqueued. *)
Theorem start_research_quota_exhausted payload w e w1 :
  payload_prompt payload <> EmptyString ->
  gemini_service.orchestrate_plan env (payload_prompt payload) (payload_attachments payload)
    (session_created env (payload_prompt payload) w)
  = (Raise (QuotaExhaustedError e), w1) ->
  exists w' es,
    routes.start_research env payload w = (Raise (HTTPException 503 e), w')
    /\ sessions (db w')
       = (sessions (db w)
          ++ [ResearchSession.mk (new_session_id w) (payload_prompt payload) "failed"
                (utcnow env (clock_reads w)) None])%list
    /\ session_status (db w') (new_session_id w) = Some "failed"
    /\ branches (db w') = branches (db w)
    /\ tasks (db w') = tasks (db w)
    /\ trace w' = (trace w ++ es ++ [Commit (db w')])%list
    /\ filter is_enqueue es = [].
Proof.
  intros Hne Hplan.
  destruct (payload_prompt payload) as [|c p] eqn:Hp; [contradiction|].
  rewrite (start_research_unfold payload w c p Hp). cbv zeta. rewrite Hplan.
  apply orchestrate_plan_frame in Hplan as (Hdb & _ & es & Htr & Hes).
  eexists _, (Commit _ :: es)%list. split; [reflexivity|]. cbn [db trace].
  assert (Hs : sessions (update_session (new_session_id w)
                           (fun s => ResearchSession.with_status s "failed") (db w1))
               = (sessions (db w)
                  ++ [ResearchSession.mk (new_session_id w) (String c p) "failed"
                        (utcnow env (clock_reads w)) None])%list).
  { rewrite Hdb. unfold session_created. cbn [db]. apply update_new_session. }
  split; [exact Hs|]. split.
  { unfold session_status. rewrite (find_new_session w _ _ Hs eq_refl). reflexivity. }
  split; [rewrite Hdb; reflexivity|]. split; [rewrite Hdb; reflexivity|].
  split; [|exact Hes].
  rewrite Htr. unfold session_created. cbn [trace]. rewrite <- !app_assoc. reflexivity.
Qed.

End PlanBuilder.

(** An instance: the API reports [429] on the planning request. *)
Lemma start_research_quota_exhausted_witness :
  exists w' es,
    routes.start_research Scenario.env_quota_first Scenario.payload1 Scenario.w0
    = (Raise (HTTPException 503
                "Gemini API quota exhausted during orchestrate_plan. Please wait for quota reset or upgrade to a paid plan. See: https://ai.google.dev/pricing"),
       w')
    /\ sessions (db w')
       = (sessions (db Scenario.w0)
          ++ [ResearchSession.mk (new_session_id Scenario.w0)
                (payload_prompt Scenario.payload1) "failed"
                (utcnow Scenario.env_quota_first (clock_reads Scenario.w0)) None])%list
    /\ session_status (db w') (new_session_id Scenario.w0) = Some "failed"
    /\ branches (db w') = branches (db Scenario.w0)
    /\ tasks (db w') = tasks (db Scenario.w0)
    /\ trace w' = (trace Scenario.w0 ++ es ++ [Commit (db w')])%list
    /\ filter is_enqueue es = [].
Proof.
  eapply (start_research_quota_exhausted Scenario.env_quota_first Scenario.payload1
            Scenario.w0).
  - discriminate.
  - vm_compute. reflexivity.
Defined.

Section PersistPlan.

Variable env : environment.

Implicit Types (w : world) (payload : routes.start_payload).

(** The inner loop [for task_data in branch_data.get("tasks", [])]. *)
Lemma persist_tasks branch_id (tds : list task_descriptor) w :
  exists ks,
    for_each tds (routes.persist_task env branch_id) w
    = (Ok tt, mkworld (with_tasks (db w) (tasks (db w) ++ ks)) (trace w)
                (List.length tds + clock_reads w))
    /\ Forall2 (task_matches branch_id) tds ks.
Proof.
  revert w. induction tds as [|td tds IH]; intros w.
  - exists []. split; [|constructor]. simpl. unfold ret. rewrite app_nil_r.
    destruct w as [[ss bs ts ls fs] tr c]. reflexivity.
  - simpl. unfold routes.persist_task at 1. run_monad.
    match goal with |- context [for_each tds ?body ?w2] =>
      destruct (IH w2) as (ks & E & Hks)
    end.
    eexists (_ :: ks). split.
    + rewrite E. simpl. rewrite <- app_assoc. simpl. rewrite Nat.add_succ_r. reflexivity.
    + constructor; [|exact Hks]. repeat split.
Qed.

(** One pass of [for branch_data in branches] whose task rows the table
    accepts. *)
Lemma persist_branch_spec session_id (bd : branch_descriptor) w :
  routes.tasks_fit env (descriptor_tasks bd) = true ->
  exists b ks w',
    routes.persist_branch env session_id bd w = (Ok tt, w')
    /\ sessions (db w') = sessions (db w)
    /\ branches (db w') = (branches (db w) ++ [b])%list
    /\ tasks (db w') = (tasks (db w) ++ ks)%list
    /\ branch_matches session_id bd b
    /\ Forall2 (task_matches (ResearchBranch.id b)) (descriptor_tasks bd) ks
    /\ exists es, trace w' = (trace w ++ es)%list /\ filter is_enqueue es = [].
Proof.
  intros Hfit. unfold routes.persist_branch, routes.commit_tasks.
  fold (descriptor_tasks bd). rewrite Hfit. run_monad.
  match goal with |- context [for_each ?tds ?body ?w2] =>
    destruct (persist_tasks (next_id (map ResearchBranch.id (branches (db w)))) tds w2)
      as (ks & E & Hks)
  end.
  rewrite E. simpl.
  eexists _, ks, _. split; [reflexivity|]. simpl.
  split; [reflexivity|]. split; [reflexivity|]. split; [reflexivity|].
  split; [repeat split|]. split; [exact Hks|].
  eexists. split; [rewrite <- app_assoc; reflexivity | reflexivity].
Qed.

(** One pass of [for branch_data in branches] with a priority the table
    refuses: the branch row stays, its task rows are not written. *)
Lemma persist_branch_refused session_id (bd : branch_descriptor) w :
  routes.tasks_fit env (descriptor_tasks bd) = false ->
  exists b w',
    routes.persist_branch env session_id bd w = (Raise DBAPIError, w')
    /\ sessions (db w') = sessions (db w)
    /\ branches (db w') = (branches (db w) ++ [b])%list
    /\ tasks (db w') = tasks (db w)
    /\ branch_matches session_id bd b
    /\ exists es, trace w' = (trace w ++ es)%list /\ filter is_enqueue es = [].
Proof.
  intros Hfit. unfold routes.persist_branch, routes.commit_tasks.
  fold (descriptor_tasks bd). rewrite Hfit. run_monad.
  match goal with |- context [for_each ?tds ?body ?w2] =>
    destruct (persist_tasks (next_id (map ResearchBranch.id (branches (db w)))) tds w2)
      as (ks & E & Hks)
  end.
  rewrite E. simpl.
  eexists _, _. split; [reflexivity|]. simpl.
  split; [reflexivity|]. split; [reflexivity|]. split; [reflexivity|].
  split; [repeat split|].
  eexists. split; reflexivity.
Qed.

Lemma priorities_fit_cons bd plan :
  priorities_fit env (bd :: plan) = true ->
  routes.tasks_fit env (descriptor_tasks bd) = true /\ priorities_fit env plan = true.
Proof.
  unfold priorities_fit, routes.tasks_fit. simpl. rewrite forallb_app.
  intros H. now apply andb_true_iff in H.
Qed.

Lemma persist_plan session_id (plan : list branch_descriptor) w :
  priorities_fit env plan = true ->
  exists bs ks w',
    for_each plan (routes.persist_branch env session_id) w = (Ok tt, w')
    /\ sessions (db w') = sessions (db w)
    /\ branches (db w') = (branches (db w) ++ bs)%list
    /\ tasks (db w') = (tasks (db w) ++ ks)%list
    /\ persisted session_id plan bs ks
    /\ exists es, trace w' = (trace w ++ es)%list /\ filter is_enqueue es = [].
Proof.
  revert w. induction plan as [|bd plan IH]; intros w Hfit.
  - exists [], [], w. simpl. rewrite !app_nil_r. repeat split; try constructor.
    exists []. rewrite app_nil_r. auto.
  - apply priorities_fit_cons in Hfit as [Hbd Hplan].
    destruct (persist_branch_spec session_id bd w Hbd)
      as (b & ks & w1 & E & HS & HB & HT & Hb & Hks & es1 & Htr1 & Hes1).
    destruct (IH w1 Hplan)
      as (bs & ks' & w2 & E2 & HS2 & HB2 & HT2 & Hp & es2 & Htr2 & Hes2).
    exists (b :: bs), (ks ++ ks')%list, w2. simpl. unfold bind. rewrite E, E2.
    split; [reflexivity|]. split; [congruence|].
    split; [rewrite HB2, HB, <- app_assoc; reflexivity|].
    split; [rewrite HT2, HT, <- app_assoc; reflexivity|].
    split; [now constructor|].
    exists (es1 ++ es2)%list. split.
    + rewrite Htr2, Htr1, <- app_assoc. reflexivity.
    + rewrite filter_app, Hes1, Hes2. reflexivity.
Qed.

(** The plan whose first branches are accepted and whose next branch has
    a priority the table refuses. *)
Lemma persist_plan_refused session_id (good : list branch_descriptor) bd rest w :
  priorities_fit env good = true ->
  routes.tasks_fit env (descriptor_tasks bd) = false ->
  exists bs ks b w',
    for_each (good ++ bd :: rest) (routes.persist_branch env session_id) w
    = (Raise DBAPIError, w')
    /\ sessions (db w') = sessions (db w)
    /\ branches (db w') = (branches (db w) ++ bs ++ [b])%list
    /\ tasks (db w') = (tasks (db w) ++ ks)%list
    /\ persisted session_id good bs ks
    /\ branch_matches session_id bd b
    /\ exists es, trace w' = (trace w ++ es)%list /\ filter is_enqueue es = [].
Proof.
  revert w. induction good as [|g good IH]; intros w Hfit Hbad.
  - destruct (persist_branch_refused session_id bd w Hbad)
      as (b & w1 & E & HS & HB & HT & Hb & Htr).
    exists [], [], b, w1. simpl. unfold bind. rewrite E.
    split; [reflexivity|]. split; [exact HS|]. split; [exact HB|].
    split; [rewrite app_nil_r; exact HT|]. split; [constructor|]. split; assumption.
  - apply priorities_fit_cons in Hfit as [Hg Hgood].
    destruct (persist_branch_spec session_id g w Hg)
      as (b0 & ks0 & w1 & E & HS & HB & HT & Hb0 & Hks0 & es1 & Htr1 & Hes1).
    destruct (IH w1 Hgood Hbad)
      as (bs & ks & b & w2 & E2 & HS2 & HB2 & HT2 & Hp & Hb & es2 & Htr2 & Hes2).
    exists (b0 :: bs), (ks0 ++ ks)%list, b, w2. simpl. unfold bind. rewrite E, E2.
    split; [reflexivity|]. split; [congruence|].
    split; [rewrite HB2, HB, <- app_assoc; reflexivity|].
    split; [rewrite HT2, HT, <- app_assoc; reflexivity|].
    split; [now constructor|]. split; [exact Hb|].
    exists (es1 ++ es2)%list. split.
    + rewrite Htr2, Htr1, <- app_assoc. reflexivity.
    + rewrite filter_app, Hes1, Hes2. reflexivity.
Qed.

(** Whatever the plan, storing it leaves the session table alone, enqueues
    nothing, and either returns or raises the error of the database. *)
Lemma persist_plan_outcome session_id (plan : list branch_descriptor) w :
  exists r w',
    for_each plan (routes.persist_branch env session_id) w = (r, w')
    /\ (r = Ok tt \/ r = Raise DBAPIError)
    /\ sessions (db w') = sessions (db w)
    /\ exists es, trace w' = (trace w ++ es)%list /\ filter is_enqueue es = [].
Proof.
  revert w. induction plan as [|bd plan IH]; intros w.
  - exists (Ok tt), w. split; [reflexivity|]. split; [now left|]. split; [reflexivity|].
    exists []. rewrite app_nil_r. auto.
  - destruct (routes.tasks_fit env (descriptor_tasks bd)) eqn:Hbd.
    + destruct (persist_branch_spec session_id bd w Hbd)
        as (b & ks & w1 & E & HS & _ & _ & _ & _ & es1 & Htr1 & Hes1).
      destruct (IH w1) as (r & w2 & E2 & Hr & HS2 & es2 & Htr2 & Hes2).
      exists r, w2. simpl. unfold bind. rewrite E, E2.
      split; [reflexivity|]. split; [exact Hr|]. split; [congruence|].
      exists (es1 ++ es2)%list. split.
      * rewrite Htr2, Htr1, <- app_assoc. reflexivity.
      * rewrite filter_app, Hes1, Hes2. reflexivity.
    + destruct (persist_branch_refused session_id bd w Hbd)
        as (b & w1 & E & HS & _ & _ & _ & Htr).
      exists (Raise DBAPIError), w1. simpl. unfold bind. rewrite E.
      split; [reflexivity|]. split; [now right|]. split; assumption.
Qed.



End PersistPlan.



(** ** Session creation: the prompt gate and planning failures *)

Section SessionCreation.

Variable env : environment.

Implicit Types (w : world) (payload : routes.start_payload).

Lemma lstrip_blank s : blank s = true -> Py.lstrip s = EmptyString.
Proof.
  induction s as [|c s IH]; simpl; [reflexivity|].
  intros H. apply andb_true_iff in H as [Hc Hs]. rewrite Hc. auto.
Qed.

Lemma lstrip_not_blank s :
  blank s = false ->
  exists c r, Py.lstrip s = String c r /\ Py.is_space c = false.
Proof.
  induction s as [|c s IH]; simpl; [discriminate|].
  destruct (Py.is_space c) eqn:Hc; simpl; [exact IH | eauto].
Qed.

Lemma rstrip_head c r : Py.is_space c = false -> Py.rstrip (String c r) <> EmptyString.
Proof.
  intros Hc. simpl. destruct (Py.rstrip r); [rewrite Hc|]; discriminate.
Qed.

(** The stripped prompt is empty exactly when the prompt is blank. *)
Lemma strip_empty_iff s : Py.strip s = EmptyString <-> blank s = true.
Proof.
  unfold Py.strip. split.
  - intros H. destruct (blank s) eqn:Hb; [reflexivity|].
    destruct (lstrip_not_blank s Hb) as (c & r & E & Hc). rewrite E in H.
    destruct (rstrip_head c r Hc H).
  - intros H. rewrite (lstrip_blank s H). reflexivity.
Qed.

Lemma session_created_sessions payload w :
  sessions (db (session_created env (payload_prompt payload) w))
  = (sessions (db w) ++ [created_session env payload w "pending"])%list.
Proof. reflexivity. Qed.

Lemma orchestrate_plan_raises prompt attachments w e w1 :
  gemini_service.orchestrate_plan env prompt attachments w = (Raise e, w1) ->
  (exists msg, e = RuntimeError msg)
  \/ (exists msg, e = gemini_service._handle_gemini_error msg "orchestrate_plan")
  \/ e = JSONDecodeError
  \/ (exists msg, e = ValueError msg).
Proof.
  unfold gemini_service.orchestrate_plan. run_monad.
  destruct (GEMINI_API_KEY env) as [[|c key]|]; simpl.
  - intros [= <- _]. eauto.
  - destruct (generate_content env _ _) as [text uris|msg]; simpl.
    + destruct (extract_plan env _); simpl; intros [= <- _]; eauto.
    + intros [= <- _]. eauto.
  - intros [= <- _]. eauto.
Qed.

(** X5. [start_research] raises [AttributeError] and does nothing else
    when the request body holds a prompt that is not a string ([null]
    included).  It answers "prompt is required" and does nothing else (no
    row, no commit, no call) when the prompt is absent, empty or made of
    whitespace only.  For any other prompt it inserts exactly one session
    row, holding the stripped prompt, and that row is there whatever
    happens afterwards: its status is [failed] when planning ran out of
    quota and [pending] otherwise, also when planning or the storing of
    the plan raised another exception. *)
Theorem start_research_prompt_gate payload w :
  (prompt_is_text payload = false ->
   routes.start_research env payload w = (Raise (AttributeError "strip"), w))
  /\ (prompt_is_text payload = true -> blank (raw_prompt payload) = true ->
      routes.start_research env payload w
      = (Ok (routes.ErrorReply "prompt is required"), w))
  /\ (blank (raw_prompt payload) = false ->
      exists r w' status,
        routes.start_research env payload w = (r, w')
        /\ r <> Ok (routes.ErrorReply "prompt is required")
        /\ (forall name, r <> Raise (AttributeError name))
        /\ sessions (db w') = (sessions (db w) ++ [created_session env payload w status])%list
        /\ ((status = "failed" /\ exists q, r = Raise (HTTPException 503 q))
            \/ (status = "pending" /\ forall q, r <> Raise (HTTPException 503 q)))).
Proof.
  split; [|split].
  - unfold prompt_is_text, routes.start_research.
    destruct (routes.prompt payload) as [[text|]|]; try discriminate. reflexivity.
  - unfold prompt_is_text, raw_prompt, routes.start_research.
    destruct (routes.prompt payload) as [[text|]|]; try discriminate; intros _ Hb;
      [|reflexivity].
    apply strip_empty_iff in Hb. unfold bind at 1, ret at 1. cbv zeta. rewrite Hb.
    reflexivity.
  - intros Hb.
    assert (Hne : payload_prompt payload <> EmptyString).
    { unfold payload_prompt. fold (raw_prompt payload). intros H.
      apply strip_empty_iff in H. congruence. }
    destruct (payload_prompt payload) as [|c p] eqn:Hp; [contradiction|].
    rewrite (start_research_unfold env payload w c p Hp). cbv zeta.
    destruct (gemini_service.orchestrate_plan env (String c p) (payload_attachments payload)
                (session_created env (String c p) w)) as [[plan|e] w1] eqn:Hplan.
    + apply orchestrate_plan_frame in Hplan as (Hdb & _).
      destruct (persist_plan_outcome env (new_session_id w) plan w1)
        as (r & w2 & E & Hr & HS & _).
      unfold bind. rewrite E.
      assert (Hsess : sessions (db w2)
                      = (sessions (db w) ++ [created_session env payload w "pending"])%list).
      { rewrite HS, Hdb, <- Hp. apply session_created_sessions. }
      destruct Hr as [-> | ->]; simpl.
      * eexists _, _, "pending". split; [reflexivity|]. split; [discriminate|].
        split; [discriminate|]. cbn [db].
        split; [exact Hsess | right; split; [reflexivity | discriminate]].
      * eexists _, _, "pending". split; [reflexivity|]. split; [discriminate|].
        split; [discriminate|].
        split; [exact Hsess | right; split; [reflexivity | discriminate]].
    + pose proof (orchestrate_plan_raises _ _ _ _ _ Hplan) as He.
      pose proof (orchestrate_plan_frame _ _ _ _ _ _ Hplan) as (Hdb & _).
      assert (Hpending : sessions (db w1)
                         = (sessions (db w) ++ [created_session env payload w "pending"])%list).
      { rewrite Hdb, <- Hp. apply session_created_sessions. }
      assert (Hcases : (exists q, e = QuotaExhaustedError q)
                       \/ (exists msg, e = RuntimeError msg) \/ (exists msg, e = ClientError msg)
                       \/ e = JSONDecodeError \/ (exists msg, e = ValueError msg)).
      { destruct He as [H|[[msg ->]|[H|H]]]; auto.
        destruct (handle_gemini_error_cases msg "orchestrate_plan") as [H|H]; eauto. }
      destruct Hcases as [[q ->]|[[msg ->]|[[msg ->]|[->|[msg ->]]]]];
        try (eexists _, _, "pending"; split; [reflexivity|]; split; [discriminate|];
             split; [discriminate|];
             split; [exact Hpending | right; split; [reflexivity | discriminate]]).
      eexists _, _, "failed". split; [reflexivity|]. split; [discriminate|].
      split; [discriminate|]. cbn [db].
      split; [|left; eauto].
      rewrite Hdb. unfold session_created. cbn [db].
      rewrite update_new_session. unfold created_session, payload_prompt in *.
      fold (raw_prompt payload) in Hp. rewrite Hp. reflexivity.
Qed.

(** X6. When planning raises anything but the quota error (no API key, an
    API failure that does not mention a quota, an answer that cannot be
    decoded, an answer that is not a list), [start_research] lets that
    exception through unchanged; the session row it had committed stays
    [pending], no branch or task row exists for it, and the research loop
    is not enqueued: the session is left behind without a worker. *)
Theorem start_research_planning_failure payload w e w1 :
  payload_prompt payload <> EmptyString ->
  gemini_service.orchestrate_plan env (payload_prompt payload) (payload_attachments payload)
    (session_created env (payload_prompt payload) w)
  = (Raise e, w1) ->
  (forall q, e <> QuotaExhaustedError q) ->
  routes.start_research env payload w = (Raise e, w1)
  /\ ((exists msg, e = RuntimeError msg) \/ (exists msg, e = ClientError msg)
      \/ e = JSONDecodeError \/ (exists msg, e = ValueError msg))
  /\ session_status (db w1) (new_session_id w) = Some "pending"
  /\ branches (db w1) = branches (db w)
  /\ tasks (db w1) = tasks (db w)
  /\ exists es, trace w1 = (trace w ++ es)%list /\ filter is_enqueue es = [].
Proof.
  intros Hne Hplan Hnq.
  destruct (payload_prompt payload) as [|c p] eqn:Hp; [contradiction|].
  rewrite (start_research_unfold env payload w c p Hp). cbv zeta. rewrite Hplan.
  pose proof (orchestrate_plan_raises _ _ _ _ _ Hplan) as He.
  apply orchestrate_plan_frame in Hplan as (Hdb & _ & es & Htr & Hes).
  split; [destruct e; try reflexivity; destruct (Hnq msg eq_refl)|].
  split.
  { destruct He as [H|[[msg ->]|[H|H]]]; auto.
    destruct (handle_gemini_error_cases msg "orchestrate_plan") as [[q Hq]|Hc].
    - destruct (Hnq q Hq).
    - right. left. eauto. }
  split.
  { rewrite Hdb. unfold session_status.
    rewrite (find_new_session w _ (ResearchSession.mk (new_session_id w) (String c p) "pending"
                                     (utcnow env (clock_reads w)) None));
      reflexivity. }
  split; [rewrite Hdb; reflexivity|]. split; [rewrite Hdb; reflexivity|].
  exists (Commit (db (session_created env (String c p) w)) :: es). split.
  - rewrite Htr. unfold session_created. cbn [trace db]. rewrite <- app_assoc. reflexivity.
  - exact Hes.
Qed.

End SessionCreation.

(** An instance of X6: the API answers with prose that cannot be decoded. *)
Lemma start_research_planning_failure_witness :
  let w1 := Cases.world_of (routes.start_research Cases.env_malformed Scenario.payload1
                              Scenario.w0) in
  routes.start_research Cases.env_malformed Scenario.payload1 Scenario.w0
  = (Raise JSONDecodeError, w1)
  /\ ((exists msg, JSONDecodeError = RuntimeError msg)
      \/ (exists msg, JSONDecodeError = ClientError msg)
      \/ JSONDecodeError = JSONDecodeError \/ (exists msg, JSONDecodeError = ValueError msg))
  /\ session_status (db w1) (new_session_id Scenario.w0) = Some "pending"
  /\ branches (db w1) = branches (db Scenario.w0)
  /\ tasks (db w1) = tasks (db Scenario.w0)
  /\ exists es, trace w1 = (trace Scenario.w0 ++ es)%list /\ filter is_enqueue es = [].
Proof.
  apply (start_research_planning_failure Cases.env_malformed Scenario.payload1 Scenario.w0).
  - discriminate.
  - vm_compute. reflexivity.
  - discriminate.
Defined.

(** ** From session creation to the worker *)

Section HandOver.

Variable env : environment.

Implicit Types (w : world) (payload : routes.start_payload).

Lemma new_session_id_fresh w : ~ In (new_session_id w) (map ResearchSession.id (sessions (db w))).
Proof.
  intros H. apply next_id_above in H. unfold new_session_id in H. lia.
Qed.

Lemma session_rows_new w (d : database) s :
  sessions d = (sessions (db w) ++ [s])%list ->
  ResearchSession.id s = new_session_id w ->
  Query.session_rows d (new_session_id w) = [s].
Proof.
  intros Hs Hid. unfold Query.session_rows. rewrite Hs, filter_app. simpl.
  rewrite Hid, Z.eqb_refl.
  assert (E : filter (fun x => (ResearchSession.id x =? new_session_id w)%Z) (sessions (db w))
              = []).
  { clear Hs Hid. pose proof (new_session_id_fresh w) as Hf. revert Hf.
    generalize (new_session_id w) as n. intros n.
    induction (sessions (db w)) as [|a l IH]; simpl; intros Hf; [reflexivity|].
    destruct (Z.eqb_spec (ResearchSession.id a) n) as [E|_]; [destruct Hf; now left|].
    apply IH. intros H. apply Hf. now right. }
  rewrite E. reflexivity.
Qed.

(** X7. When planning succeeds with a plan whose priorities the task
    table can hold, [start_research] ends by enqueueing the research loop
    exactly once, as its last action and for the id it returns.  That id
    was used by no earlier session and now designates exactly one row, the
    one just created, still [pending] and holding the stripped prompt.
    The worker, whatever its environment, finds that row when it runs on
    the resulting database: it commits the session as [running], and there
    it stops, with [UnboundLocalError] at its call of the loop, leaving
    the session [running]. *)
Theorem start_research_hands_over payload w plan w1 :
  payload_prompt payload <> EmptyString ->
  gemini_service.orchestrate_plan env (payload_prompt payload) (payload_attachments payload)
    (session_created env (payload_prompt payload) w)
  = (Ok plan, w1) ->
  priorities_fit env plan = true ->
  exists w' es,
    routes.start_research env payload w
    = (Ok (routes.SessionReply (new_session_id w)), w')
    /\ trace w' = (trace w ++ es ++ [Enqueue (new_session_id w)])%list
    /\ filter is_enqueue es = []
    /\ ~ In (new_session_id w) (map ResearchSession.id (sessions (db w)))
    /\ Query.session_rows (db w') (new_session_id w) = [created_session env payload w "pending"]
    /\ forall worker_env,
         exists w'',
           workers.run_research_loop worker_env (new_session_id w) w'
           = (Raise (UnboundLocalError "_execute_research_loop"), w'')
           /\ trace w'' = (trace w' ++ [Commit (db w'')])%list
           /\ session_status (db w'') (new_session_id w) = Some "running".
Proof.
  intros Hne Hplan Hfit.
  destruct (payload_prompt payload) as [|c p] eqn:Hp; [contradiction|].
  rewrite (start_research_unfold env payload w c p Hp). cbv zeta. rewrite Hplan.
  apply orchestrate_plan_frame in Hplan as (Hdb & _ & es0 & Htr0 & Hes0).
  destruct (persist_plan env (new_session_id w) plan w1 Hfit)
    as (bs & ks & w2 & E & HS & _ & _ & _ & es1 & Htr1 & Hes1).
  unfold bind. rewrite E. simpl.
  assert (Hsess : sessions (db w2)
                  = (sessions (db w) ++ [created_session env payload w "pending"])%list).
  { rewrite HS, Hdb. unfold created_session, payload_prompt in *.
    fold (raw_prompt payload) in Hp. rewrite Hp. reflexivity. }
  assert (Hrows : Query.session_rows (db w2) (new_session_id w)
                  = [created_session env payload w "pending"]).
  { apply session_rows_new; [exact Hsess | reflexivity]. }
  eexists _, (Commit (db (session_created env (String c p) w)) :: es0 ++ es1)%list.
  split; [reflexivity|]. cbn [db trace].
  split.
  { rewrite Htr1, Htr0. unfold session_created. cbn [trace db].
    cbn [app]. rewrite <- !app_assoc. reflexivity. }
  split; [simpl; rewrite filter_app, Hes0, Hes1; reflexivity|].
  split; [apply new_session_id_fresh|]. split; [exact Hrows|].
  intros worker_env.
  set (w' := mkworld (db w2) (trace w2 ++ [Enqueue (new_session_id w)]) (clock_reads w2)).
  assert (Hrows' : Query.session_rows (db w') (new_session_id w)
                   = [created_session env payload w "pending"]) by exact Hrows.
  exists (started (created_session env payload w "pending") w').
  split; [apply run_research_loop_existing; exact Hrows'|].
  split; [reflexivity|].
  apply (started_status (new_session_id w) _ w' Hrows').
Qed.

(** X4. When planning succeeds but a branch of the plan has a task whose
    priority the INTEGER column of the task table cannot hold,
    [start_research] fails with the error of the database at the commit of
    that branch's tasks.  What it has committed stays: the session row,
    still [pending]; the branches before that one, each with all its
    tasks; and the row of that branch, without any of its tasks.  The
    branches after it are not created and the research loop is not
    enqueued. *)
Theorem start_research_priority_out_of_range payload w good bd rest w1 :
  payload_prompt payload <> EmptyString ->
  gemini_service.orchestrate_plan env (payload_prompt payload) (payload_attachments payload)
    (session_created env (payload_prompt payload) w)
  = (Ok (good ++ bd :: rest)%list, w1) ->
  priorities_fit env good = true ->
  routes.tasks_fit env (descriptor_tasks bd) = false ->
  exists w' bs ks b es,
    routes.start_research env payload w = (Raise DBAPIError, w')
    /\ branches (db w') = (branches (db w) ++ bs ++ [b])%list
    /\ tasks (db w') = (tasks (db w) ++ ks)%list
    /\ persisted (new_session_id w) good bs ks
    /\ branch_matches (new_session_id w) bd b
    /\ session_status (db w') (new_session_id w) = Some "pending"
    /\ trace w' = (trace w ++ es)%list
    /\ filter is_enqueue es = [].
Proof.
  intros Hne Hplan Hfit Hbad.
  destruct (payload_prompt payload) as [|c p] eqn:Hp; [contradiction|].
  rewrite (start_research_unfold env payload w c p Hp). cbv zeta. rewrite Hplan.
  apply orchestrate_plan_frame in Hplan as (Hdb & _ & es0 & Htr0 & Hes0).
  destruct (persist_plan_refused env (new_session_id w) good bd rest w1 Hfit Hbad)
    as (bs & ks & b & w2 & E & HS & HB & HT & Hper & Hb & es1 & Htr1 & Hes1).
  unfold bind. rewrite E.
  exists w2, bs, ks, b,
    (Commit (db (session_created env (String c p) w)) :: es0 ++ es1)%list.
  split; [reflexivity|].
  split; [rewrite HB, Hdb; reflexivity|]. split; [rewrite HT, Hdb; reflexivity|].
  split; [exact Hper|]. split; [exact Hb|].
  split.
  { unfold session_status.
    rewrite (find_new_session w _ (ResearchSession.mk (new_session_id w) (String c p) "pending"
                                     (utcnow env (clock_reads w)) None));
      [reflexivity | rewrite HS, Hdb; reflexivity | reflexivity]. }
  split.
  { rewrite Htr1, Htr0. unfold session_created. cbn [trace db].
    cbn [app]. rewrite <- !app_assoc. reflexivity. }
  simpl. rewrite filter_app, Hes0, Hes1. reflexivity.
Qed.

End HandOver.

(** An instance of X7: the plan of the scenario. *)
Lemma start_research_hands_over_witness :
  exists w' es,
    routes.start_research Scenario.env_ok Scenario.payload1 Scenario.w0
    = (Ok (routes.SessionReply (new_session_id Scenario.w0)), w')
    /\ trace w' = (trace Scenario.w0 ++ es ++ [Enqueue (new_session_id Scenario.w0)])%list
    /\ filter is_enqueue es = []
    /\ ~ In (new_session_id Scenario.w0) (map ResearchSession.id (sessions (db Scenario.w0)))
    /\ Query.session_rows (db w') (new_session_id Scenario.w0)
       = [created_session Scenario.env_ok Scenario.payload1 Scenario.w0 "pending"]
    /\ forall worker_env,
         exists w'',
           workers.run_research_loop worker_env (new_session_id Scenario.w0) w'
           = (Raise (UnboundLocalError "_execute_research_loop"), w'')
           /\ trace w'' = (trace w' ++ [Commit (db w'')])%list
           /\ session_status (db w'') (new_session_id Scenario.w0) = Some "running".
Proof.
  eapply (start_research_hands_over Scenario.env_ok Scenario.payload1 Scenario.w0).
  - discriminate.
  - vm_compute. reflexivity.
  - reflexivity.
Defined.

(** An instance of X4: the second of three branches has a task of
    priority 9223372036854775808. *)
Lemma start_research_priority_out_of_range_witness :
  exists w' bs ks b es,
    routes.start_research Cases.env_second_fails Scenario.payload1 Scenario.w0
    = (Raise DBAPIError, w')
    /\ branches (db w') = (branches (db Scenario.w0) ++ bs ++ [b])%list
    /\ tasks (db w') = (tasks (db Scenario.w0) ++ ks)%list
    /\ persisted (new_session_id Scenario.w0)
         [ mkbd (Some "B1") (Some [ mktd (Some "A") None None (Some 8%Z) None ]) ] bs ks
    /\ branch_matches (new_session_id Scenario.w0)
         (mkbd (Some "B2") (Some [ mktd (Some "B") None None None None;
                                   mktd (Some "C") None None (Some 9223372036854775808%Z) None ])) b
    /\ session_status (db w') (new_session_id Scenario.w0) = Some "pending"
    /\ trace w' = (trace Scenario.w0 ++ es)%list
    /\ filter is_enqueue es = [].
Proof.
  eapply (start_research_priority_out_of_range Cases.env_second_fails Scenario.payload1
            Scenario.w0 _ _ [mkbd (Some "B3") None]).
  - discriminate.
  - vm_compute. reflexivity.
  - reflexivity.
  - reflexivity.
Defined.

(** ** The status of a session *)

Section SessionStatus.

Implicit Types (w : world) (rs : ResearchSession.t) (payload : routes.start_payload).

Lemma find_app_some {A : Type} (p : A -> bool) (l l' : list A) x :
  find p l = Some x -> find p (l ++ l')%list = Some x.
Proof.
  induction l as [|a l IH]; simpl; [discriminate|].
  destruct (p a); [auto | exact IH].
Qed.

Lemma session_status_appended (d d' : database) session_id suffix rs :
  sessions d' = (sessions d ++ suffix)%list ->
  find (fun s => (ResearchSession.id s =? session_id)%Z) (sessions d) = Some rs ->
  session_status d' session_id = Some (ResearchSession.status rs).
Proof.
  intros Hs Hfind. unfold session_status. rewrite Hs, (find_app_some _ _ _ _ Hfind).
  reflexivity.
Qed.

Lemma find_update_other (d : database) session_id other f :
  other <> session_id ->
  (forall s, ResearchSession.id (f s) = ResearchSession.id s) ->
  find (fun s => (ResearchSession.id s =? session_id)%Z)
    (sessions (update_session other f d))
  = find (fun s => (ResearchSession.id s =? session_id)%Z) (sessions d).
Proof.
  intros Hne Hf. unfold update_session. simpl.
  induction (sessions d) as [|a l IH]; simpl; [reflexivity|].
  destruct (Z.eqb_spec (ResearchSession.id a) other) as [E|_].
  - rewrite Hf. destruct (Z.eqb_spec (ResearchSession.id a) session_id) as [E'|_];
      [congruence | exact IH].
  - destruct (ResearchSession.id a =? session_id)%Z; [reflexivity | exact IH].
Qed.

(** A prompt that strips to nothing, or is not a string, stops
    [start_research] before it writes. *)
Lemma start_research_no_prompt env payload w :
  payload_prompt payload = EmptyString ->
  snd (routes.start_research env payload w) = w.
Proof.
  unfold routes.start_research, payload_prompt.
  destruct (routes.prompt payload) as [[text|]|]; intros Hp; [|reflexivity|reflexivity].
  unfold bind at 1, ret at 1. cbv zeta. rewrite Hp. reflexivity.
Qed.

(** [start_research] only appends to the session table. *)
Lemma start_research_sessions env payload w :
  exists suffix,
    sessions (db (snd (routes.start_research env payload w)))
    = (sessions (db w) ++ suffix)%list.
Proof.
  destruct (payload_prompt payload) as [|c p] eqn:Hp.
  - rewrite (start_research_no_prompt env payload w Hp). exists []. now rewrite app_nil_r.
  - rewrite (start_research_unfold env payload w c p Hp). cbv zeta.
    destruct (gemini_service.orchestrate_plan env (String c p) (payload_attachments payload)
                (session_created env (String c p) w)) as [[plan|e] w1] eqn:Hplan;
      apply orchestrate_plan_frame in Hplan as (Hdb & _).
    + destruct (persist_plan_outcome env (new_session_id w) plan w1)
        as (r & w2 & E & Hr & HS & _).
      unfold bind. rewrite E. eexists.
      destruct Hr as [-> | ->]; simpl; rewrite HS, Hdb; reflexivity.
    + destruct e; try (eexists; cbn [snd]; rewrite Hdb; reflexivity).
      eexists. cbn [snd db]. rewrite Hdb. unfold session_created. cbn [db].
      apply update_new_session.
Qed.

Lemma pause_branch_sessions branch_id w :
  sessions (db (snd (routes.pause_branch branch_id w))) = sessions (db w).
Proof.
  unfold routes.pause_branch, one_or_none. run_monad.
  destruct (filter _ (branches (db w))) as [|b [|b2 rest]]; reflexivity.
Qed.

Lemma get_research_state_world isoformat session_id w :
  snd (state_route.get_research_state isoformat session_id w) = w.
Proof.
  unfold state_route.get_research_state, one_or_none. run_monad.
  destruct (Query.session_rows (db w) session_id) as [|rs0 [|rs1 rows]]; reflexivity.
Qed.

Lemma run_research_loop_other_session env session_id other w :
  other <> session_id ->
  find (fun s => (ResearchSession.id s =? session_id)%Z)
    (sessions (db (snd (workers.run_research_loop env other w))))
  = find (fun s => (ResearchSession.id s =? session_id)%Z) (sessions (db w)).
Proof.
  intros Hne. unfold workers.run_research_loop. run_monad.
  destruct (Query.session_rows (db w) other) as [|rs0 [|rs1 rows]] eqn:Hrow; simpl;
    try reflexivity.
  destruct (session_rows_found _ _ _ Hrow) as [Hid _]. rewrite Hid.
  apply find_update_other; [exact Hne | reflexivity].
Qed.

(** C3 (amended).  The entry point of the loop moves an existing session
    to [running] at loop start, whatever the status of the session was:
    the first thing it does is the commit that shows the session
    [running].  Every other operation on the database (the entry point
    invoked on another session, session creation, branch pause, state
    snapshot) leaves the status of the session as it was. *)
Theorem status_changes_only_at_loop_start w session_id rs :
  Query.session_rows (db w) session_id = [rs] ->
  (forall env,
     exists es,
       trace (world_after (RunResearchLoop env session_id) w)
       = (trace w ++ Commit (db (started rs w)) :: es)%list
       /\ session_status (db (started rs w)) session_id = Some "running")
  /\ (forall op, ~ runs_loop_on session_id op ->
        session_status (db (world_after op w)) session_id
        = Some (ResearchSession.status rs)).
Proof.
  intros Hrow. destruct (session_rows_found _ _ _ Hrow) as [Hid Hfind]. split.
  - intros env. cbn [world_after].
    rewrite (run_research_loop_existing env session_id rs w Hrow).
    exists []. split; [reflexivity | exact (started_status session_id rs w Hrow)].
  - intros [env other | env payload | branch_id | isoformat other] Hop; cbn [world_after].
    + unfold session_status. rewrite run_research_loop_other_session, Hfind; [reflexivity|].
      intros E. apply Hop. exact E.
    + destruct (start_research_sessions env payload w) as (suffix & Hs).
      exact (session_status_appended _ _ _ _ _ Hs Hfind).
    + unfold session_status. rewrite pause_branch_sessions, Hfind. reflexivity.
    + rewrite get_research_state_world. unfold session_status. rewrite Hfind. reflexivity.
Qed.

End SessionStatus.

(** An instance of C3: the session that session creation left [failed]. *)
Lemma status_changes_only_at_loop_start_witness :
  (forall env,
     exists es,
       trace (world_after (RunResearchLoop env 1) Scenario.failed_w)
       = (trace Scenario.failed_w
          ++ Commit (db (started (ResearchSession.mk 1 "X" "failed" 0 None) Scenario.failed_w))
             :: es)%list
       /\ session_status
            (db (started (ResearchSession.mk 1 "X" "failed" 0 None) Scenario.failed_w)) 1
          = Some "running")
  /\ (forall op, ~ runs_loop_on 1 op ->
        session_status (db (world_after op Scenario.failed_w)) 1
        = Some (ResearchSession.status (ResearchSession.mk 1 "X" "failed" 0 None))).
Proof.
  apply (status_changes_only_at_loop_start Scenario.failed_w 1
           (ResearchSession.mk 1 "X" "failed" 0 None)).
  reflexivity.
Defined.

(** A terminal status can be left: session creation left session 1
    [failed] when planning ran out of quota, and the entry point invoked
    on it moves it to [running]. *)
Lemma terminal_status_left_counterexample :
  session_status (db Scenario.failed_w) 1 = Some "failed"
  /\ session_status
       (db (world_after (RunResearchLoop Scenario.env_ok 1) Scenario.failed_w)) 1
     = Some "running".
Proof. vm_compute. split; reflexivity. Qed.

(** ** Pausing a branch *)

Section PauseBranch.

Implicit Types (w : world) (b : ResearchBranch.t).

Lemma filter_map_commute {A : Type} (p : A -> bool) (g : A -> A) (l : list A) :
  (forall x, p (g x) = p x) -> filter p (map g l) = map g (filter p l).
Proof.
  intros H. induction l as [|a l IH]; simpl; [reflexivity|].
  rewrite H. destruct (p a); simpl; now rewrite IH.
Qed.

Lemma branch_rows_update branch_id st (d : database) :
  branch_rows (update_branch branch_id (fun x => ResearchBranch.with_status x st) d) branch_id
  = map (fun x => ResearchBranch.with_status x st) (branch_rows d branch_id).
Proof.
  unfold branch_rows, update_branch. simpl.
  rewrite filter_map_commute.
  - apply map_ext_in. intros x Hx. apply filter_In in Hx as [_ ->]. reflexivity.
  - intros x. destruct (ResearchBranch.id x =? branch_id)%Z eqn:E; simpl; now rewrite E.
Qed.

Lemma pause_branch_found branch_id w b :
  branch_rows (db w) branch_id = [b] ->
  routes.pause_branch branch_id w
  = (Ok (routes.BranchReply (ResearchBranch.id b) (toggled (ResearchBranch.status b))),
     let d := update_branch (ResearchBranch.id b)
                (fun x => ResearchBranch.with_status x (toggled (ResearchBranch.status b)))
                (db w) in
     mkworld d (trace w ++ [Commit d]) (clock_reads w)).
Proof.
  intros H. unfold routes.pause_branch, one_or_none, branch_rows in *. run_monad.
  rewrite H. reflexivity.
Qed.

(** X8. [pause_branch] on the one branch row with the given id answers
    with that id and the new status ([paused] unless the branch was
    paused, then [active]), commits once, gives the row that status and
    changes nothing else: the other branch rows and the session, task, log
    and fact tables are the same.  On a branch that is [active] or
    [paused], a second call answers with the original status and restores
    the database exactly. *)
Theorem pause_branch_toggles branch_id w b :
  branch_rows (db w) branch_id = [b] ->
  exists w1,
    routes.pause_branch branch_id w
    = (Ok (routes.BranchReply branch_id (toggled (ResearchBranch.status b))), w1)
    /\ trace w1 = (trace w ++ [Commit (db w1)])%list
    /\ branch_rows (db w1) branch_id
       = [ResearchBranch.with_status b (toggled (ResearchBranch.status b))]
    /\ Forall2 (fun x x' => ResearchBranch.id x <> branch_id -> x' = x)
         (branches (db w)) (branches (db w1))
    /\ sessions (db w1) = sessions (db w) /\ tasks (db w1) = tasks (db w)
    /\ logs (db w1) = logs (db w) /\ facts (db w1) = facts (db w)
    /\ (ResearchBranch.status b = "active" \/ ResearchBranch.status b = "paused" ->
        exists w2,
          routes.pause_branch branch_id w1
          = (Ok (routes.BranchReply branch_id (ResearchBranch.status b)), w2)
          /\ db w2 = db w).
Proof.
  intros Hrow.
  assert (Hid : ResearchBranch.id b = branch_id).
  { assert (Hin : In b (branch_rows (db w) branch_id)) by (rewrite Hrow; now left).
    apply filter_In in Hin as [_ E]. now apply Z.eqb_eq. }
  rewrite (pause_branch_found branch_id w b Hrow). cbv zeta. rewrite Hid.
  eexists. split; [reflexivity|]. cbn [db trace].
  assert (Hrow1 : branch_rows
                    (update_branch branch_id
                       (fun x => ResearchBranch.with_status x (toggled (ResearchBranch.status b)))
                       (db w)) branch_id
                  = [ResearchBranch.with_status b (toggled (ResearchBranch.status b))]).
  { rewrite branch_rows_update, Hrow. reflexivity. }
  split; [reflexivity|]. split; [exact Hrow1|]. split.
  { unfold update_branch. simpl. induction (branches (db w)) as [|a l IH]; simpl; constructor;
      [|exact IH].
    destruct (Z.eqb_spec (ResearchBranch.id a) branch_id); [contradiction | reflexivity]. }
  split; [reflexivity|]. split; [reflexivity|]. split; [reflexivity|]. split; [reflexivity|].
  intros Hst.
  match goal with |- context [routes.pause_branch branch_id ?w1] =>
    rewrite (pause_branch_found branch_id w1 _ Hrow1)
  end.
  cbv zeta. cbn [db ResearchBranch.id ResearchBranch.status ResearchBranch.with_status].
  rewrite Hid.
  assert (Hback : toggled (toggled (ResearchBranch.status b)) = ResearchBranch.status b).
  { destruct Hst as [-> | ->]; reflexivity. }
  rewrite Hback. eexists. split; [reflexivity|]. cbn [db].
  unfold update_branch. cbn [branches with_branches sessions tasks logs facts].
  rewrite map_map.
  assert (Hmap : map (fun x =>
                        if (ResearchBranch.id
                              (if (ResearchBranch.id x =? branch_id)%Z
                               then ResearchBranch.with_status x (toggled (ResearchBranch.status b))
                               else x) =? branch_id)%Z
                        then ResearchBranch.with_status
                               (if (ResearchBranch.id x =? branch_id)%Z
                                then ResearchBranch.with_status x
                                       (toggled (ResearchBranch.status b))
                                else x) (ResearchBranch.status b)
                        else if (ResearchBranch.id x =? branch_id)%Z
                             then ResearchBranch.with_status x (toggled (ResearchBranch.status b))
                             else x) (branches (db w))
                 = branches (db w)).
  { apply map_id_on. intros x Hx.
    destruct (ResearchBranch.id x =? branch_id)%Z eqn:E; simpl; rewrite E; [|reflexivity].
    assert (Hin : In x (branch_rows (db w) branch_id)) by (apply filter_In; auto).
    rewrite Hrow in Hin. destruct Hin as [<-|[]]. destruct b; reflexivity. }
  rewrite Hmap. destruct (db w); reflexivity.
Qed.

End PauseBranch.

(** An instance of X8: pausing the active branch B1 of the scenario. *)
Lemma pause_branch_toggles_witness :
  exists w1,
    routes.pause_branch 1 Scenario.w0 = (Ok (routes.BranchReply 1 (toggled "active")), w1)
    /\ trace w1 = (trace Scenario.w0 ++ [Commit (db w1)])%list
    /\ branch_rows (db w1) 1
       = [ResearchBranch.with_status (ResearchBranch.mk 1 1 "B1" "active" 0) (toggled "active")]
    /\ Forall2 (fun x x' => ResearchBranch.id x <> 1%Z -> x' = x)
         (branches (db Scenario.w0)) (branches (db w1))
    /\ sessions (db w1) = sessions (db Scenario.w0) /\ tasks (db w1) = tasks (db Scenario.w0)
    /\ logs (db w1) = logs (db Scenario.w0) /\ facts (db w1) = facts (db Scenario.w0)
    /\ ("active" = "active" \/ "active" = "paused" ->
        exists w2,
          routes.pause_branch 1 w1 = (Ok (routes.BranchReply 1 "active"), w2)
          /\ db w2 = db Scenario.w0).
Proof.
  apply (pause_branch_toggles 1 Scenario.w0 (ResearchBranch.mk 1 1 "B1" "active" 0)).
  reflexivity.
Defined.

(** ** The Gemini wrappers *)

Section Wrappers.

Variable env : environment.

Implicit Types (w : world) (s : string).

Lemma string_length_app s1 s2 :
  String.length (s1 ++ s2) = (String.length s1 + String.length s2)%nat.
Proof. induction s1 as [|c s1 IH]; simpl; [reflexivity | now rewrite IH]. Qed.

Lemma slice_to_all n s : (String.length s <= n)%nat -> Py.slice_to n s = s.
Proof.
  revert s. induction n as [|n IH]; intros [|c s] H; simpl in *; try reflexivity; try lia.
  rewrite IH; [reflexivity | lia].
Qed.

Lemma slice_to_exact n s :
  (n <= String.length s)%nat -> String.length (Py.slice_to n s) = n.
Proof.
  revert s. induction n as [|n IH]; intros [|c s] H; simpl in *; try reflexivity; try lia.
  rewrite IH; [reflexivity | lia].
Qed.

Lemma prefix_app s1 s2 : String.prefix s1 (s1 ++ s2) = true.
Proof.
  induction s1 as [|c s1 IH]; simpl; [destruct s2; reflexivity|].
  destruct (Ascii.ascii_dec c c) as [_|N]; [exact IH | now destruct N].
Qed.

(** X9. The text [orchestrate_plan] forwards for an attachment is the line
    "FILE: name" followed by a body that is the attachment's content when
    that has at most 4000 characters, and otherwise its first 4000
    characters followed by the marker "...[truncated]..." on a new line:
    the body never has more than 4018 characters, and a missing name or
    content is replaced by "attachment" or the empty text. *)
Theorem attachment_chunk_bounded (att : attachment) :
  exists body,
    gemini_service.attachment_chunk att
    = "FILE: " ++ attachment_name att ++ Py.nl ++ body
    /\ (String.length body <= 4018)%nat
    /\ String.prefix (Py.slice_to 4000 (attachment_content att)) body = true
    /\ ((String.length (attachment_content att) <= 4000)%nat -> body = attachment_content att)
    /\ ((4000 < String.length (attachment_content att))%nat ->
        body = Py.slice_to 4000 (attachment_content att) ++ truncation_marker
        /\ String.length body = 4018%nat).
Proof.
  unfold gemini_service.attachment_chunk.
  fold (attachment_name att). fold (attachment_content att).
  generalize (attachment_content att) as content. intros content.
  destruct (Nat.ltb_spec 4000 (String.length content)) as [Hlong|Hshort].
  - exists (Py.slice_to 4000 content ++ truncation_marker).
    assert (Hlen : String.length (Py.slice_to 4000 content ++ truncation_marker) = 4018%nat).
    { rewrite string_length_app, slice_to_exact by lia. reflexivity. }
    split; [reflexivity|]. split; [rewrite Hlen; lia|]. split.
    + apply prefix_app.
    + split; [lia | auto].
  - exists content. split; [reflexivity|]. split; [lia|]. split.
    + apply slice_to_prefix.
    + split; [reflexivity | lia].
Qed.

Lemma in_dedup (l : list string) x : In x (Py.dedup l) <-> In x l.
Proof.
  induction l as [|a l IH]; simpl; [tauto|].
  rewrite filter_In, IH, negb_true_iff, String.eqb_neq.
  destruct (string_dec a x); intuition congruence.
Qed.

Lemma NoDup_dedup (l : list string) : NoDup (Py.dedup l).
Proof.
  induction l as [|a l IH]; simpl; constructor.
  - rewrite filter_In, negb_true_iff, String.eqb_neq. intros [_ N]. now apply N.
  - now apply NoDup_filter.
Qed.

Lemma dedup_NoDup (l : list string) : NoDup l -> Py.dedup l = l.
Proof.
  induction 1 as [|a l Hn _ IH]; simpl; [reflexivity|]. rewrite IH. f_equal.
  clear IH. induction l as [|b l IH]; simpl; [reflexivity|].
  destruct (String.eqb_spec a b) as [->|_]; simpl.
  - destruct Hn. now left.
  - rewrite IH; [reflexivity|]. intros H. apply Hn. now right.
Qed.

(** X10. When [execute_agent_task] returns, the API answered; the text
    returned is the answer's text, or the empty text when the answer had
    none, and the URLs returned are the web URIs of the answer's grounding
    chunks without repetition: each URI once, none added, in the order of
    first occurrence (the list itself when it has no repetition). *)
Theorem execute_agent_task_returns task_desc role context w text urls w' :
  gemini_service.execute_agent_task env task_desc role context w = (Ok (text, urls), w') ->
  exists req answer uris,
    generate_content env (count_generate (trace w)) req = Response answer uris
    /\ text = Py.opt_or answer EmptyString
    /\ NoDup urls
    /\ (forall u, In u urls <-> In u uris)
    /\ (NoDup uris -> urls = uris)
    /\ db w' = db w.
Proof.
  unfold gemini_service.execute_agent_task, has_api_key. run_monad.
  destruct (GEMINI_API_KEY env) as [[|c key]|]; simpl; try discriminate.
  unfold count_generate. rewrite filter_app. simpl. rewrite app_nil_r.
  fold (count_generate (trace w)).
  match goal with |- context [generate_content env _ ?r] =>
    destruct (generate_content env (count_generate (trace w)) r) as [answer uris|e] eqn:G
  end; simpl; [|discriminate].
  intros [= <- <- <-]. eexists _, answer, uris. split; [exact G|].
  split; [reflexivity|]. split; [apply NoDup_dedup|].
  split; [intros u; apply in_dedup|]. split; [apply dedup_NoDup | reflexivity].
Qed.

(** X11. Each of the three wrappers the core calls (planning, task
    execution, synthesis) leaves the database and the clock alone and
    sends at most one request to the API: exactly one when the environment
    holds a non-empty API key, and none when it does not, in which case
    the wrapper raises [RuntimeError] before anything is sent. *)
Theorem service_calls_and_api_key (c : service_call) w :
  db (snd (service_result env c w)) = db w
  /\ clock_reads (snd (service_result env c w)) = clock_reads w
  /\ (has_api_key env = true ->
      exists req, trace (snd (service_result env c w)) = (trace w ++ [Invoke c; Generate req])%list)
  /\ (has_api_key env = false ->
      service_result env c w
      = (Raise (RuntimeError "GEMINI_API_KEY environment variable is not set"),
         mkworld (db w) (trace w ++ [Invoke c]) (clock_reads w))).
Proof.
  unfold has_api_key.
  destruct c as [prompt attachments|task_desc role context|original_prompt knowledge_facts];
    unfold service_result, gemini_service.orchestrate_plan,
      gemini_service.execute_agent_task, gemini_service.synthesize_research;
    run_monad;
    (destruct (GEMINI_API_KEY env) as [[|ch key]|]; simpl;
     [ repeat split; discriminate
     | 
     | repeat split; discriminate ]).
  - destruct (generate_content env _ _) as [text uris|e]; simpl.
    + destruct (extract_plan env _); simpl; repeat split; try discriminate;
        intros _; eexists; rewrite <- app_assoc; reflexivity.
    + repeat split; try discriminate. intros _. eexists. rewrite <- app_assoc. reflexivity.
  - destruct (generate_content env _ _) as [text uris|e]; simpl;
      repeat split; try discriminate; intros _; eexists; rewrite <- app_assoc; reflexivity.
  - destruct (generate_content env _ _) as [text uris|e]; simpl;
      repeat split; try discriminate; intros _; eexists; rewrite <- app_assoc; reflexivity.
Qed.

End Wrappers.

(** An instance of X10: an answer whose grounding chunks cite one page
    twice. *)
Lemma execute_agent_task_returns_witness :
  let env := mkenv (Some "key") "gemini-2.0-flash-exp"
               (fun _ _ => Response None ["https://a.example"; "https://b.example";
                                          "https://a.example"])
               (fun n => Z.of_nat n) (fun _ => DecodeFails) in
  exists req answer uris,
    generate_content env (count_generate (trace Scenario.w0)) req = Response answer uris
    /\ EmptyString = Py.opt_or answer EmptyString
    /\ NoDup ["https://a.example"; "https://b.example"]
    /\ (forall u, In u ["https://a.example"; "https://b.example"] <-> In u uris)
    /\ (NoDup uris -> ["https://a.example"; "https://b.example"] = uris)
    /\ db (snd (gemini_service.execute_agent_task env "A" "Physicist" EmptyString Scenario.w0))
       = db Scenario.w0.
Proof.
  intros env.
  apply (execute_agent_task_returns env "A" "Physicist" EmptyString Scenario.w0).
  vm_compute. reflexivity.
Defined.

(** ** Extracting JSON from the model's answer *)

Section JsonExtraction.

Implicit Types (s t pre post payload cur : string) (c a z : ascii).

Lemma string_app_assoc s1 s2 s3 : (s1 ++ s2) ++ s3 = s1 ++ s2 ++ s3.
Proof. induction s1 as [|c s1 IH]; simpl; [reflexivity | now rewrite IH]. Qed.

Lemma string_app_nil_r s : s ++ EmptyString = s.
Proof. induction s as [|c s IH]; simpl; [reflexivity | now rewrite IH]. Qed.

(** *** [find] and [rfind] *)

Lemma find_ge c s : (-1 <= Json.find c s)%Z.
Proof.
  induction s as [|a s IH]; simpl; [lia|].
  destruct (Ascii.eqb a c); [lia|]. destruct (Z.eqb_spec (Json.find c s) (-1)); lia.
Qed.

Lemma find_first c s : Json.first_char s = Some c -> Json.find c s = 0%Z.
Proof.
  destruct s as [|a s]; simpl; [discriminate|]. intros [= ->].
  now rewrite Ascii.eqb_refl.
Qed.

Lemma find_shift c pre s :
  Json.has_char c pre = false ->
  Json.find c (pre ++ s)
  = if (Json.find c s =? -1)%Z then (-1)%Z
    else (Z.of_nat (String.length pre) + Json.find c s)%Z.
Proof.
  induction pre as [|a pre IH]; intros H.
  - simpl. destruct (Z.eqb_spec (Json.find c s) (-1)); lia.
  - simpl in H. apply orb_false_iff in H as [Ha Hp].
    cbn [append Json.find String.length]. rewrite Ha, (IH Hp).
    pose proof (find_ge c s).
    destruct (Z.eqb_spec (Json.find c s) (-1)) as [E|N]; [reflexivity|].
    destruct (Z.eqb_spec (Z.of_nat (String.length pre) + Json.find c s) (-1)); lia.
Qed.

Lemma rfind_bounds c s : (-1 <= Json.rfind c s <= Z.of_nat (String.length s) - 1)%Z.
Proof.
  induction s as [|a s IH]; cbn [Json.rfind String.length]; [lia|].
  destruct (Z.eqb_spec (Json.rfind c s) (-1)); [destruct (Ascii.eqb a c)|]; lia.
Qed.

Lemma rfind_absent c s : Json.has_char c s = false -> Json.rfind c s = (-1)%Z.
Proof.
  induction s as [|a s IH]; simpl; [reflexivity|]. intros H.
  apply orb_false_iff in H as [Ha Hs]. rewrite (IH Hs), Ha. reflexivity.
Qed.

Lemma rfind_app c pre s :
  Json.rfind c (pre ++ s)
  = if (Json.rfind c s =? -1)%Z then Json.rfind c pre
    else (Z.of_nat (String.length pre) + Json.rfind c s)%Z.
Proof.
  induction pre as [|a pre IH].
  - simpl. destruct (Z.eqb_spec (Json.rfind c s) (-1)); lia.
  - cbn [append Json.rfind String.length]. rewrite IH.
    pose proof (rfind_bounds c s).
    destruct (Z.eqb_spec (Json.rfind c s) (-1)) as [E|N]; [reflexivity|].
    destruct (Z.eqb_spec (Z.of_nat (String.length pre) + Json.rfind c s) (-1)); lia.
Qed.

Lemma rfind_last c s :
  Json.last_char s = Some c -> Json.rfind c s = (Z.of_nat (String.length s) - 1)%Z.
Proof.
  induction s as [|a s IH]; [discriminate|].
  destruct s as [|b s'].
  - simpl. intros [= ->]. now rewrite Ascii.eqb_refl.
  - intros H. change (Json.last_char (String b s') = Some c) in H.
    specialize (IH H).
    change (Json.rfind c (String a (String b s')))
      with (let i := Json.rfind c (String b s') in
            if (i =? -1)%Z then (if Ascii.eqb a c then 0%Z else (-1)%Z) else (i + 1)%Z).
    cbv zeta. rewrite IH.
    change (String.length (String a (String b s'))) with (S (String.length (String b s'))).
    assert (1 <= String.length (String b s'))%nat by (cbn [String.length]; lia).
    destruct (Z.eqb_spec (Z.of_nat (String.length (String b s')) - 1) (-1)); lia.
Qed.

(** *** Slices *)

Lemma slice_from_app pre s : Json.slice_from (String.length pre) (pre ++ s) = s.
Proof. induction pre as [|a pre IH]; simpl; [reflexivity | exact IH]. Qed.

Lemma slice_to_app s t : Py.slice_to (String.length s) (s ++ t) = s.
Proof.
  induction s as [|a s IH]; simpl; [reflexivity | now rewrite IH].
Qed.

Lemma slice_middle pre payload post :
  Json.slice (pre ++ payload ++ post) (Z.of_nat (String.length pre))
    (Z.of_nat (String.length pre) + Z.of_nat (String.length payload))
  = payload.
Proof.
  unfold Json.slice. rewrite Nat2Z.id.
  replace (Z.to_nat (Z.of_nat (String.length pre) + Z.of_nat (String.length payload)
                     - Z.of_nat (String.length pre)))
    with (String.length payload) by lia.
  rewrite slice_from_app. apply slice_to_app.
Qed.

Lemma last_char_length s z : Json.last_char s = Some z -> (1 <= String.length s)%nat.
Proof. destruct s; simpl; [discriminate | lia]. Qed.

(** The span of a text made of prose without opening, a bracketed payload
    and prose without closing is the payload. *)
Lemma bracket_span_payload pre payload post :
  Json.has_char "{" pre = false -> Json.has_char "[" pre = false ->
  Json.has_char "}" post = false -> Json.has_char "]" post = false ->
  Json.bracketed payload ->
  Json.bracket_span (pre ++ payload ++ post) = payload.
Proof.
  intros Hp1 Hp2 Hq1 Hq2 [(a & Ha & Hopen) (z & Hz & Hclose)].
  set (L := Z.of_nat (String.length pre)).
  set (N := Z.of_nat (String.length payload)).
  pose proof (last_char_length payload z Hz) as Hlen.
  assert (HN : (1 <= N)%Z) by (unfold N; lia).
  assert (HL : (0 <= L)%Z) by (unfold L; lia).
  (* the first opening is where the payload starts *)
  assert (Hfb : Json.find "{" (pre ++ payload ++ post) = (-1)%Z
                \/ (L <= Json.find "{" (pre ++ payload ++ post))%Z).
  { rewrite (find_shift _ _ _ Hp1). pose proof (find_ge "{" (payload ++ post)).
    destruct (Z.eqb_spec (Json.find "{" (payload ++ post)) (-1)); [now left | right; fold L; lia]. }
  assert (Hfk : Json.find "[" (pre ++ payload ++ post) = (-1)%Z
                \/ (L <= Json.find "[" (pre ++ payload ++ post))%Z).
  { rewrite (find_shift _ _ _ Hp2). pose proof (find_ge "[" (payload ++ post)).
    destruct (Z.eqb_spec (Json.find "[" (payload ++ post)) (-1)); [now left | right; fold L; lia]. }
  assert (Hfirst : Json.find "{" (pre ++ payload ++ post) = L
                   \/ Json.find "[" (pre ++ payload ++ post) = L).
  { assert (Hf : Json.first_char (payload ++ post) = Some a).
    { destruct payload; [discriminate | exact Ha]. }
    unfold Json.is_opening in Hopen. apply orb_true_iff in Hopen as [E|E];
      apply Ascii.eqb_eq in E; subst a; [left | right].
    - rewrite (find_shift _ _ _ Hp1), (find_first _ _ Hf). simpl. fold L. lia.
    - rewrite (find_shift _ _ _ Hp2), (find_first _ _ Hf). simpl. fold L. lia. }
  (* the last closing is where the payload ends *)
  assert (Hpp : forall c, Json.has_char c post = false ->
                  Json.rfind c (pre ++ payload ++ post) = Json.rfind c (pre ++ payload)).
  { intros c Hc. rewrite <- string_app_assoc, (rfind_app c (pre ++ payload) post).
    rewrite (rfind_absent c post Hc). reflexivity. }
  assert (Hlenpp : Z.of_nat (String.length (pre ++ payload)) = (L + N)%Z).
  { rewrite string_length_app. unfold L, N. lia. }
  assert (Heb : (Json.rfind "}" (pre ++ payload ++ post) <= L + N - 1)%Z).
  { rewrite (Hpp _ Hq1). pose proof (rfind_bounds "}" (pre ++ payload)). lia. }
  assert (Hek : (Json.rfind "]" (pre ++ payload ++ post) <= L + N - 1)%Z).
  { rewrite (Hpp _ Hq2). pose proof (rfind_bounds "]" (pre ++ payload)). lia. }
  assert (Hlast : Json.rfind "}" (pre ++ payload ++ post) = (L + N - 1)%Z
                  \/ Json.rfind "]" (pre ++ payload ++ post) = (L + N - 1)%Z).
  { unfold Json.is_closing in Hclose. apply orb_true_iff in Hclose as [E|E];
      apply Ascii.eqb_eq in E; subst z; [left | right].
    - rewrite (Hpp _ Hq1), rfind_app, (rfind_last _ _ Hz). fold N L.
      destruct (Z.eqb_spec (N - 1) (-1)); lia.
    - rewrite (Hpp _ Hq2), rfind_app, (rfind_last _ _ Hz). fold N L.
      destruct (Z.eqb_spec (N - 1) (-1)); lia. }
  unfold Json.bracket_span.
  set (fb := Json.find "{" (pre ++ payload ++ post)) in *.
  set (fk := Json.find "[" (pre ++ payload ++ post)) in *.
  set (eb := Json.rfind "}" (pre ++ payload ++ post)) in *.
  set (ek := Json.rfind "]" (pre ++ payload ++ post)) in *.
  assert (Hend : Z.max eb ek = (L + N - 1)%Z) by lia.
  assert (Hgo : forall start, start = L ->
            (if (negb (Z.max eb ek =? -1) && (start <=? Z.max eb ek))%Z
             then Json.slice (pre ++ payload ++ post) start (Z.max eb ek + 1)
             else pre ++ payload ++ post) = payload).
  { intros start ->. rewrite Hend.
    destruct (Z.eqb_spec (L + N - 1) (-1)); [lia|].
    destruct (Z.leb_spec L (L + N - 1)); [|lia]. cbn [negb andb].
    replace (L + N - 1 + 1)%Z with (L + N)%Z by lia. apply slice_middle. }
  cbn [filter].
  destruct (Z.eqb_spec fb (-1)) as [E1|N1], (Z.eqb_spec fk (-1)) as [E2|N2]; cbn [negb].
  - lia.
  - apply Hgo. cbn [fold_left]. lia.
  - apply Hgo. cbn [fold_left]. lia.
  - apply Hgo. cbn [fold_left]. lia.
Qed.

(** X12. When the stripped answer does not open with a Markdown fence and
    consists of prose without any opening brace or bracket, then a payload
    that starts with an opening brace or bracket and ends with a closing
    one, then prose without any closing brace or bracket, the text
    [_extract_json] hands to [json.loads] is exactly the payload. *)
Theorem extract_json_text_from_prose raw pre payload post :
  Py.strip raw = pre ++ payload ++ post ->
  Json.startswith Json.fence (Py.strip raw) = false ->
  Json.has_char "{" pre = false -> Json.has_char "[" pre = false ->
  Json.has_char "}" post = false -> Json.has_char "]" post = false ->
  Json.bracketed payload ->
  Json._extract_json_text raw = payload.
Proof.
  intros Htext Hfence Hp1 Hp2 Hq1 Hq2 Hpay.
  unfold Json._extract_json_text, Json.unfenced. rewrite Hfence, Htext.
  now apply bracket_span_payload.
Qed.

End JsonExtraction.

(** An instance of X12: prose around an object. *)
Lemma extract_json_text_from_prose_witness :
  Json._extract_json_text "  Sure, the review: {score: [90]} Hope this helps!  "
  = "{score: [90]}".
Proof.
  apply (extract_json_text_from_prose _ "Sure, the review: " "{score: [90]}"
           " Hope this helps!");
    try reflexivity.
  split; [exists "{"%char | exists "}"%char]; split; reflexivity.
Defined.

(** ** Markdown fences around the answer *)

Section Fences.

Implicit Types (s t cur : string) (c z : ascii).

Lemma lf_is_nl c : Json.is_lf c = true -> String c EmptyString = Py.nl.
Proof.
  unfold Json.is_lf, Py.nl. intros H. apply Nat.eqb_eq in H.
  rewrite <- H, ascii_nat_embedding. reflexivity.
Qed.

Lemma lf_not_cr c : Json.is_lf c = true -> Json.is_cr c = false /\ Json.is_linebreak c = true.
Proof.
  unfold Json.is_lf, Json.is_cr, Json.is_linebreak. intros H. apply Nat.eqb_eq in H.
  rewrite H. split; reflexivity.
Qed.

Lemma plain_not_cr c : Json.is_linebreak c = false -> Json.is_cr c = false.
Proof.
  unfold Json.is_cr, Json.is_linebreak. intros H.
  destruct (Nat.eqb_spec (nat_of_ascii c) 13) as [E|_]; [|reflexivity].
  rewrite E in H. discriminate.
Qed.

(** The two kinds of characters of a text with Unix line ends. *)
Lemma unix_char c :
  (negb (Json.is_linebreak c) || Json.is_lf c)%bool = true ->
  (Json.is_lf c = true /\ Json.is_cr c = false /\ Json.is_linebreak c = true)
  \/ (Json.is_cr c = false /\ Json.is_linebreak c = false).
Proof.
  intros H. destruct (Json.is_lf c) eqn:Hl.
  - left. destruct (lf_not_cr c Hl). auto.
  - right. rewrite orb_false_r in H. apply negb_true_iff in H.
    split; [now apply plain_not_cr | exact H].
Qed.

Lemma splitlines_from_lf c cur s :
  Json.is_cr c = false -> Json.is_linebreak c = true ->
  Json.splitlines_from cur (String c s) = cur :: Json.splitlines_from EmptyString s.
Proof. intros H1 H2. cbn [Json.splitlines_from]. rewrite H1, H2. reflexivity. Qed.

Lemma splitlines_from_plain c cur s :
  Json.is_cr c = false -> Json.is_linebreak c = false ->
  Json.splitlines_from cur (String c s)
  = Json.splitlines_from (cur ++ String c EmptyString) s.
Proof. intros H1 H2. cbn [Json.splitlines_from]. rewrite H1, H2. reflexivity. Qed.

Lemma splitlines_from_nl cur s :
  Json.splitlines_from cur (Py.nl ++ s) = cur :: Json.splitlines_from EmptyString s.
Proof. reflexivity. Qed.

(** A text without line boundary is its own single line. *)
Lemma splitlines_one_line s cur :
  Json.one_line s = true ->
  Json.splitlines_from cur s
  = match cur ++ s with EmptyString => [] | line => [line] end.
Proof.
  revert cur. induction s as [|c s IH]; intros cur H.
  - rewrite string_app_nil_r. destruct cur; reflexivity.
  - cbn [Json.one_line Json.all_chars] in H. apply andb_true_iff in H as [Hc Hs].
    apply negb_true_iff in Hc.
    rewrite (splitlines_from_plain c cur s (plain_not_cr c Hc) Hc).
    rewrite (IH _ Hs), string_app_assoc. reflexivity.
Qed.

Lemma splitlines_from_nonempty s :
  s <> EmptyString -> Json.splitlines_from EmptyString s <> [].
Proof.
  destruct s as [|c s]; [contradiction|]. intros _.
  assert (G : forall t cur, cur <> EmptyString -> Json.splitlines_from cur t <> []).
  { induction t as [|b t IH]; intros cur Hc.
    - simpl. destruct cur; [contradiction | discriminate].
    - cbn [Json.splitlines_from].
      destruct (Json.is_cr b); [destruct t as [|c2 t']; [|destruct (Json.is_lf c2)]; discriminate|].
      destruct (Json.is_linebreak b); [discriminate|].
      apply IH. destruct cur; discriminate. }
  cbn [Json.splitlines_from].
  destruct (Json.is_cr c); [destruct s as [|c2 s']; [|destruct (Json.is_lf c2)]; discriminate|].
  destruct (Json.is_linebreak c); [discriminate|]. apply G. discriminate.
Qed.

(** Joining the lines of a Unix text that does not end with a line feed
    gives the text back. *)
Lemma join_splitlines s cur :
  Json.unix_lines s = true ->
  (forall z, Json.last_char s = Some z -> Json.is_lf z = false) ->
  Py.join Py.nl (Json.splitlines_from cur s) = cur ++ s.
Proof.
  revert cur. induction s as [|c s IH]; intros cur Hu Hlast.
  - rewrite string_app_nil_r. destruct cur; reflexivity.
  - cbn [Json.unix_lines Json.all_chars] in Hu. apply andb_true_iff in Hu as [Hc Hs].
    assert (Hlast' : forall z, Json.last_char s = Some z -> Json.is_lf z = false).
    { intros z Hz. apply Hlast. destruct s; [discriminate | exact Hz]. }
    destruct (unix_char c Hc) as [(Hl & Hcr & Hb) | (Hcr & Hb)].
    + rewrite (splitlines_from_lf c cur s Hcr Hb).
      assert (Hne : s <> EmptyString).
      { intros ->. specialize (Hlast c eq_refl). congruence. }
      pose proof (IH EmptyString Hs Hlast') as Hj.
      pose proof (splitlines_from_nonempty s Hne) as Hnn.
      destruct (Json.splitlines_from EmptyString s) as [|y l]; [contradiction|].
      unfold Py.join in *.
      change (String.concat Py.nl (cur :: y :: l))
        with (cur ++ Py.nl ++ String.concat Py.nl (y :: l)).
      rewrite Hj. cbn [append].
      change (String c s) with (String c EmptyString ++ s). rewrite (lf_is_nl c Hl).
      reflexivity.
    + rewrite (splitlines_from_plain c cur s Hcr Hb), (IH _ Hs Hlast'), string_app_assoc.
      reflexivity.
Qed.

(** The lines of a Unix text followed by a line feed and more text. *)
Lemma splitlines_from_app_nl s cur t :
  Json.unix_lines s = true ->
  Json.splitlines_from cur (s ++ Py.nl ++ t)
  = (Json.splitlines_from cur (s ++ Py.nl) ++ Json.splitlines_from EmptyString t)%list.
Proof.
  revert cur. induction s as [|c s IH]; intros cur Hu.
  - reflexivity.
  - cbn [Json.unix_lines Json.all_chars] in Hu. apply andb_true_iff in Hu as [Hc Hs].
    cbn [append].
    destruct (unix_char c Hc) as [(Hl & Hcr & Hb) | (Hcr & Hb)].
    + rewrite !(splitlines_from_lf c cur _ Hcr Hb), (IH _ Hs). reflexivity.
    + rewrite !(splitlines_from_plain c cur _ Hcr Hb). apply IH. exact Hs.
Qed.

Lemma splitlines_from_trailing_nl s cur :
  Json.unix_lines s = true ->
  (forall z, Json.last_char s = Some z -> Json.is_lf z = false) ->
  cur ++ s <> EmptyString ->
  Json.splitlines_from cur (s ++ Py.nl) = Json.splitlines_from cur s.
Proof.
  revert cur. induction s as [|c s IH]; intros cur Hu Hlast Hne.
  - rewrite string_app_nil_r in Hne. destruct cur; [contradiction | reflexivity].
  - cbn [Json.unix_lines Json.all_chars] in Hu. apply andb_true_iff in Hu as [Hc Hs].
    assert (Hlast' : forall z, Json.last_char s = Some z -> Json.is_lf z = false).
    { intros z Hz. apply Hlast. destruct s; [discriminate | exact Hz]. }
    cbn [append].
    destruct (unix_char c Hc) as [(Hl & Hcr & Hb) | (Hcr & Hb)].
    + rewrite !(splitlines_from_lf c cur _ Hcr Hb). f_equal.
      apply IH; [exact Hs | exact Hlast'|].
      simpl. intros ->. specialize (Hlast c eq_refl). congruence.
    + rewrite !(splitlines_from_plain c cur _ Hcr Hb).
      apply IH; [exact Hs | exact Hlast'|].
      destruct cur; discriminate.
Qed.

Lemma one_line_unix s : Json.one_line s = true -> Json.unix_lines s = true.
Proof.
  unfold Json.one_line, Json.unix_lines.
  induction s as [|c s IH]; simpl; [reflexivity|]. intros H.
  apply andb_true_iff in H as [Hc Hs]. rewrite Hc, (IH Hs). reflexivity.
Qed.

Lemma one_line_last s z :
  Json.one_line s = true -> Json.last_char s = Some z -> Json.is_lf z = false.
Proof.
  unfold Json.one_line. induction s as [|c s IH]; [discriminate|].
  cbn [Json.all_chars]. intros H Hz. apply andb_true_iff in H as [Hc Hs].
  destruct s as [|b s'].
  - injection Hz as <-. apply negb_true_iff in Hc.
    destruct (Json.is_lf c) eqn:E; [|reflexivity].
    destruct (lf_not_cr c E). congruence.
  - apply IH; assumption.
Qed.

Lemma one_line_app s t :
  Json.one_line s = true -> Json.one_line t = true -> Json.one_line (s ++ t) = true.
Proof.
  unfold Json.one_line. induction s as [|c s IH]; simpl; [auto|]. intros H Ht.
  apply andb_true_iff in H as [Hc Hs]. rewrite Hc. now apply IH.
Qed.

(** *** Stripping a text that has no blank at either end *)

Lemma rstrip_fixed s z :
  Json.last_char s = Some z -> Py.is_space z = false -> Py.rstrip s = s.
Proof.
  induction s as [|c s IH]; [discriminate|]. intros Hz Hsp.
  destruct s as [|b s'].
  - injection Hz as <-. simpl. now rewrite Hsp.
  - change (Json.last_char (String b s') = Some z) in Hz. specialize (IH Hz Hsp).
    change (Py.rstrip (String c (String b s')))
      with (match Py.rstrip (String b s') with
            | EmptyString => if Py.is_space c then EmptyString else String c EmptyString
            | r => String c r
            end).
    rewrite IH. reflexivity.
Qed.

Lemma strip_fixed s a z :
  Json.first_char s = Some a -> Py.is_space a = false ->
  Json.last_char s = Some z -> Py.is_space z = false ->
  Py.strip s = s.
Proof.
  intros Ha Hsa Hz Hsz. unfold Py.strip.
  assert (E : Py.lstrip s = s).
  { destruct s as [|c s']; [discriminate|]. injection Ha as ->. simpl. now rewrite Hsa. }
  rewrite E. eapply rstrip_fixed; eassumption.
Qed.

Lemma opening_not_space a : Json.is_opening a = true -> Py.is_space a = false.
Proof.
  unfold Json.is_opening. intros H. apply orb_true_iff in H as [E|E];
    apply Ascii.eqb_eq in E; subst a; reflexivity.
Qed.

Lemma closing_not_space z :
  Json.is_closing z = true -> Py.is_space z = false /\ Json.is_lf z = false.
Proof.
  unfold Json.is_closing. intros H. apply orb_true_iff in H as [E|E];
    apply Ascii.eqb_eq in E; subst z; split; reflexivity.
Qed.

Lemma bracketed_span payload : Json.bracketed payload -> Json.bracket_span payload = payload.
Proof.
  intros H.
  pose proof (bracket_span_payload EmptyString payload EmptyString
                eq_refl eq_refl eq_refl eq_refl H) as E.
  simpl in E. rewrite string_app_nil_r in E. exact E.
Qed.

(** X13. When the stripped answer is a Markdown block (a line that opens
    with three backquotes, possibly followed by a language tag, then a
    payload, then a line of three backquotes) whose payload has Unix line
    ends, starts with an opening brace or bracket and ends with a closing
    one, the text [_extract_json] hands to [json.loads] is exactly the
    payload: both fence lines are dropped and the payload's own lines are
    put back together unchanged. *)
Theorem extract_json_text_fenced raw lang payload :
  Py.strip raw = Json.fence ++ lang ++ Py.nl ++ payload ++ Py.nl ++ Json.fence ->
  Json.one_line lang = true ->
  Json.unix_lines payload = true ->
  Json.bracketed payload ->
  Json._extract_json_text raw = payload.
Proof.
  intros Htext Hlang Hunix Hpay.
  pose proof Hpay as [(a & Ha & Hopen) (z & Hz & Hclose)].
  destruct (closing_not_space z Hclose) as [Hzs Hzl].
  assert (Hlastp : forall y, Json.last_char payload = Some y -> Json.is_lf y = false).
  { intros y Hy. rewrite Hz in Hy. injection Hy as <-. exact Hzl. }
  assert (Hpne : payload <> EmptyString) by (intros ->; discriminate).
  set (first := Json.fence ++ lang).
  assert (Hfirst1 : Json.one_line first = true) by (apply one_line_app; [reflexivity | exact Hlang]).
  assert (Hfence_first : Json.startswith Json.fence first = true) by apply prefix_app.
  assert (Hlines : Json.splitlines (Py.strip raw)
                   = first :: (Json.splitlines_from EmptyString payload ++ [Json.fence])%list).
  { rewrite Htext. unfold Json.splitlines.
    rewrite <- (string_app_assoc Json.fence lang). fold first.
    rewrite (splitlines_from_app_nl first EmptyString _ (one_line_unix _ Hfirst1)).
    rewrite (splitlines_from_trailing_nl first EmptyString (one_line_unix _ Hfirst1)
               (fun y => one_line_last first y Hfirst1)) by discriminate.
    rewrite (splitlines_one_line first EmptyString Hfirst1). cbn [append].
    rewrite (splitlines_from_app_nl payload EmptyString _ Hunix).
    rewrite (splitlines_from_trailing_nl payload EmptyString Hunix Hlastp)
      by (simpl; exact Hpne).
    reflexivity. }
  unfold Json._extract_json_text, Json.unfenced.
  assert (Hstart : Json.startswith Json.fence (Py.strip raw) = true).
  { rewrite Htext. apply prefix_app. }
  rewrite Hstart, Hlines. cbv zeta. rewrite Hfence_first.
  destruct (Json.splitlines_from EmptyString payload ++ [Json.fence])%list as [|l0 ls] eqn:El.
  { destruct (Json.splitlines_from EmptyString payload); discriminate. }
  rewrite <- El, last_last, removelast_last.
  change (Json.startswith Json.fence Json.fence) with true. cbv iota.
  rewrite (join_splitlines payload EmptyString Hunix Hlastp). cbn [append].
  rewrite (strip_fixed payload a z Ha (opening_not_space a Hopen) Hz Hzs).
  now apply bracketed_span.
Qed.

(** X14. A fenced answer written on a single line is lost: when the
    stripped answer opens with three backquotes and contains no line
    boundary, dropping "the fence line" drops everything, and the text
    handed to [json.loads] is empty. *)
Theorem extract_json_text_single_line_fence raw :
  Json.startswith Json.fence (Py.strip raw) = true ->
  Json.one_line (Py.strip raw) = true ->
  Json._extract_json_text raw = EmptyString.
Proof.
  intros Hstart Hone. unfold Json._extract_json_text, Json.unfenced.
  rewrite Hstart. cbv zeta. unfold Json.splitlines.
  rewrite (splitlines_one_line _ EmptyString Hone). cbn [append].
  destruct (Py.strip raw) as [|c s] eqn:E; [discriminate|].
  rewrite Hstart. reflexivity.
Qed.

End Fences.

(** An instance of X13: the usual shape of a fenced answer. *)
Lemma extract_json_text_fenced_witness :
  Json._extract_json_text
    (Py.nl ++ "```json" ++ Py.nl ++ ("[{name: B1}," ++ Py.nl ++ " {name: B2}]") ++ Py.nl
     ++ "```" ++ Py.nl)
  = "[{name: B1}," ++ Py.nl ++ " {name: B2}]".
Proof.
  apply (extract_json_text_fenced _ "json" ("[{name: B1}," ++ Py.nl ++ " {name: B2}]"));
    try reflexivity.
  split; [exists "["%char | exists "]"%char]; split; reflexivity.
Defined.

(** An instance of X14: the same answer on one line. *)
Lemma extract_json_text_single_line_fence_witness :
  Json._extract_json_text " ```[{name: B1}]``` " = EmptyString.
Proof.
  apply (extract_json_text_single_line_fence " ```[{name: B1}]``` "); reflexivity.
Defined.

(** ** Answers that cannot be decoded *)

Section Undecodable.

Variable env : environment.
Variable json_loads : string -> option json.

Implicit Types (w : world).

(** X15. When the API answers with a text that [json.loads] rejects once
    [_extract_json] has cleaned it, the two JSON wrappers part ways: the
    peer review does not fail but returns the automatic approval (score
    100, approved), whereas the simulation generator raises the decoding
    error.  Each has sent exactly one request and written nothing. *)
Theorem undecodable_answer_review_vs_simulation task output context text uris w :
  has_api_key env = true ->
  (forall n req, generate_content env n req = Response text uris) ->
  json_loads (Json._extract_json_text (Py.opt_or text EmptyString)) = None ->
  gemini_json.review_task_output env json_loads task output w
  = (Ok gemini_json.automatic_approval,
     mkworld (db w) (trace w ++ [Generate (gemini_json.review_request env task output)])
       (clock_reads w))
  /\ gemini_json.generate_simulation_code env json_loads task context w
     = (Raise JSONDecodeError,
        mkworld (db w) (trace w ++ [Generate (gemini_json.simulation_request env task context)])
          (clock_reads w)).
Proof.
  intros Hkey Hapi Hbad. unfold has_api_key in Hkey.
  unfold gemini_json.review_task_output, gemini_json.generate_simulation_code,
    Json._extract_json.
  run_monad.
  destruct (GEMINI_API_KEY env) as [[|c key]|]; try discriminate. simpl.
  rewrite !Hapi, Hbad. split; reflexivity.
Qed.

End Undecodable.

(** An instance of X15: the reviewer answers with prose. *)
Lemma undecodable_answer_review_vs_simulation_witness :
  gemini_json.review_task_output Cases.env_malformed gemini_json.loads_empty_object
    "A" "result" Scenario.w0
  = (Ok gemini_json.automatic_approval,
     mkworld (db Scenario.w0)
       (trace Scenario.w0 ++ [Generate (gemini_json.review_request Cases.env_malformed
                                          "A" "result")])
       (clock_reads Scenario.w0))
  /\ gemini_json.generate_simulation_code Cases.env_malformed gemini_json.loads_empty_object
       "A" "context" Scenario.w0
     = (Raise JSONDecodeError,
        mkworld (db Scenario.w0)
          (trace Scenario.w0 ++ [Generate (gemini_json.simulation_request Cases.env_malformed
                                             "A" "context")])
          (clock_reads Scenario.w0)).
Proof.
  apply (undecodable_answer_review_vs_simulation Cases.env_malformed
           gemini_json.loads_empty_object "A" "result" "context"
           (Some "I cannot plan this.") []).
  - reflexivity.
  - reflexivity.
  - reflexivity.
Defined.

(** ** The registry of WebSocket connections *)

Section Registry.

Import socket_manager.

Implicit Types (r : registry) (k session_id : string) (ws websocket : WebSocket)
  (l conns : list WebSocket).

Lemma store_same r k v : store r k v k = v.
Proof. unfold store. now rewrite String.eqb_refl. Qed.

Lemma store_other r k v k' : k' <> k -> store r k v k' = r k'.
Proof. unfold store. intros H. apply String.eqb_neq in H. now rewrite H. Qed.

Lemma entry_not_empty l : entry l <> Some [].
Proof. destruct l; discriminate. Qed.

(** What [disconnect] leaves at the key of the session, and elsewhere. *)
Lemma disconnect_spec session_id ws r :
  r session_id <> Some [] ->
  disconnect session_id ws r session_id
  = entry (if member ws (connections r session_id)
           then remove ws (connections r session_id)
           else connections r session_id)
  /\ forall k, k <> session_id -> disconnect session_id ws r k = r k.
Proof.
  intros Ht. unfold disconnect, connections.
  destruct (r session_id) as [[|x conns]|] eqn:E.
  - contradiction.
  - destruct (if member ws (x :: conns) then remove ws (x :: conns) else x :: conns)
      as [|y l'] eqn:El.
    + split; [apply store_same | intros k Hk; now apply store_other].
    + split; [apply store_same | intros k Hk; now apply store_other].
  - split; [exact E | reflexivity].
Qed.

Lemma remove_app_absent ws l1 l2 :
  member ws l1 = false -> remove ws (l1 ++ ws :: l2) = (l1 ++ l2)%list.
Proof.
  unfold member. induction l1 as [|x l1 IH]; simpl; intros H.
  - now rewrite Nat.eqb_refl.
  - apply orb_false_iff in H as [Hx Hl]. rewrite Nat.eqb_sym, Hx. now rewrite IH.
Qed.

Lemma member_app ws l1 l2 : member ws (l1 ++ l2) = (member ws l1 || member ws l2)%bool.
Proof. unfold member. apply existsb_app. Qed.

Lemma member_In ws l : member ws l = true <-> In ws l.
Proof.
  unfold member. rewrite existsb_exists. split.
  - intros (x & Hx & E). apply Nat.eqb_eq in E. now subst.
  - intros H. exists ws. split; [exact H | apply Nat.eqb_refl].
Qed.

(** X16. The registry never keeps an empty list: if no session id maps to
    an empty list, this is still so after [connect], after [disconnect]
    and after [send_json], whatever the sockets and whichever sends
    fail.  (The registry starts empty, so this holds throughout.) *)
Theorem registry_stays_tidy r session_id ws send_ok :
  tidy r ->
  tidy (connect session_id ws r)
  /\ tidy (disconnect session_id ws r)
  /\ tidy (fst (send_json send_ok session_id r)).
Proof.
  intros Ht.
  assert (Hd : forall r0 x, tidy r0 -> tidy (disconnect session_id x r0)).
  { intros r0 x H0 k. destruct (String.eqb_spec k session_id) as [->|N].
    - destruct (disconnect_spec session_id x r0 (H0 session_id)) as [-> _].
      apply entry_not_empty.
    - destruct (disconnect_spec session_id x r0 (H0 session_id)) as [_ H].
      rewrite (H k N). apply H0. }
  split; [|split].
  - intros k. unfold connect. destruct (String.eqb_spec k session_id) as [->|N].
    + rewrite store_same. destruct (r session_id) as [[|x l]|]; discriminate.
    + rewrite store_other by exact N. apply Ht.
  - apply Hd, Ht.
  - unfold send_json. generalize (match r session_id with Some c => c | None => [] end).
    intros snapshot. revert r Ht. induction snapshot as [|x rest IH]; intros r Ht;
      cbn [broadcast]; [exact Ht|].
    destruct (send_ok x).
    + specialize (IH r Ht). destruct (broadcast send_ok session_id rest r). exact IH.
    + apply IH, Hd, Ht.
Qed.

(** The loop of [send_json], once the sockets in [kept] have taken the
    message and those in [rest] are still to be tried. *)
Lemma broadcast_spec send_ok session_id rest :
  forall kept r,
    forallb send_ok kept = true ->
    r session_id = entry (kept ++ rest) ->
    let out := broadcast send_ok session_id rest r in
    fst out session_id = entry (kept ++ filter send_ok rest)
    /\ snd out = filter send_ok rest
    /\ forall k, k <> session_id -> fst out k = r k.
Proof.
  induction rest as [|x rest IH]; intros kept r Hk Hr; cbn [broadcast filter].
  - cbv zeta. cbn [fst snd]. auto.
  - destruct (send_ok x) eqn:Hx.
    + specialize (IH (kept ++ [x])%list r).
      rewrite forallb_app, Hk in IH. cbn [forallb] in IH. rewrite Hx in IH.
      rewrite <- !app_assoc in IH. cbn [app] in IH.
      specialize (IH eq_refl Hr). cbv zeta in IH.
      destruct (broadcast send_ok session_id rest r) as [r' d]. cbn [fst snd] in *.
      destruct IH as (H1 & H2 & H3). rewrite H2. auto.
    + assert (Hne : r session_id <> Some []) by (rewrite Hr; apply entry_not_empty).
      assert (Hconns : connections r session_id = (kept ++ x :: rest)%list).
      { unfold connections. rewrite Hr. destruct kept; reflexivity. }
      assert (Habsent : member x kept = false).
      { destruct (member x kept) eqn:E; [|reflexivity].
        apply member_In in E. rewrite forallb_forall in Hk. rewrite (Hk x E) in Hx.
        discriminate. }
      destruct (disconnect_spec session_id x r Hne) as [Hd1 Hd2].
      rewrite Hconns, member_app, Habsent in Hd1. cbn [member existsb] in Hd1.
      rewrite Nat.eqb_refl in Hd1. cbn [orb] in Hd1.
      rewrite (remove_app_absent x kept rest Habsent) in Hd1.
      specialize (IH kept (disconnect session_id x r) Hk Hd1). cbv zeta in IH.
      destruct IH as (H1 & H2 & H3). cbv zeta.
      split; [exact H1|]. split; [exact H2|].
      intros k Hkne. rewrite (H3 k Hkne). now apply Hd2.
Qed.

(** X17. [send_json] tries every connection of the session once.  The
    sockets whose send returns receive the message and stay registered, in
    their order; each socket whose send raises is removed; when none is
    left the session's key is removed too; the connections of the other
    sessions are untouched.  (Whether a send raises is taken to depend on
    the socket only.) *)
Theorem send_json_drops_broken_sockets send_ok session_id r :
  r session_id <> Some [] ->
  let out := send_json send_ok session_id r in
  snd out = filter send_ok (connections r session_id)
  /\ fst out session_id = entry (filter send_ok (connections r session_id))
  /\ connections (fst out) session_id = filter send_ok (connections r session_id)
  /\ forall k, k <> session_id -> fst out k = r k.
Proof.
  intros Hne. unfold send_json. fold (connections r session_id).
  assert (Hr : r session_id = entry ([] ++ connections r session_id)).
  { unfold connections, entry. cbn [app]. destruct (r session_id) as [[|x l]|];
      [contradiction | reflexivity | reflexivity]. }
  pose proof (broadcast_spec send_ok session_id (connections r session_id) [] r eq_refl Hr)
    as H.
  cbv zeta in *. cbn [app] in H. destruct H as (H1 & H2 & H3).
  split; [exact H2|]. split; [exact H1|]. split; [|exact H3].
  unfold connections at 1. rewrite H1. destruct (filter send_ok _); reflexivity.
Qed.

(** X18. [disconnect] undoes [connect]: registering a socket that was not
    yet registered for the session and disconnecting it again gives back
    the registry, key by key (the key of a session that had no connection
    is absent again).  Disconnecting a socket that is not registered for
    the session, or from a session without connections, changes nothing. *)
Theorem disconnect_undoes_connect r session_id ws :
  tidy r ->
  ~ In ws (connections r session_id) ->
  (forall k, disconnect session_id ws (connect session_id ws r) k = r k)
  /\ (forall k, disconnect session_id ws r k = r k).
Proof.
  intros Ht Hnot.
  assert (Hm : member ws (connections r session_id) = false).
  { destruct (member ws (connections r session_id)) eqn:E; [|reflexivity].
    apply member_In in E. contradiction. }
  assert (Hentry : r session_id = entry (connections r session_id)).
  { unfold connections, entry. pose proof (Ht session_id) as H.
    destruct (r session_id) as [[|x l]|]; [contradiction | reflexivity | reflexivity]. }
  split.
  - assert (Hc : connect session_id ws r session_id
                 = Some (connections r session_id ++ [ws])%list).
    { unfold connect. rewrite store_same. reflexivity. }
    assert (Hne : connect session_id ws r session_id <> Some []).
    { rewrite Hc. destruct (connections r session_id); discriminate. }
    destruct (disconnect_spec session_id ws _ Hne) as [Hd1 Hd2].
    unfold connections at 1 2 3 in Hd1. rewrite Hc in Hd1.
    rewrite member_app, Hm in Hd1. cbn [member existsb] in Hd1.
    rewrite Nat.eqb_refl in Hd1. cbn [orb] in Hd1.
    rewrite (remove_app_absent ws _ [] Hm), app_nil_r in Hd1.
    intros k. destruct (String.eqb_spec k session_id) as [->|N].
    + rewrite Hd1. symmetry. exact Hentry.
    + rewrite (Hd2 k N). unfold connect. now apply store_other.
  - destruct (disconnect_spec session_id ws r (Ht session_id)) as [Hd1 Hd2].
    rewrite Hm in Hd1.
    intros k. destruct (String.eqb_spec k session_id) as [->|N].
    + rewrite Hd1. symmetry. exact Hentry.
    + now apply Hd2.
Qed.

End Registry.

(** An instance of X16: the registry with no connection at all. *)
Lemma registry_stays_tidy_witness :
  socket_manager.tidy (socket_manager.connect "1" 10%nat socket_manager.empty)
  /\ socket_manager.tidy (socket_manager.disconnect "1" 10%nat socket_manager.empty)
  /\ socket_manager.tidy
       (fst (socket_manager.send_json (fun _ => false) "1" socket_manager.empty)).
Proof.
  apply (registry_stays_tidy socket_manager.empty "1" 10%nat (fun _ => false)).
  intros k. discriminate.
Defined.

(** An instance of X17: of the two sockets of session 1, socket 10 is
    broken. *)
Lemma send_json_drops_broken_sockets_witness :
  let out := socket_manager.send_json (fun ws => negb (Nat.eqb ws 10%nat)) "1"
               socket_manager.two_sessions in
  snd out = filter (fun ws => negb (Nat.eqb ws 10%nat))
              (socket_manager.connections socket_manager.two_sessions "1")
  /\ fst out "1"
     = socket_manager.entry
         (filter (fun ws => negb (Nat.eqb ws 10%nat))
            (socket_manager.connections socket_manager.two_sessions "1"))
  /\ socket_manager.connections (fst out) "1"
     = filter (fun ws => negb (Nat.eqb ws 10%nat))
         (socket_manager.connections socket_manager.two_sessions "1")
  /\ forall k, k <> "1" -> fst out k = socket_manager.two_sessions k.
Proof.
  apply (send_json_drops_broken_sockets (fun ws => negb (Nat.eqb ws 10%nat)) "1"
           socket_manager.two_sessions).
  discriminate.
Defined.

(** An instance of X18: a third socket for session 1. *)
Lemma disconnect_undoes_connect_witness :
  (forall k, socket_manager.disconnect "1" 12%nat
               (socket_manager.connect "1" 12%nat socket_manager.two_sessions) k
             = socket_manager.two_sessions k)
  /\ (forall k, socket_manager.disconnect "1" 12%nat socket_manager.two_sessions k
                = socket_manager.two_sessions k).
Proof.
  apply (disconnect_undoes_connect socket_manager.two_sessions "1" 12%nat).
  - intros k. unfold socket_manager.two_sessions, socket_manager.connect,
      socket_manager.store, socket_manager.empty.
    destruct (k =? "2"); [discriminate|]. destruct (k =? "1"); discriminate.
  - simpl. intros [H|[H|[]]]; discriminate.
Defined.

(** ** The snapshot of a session *)

Section Snapshot.

Import state_route.

Variable isoformat : Z -> string.
Variable session_id : Z.

Implicit Types (w : world) (d : database) (k : ResearchTask.t).

Lemma insert_log_perm l ls : Permutation (l :: ls) (insert_log l ls).
Proof.
  induction ls as [|h ls IH]; simpl; [apply Permutation_refl|].
  destruct (AgentLog.timestamp l <? AgentLog.timestamp h)%Z; [apply Permutation_refl|].
  eapply Permutation_trans; [apply perm_swap|]. now apply perm_skip.
Qed.

Lemma order_by_timestamp_perm ls : Permutation ls (order_by_timestamp ls).
Proof.
  induction ls as [|l ls IH]; simpl; [constructor|].
  eapply Permutation_trans; [apply perm_skip, IH | apply insert_log_perm].
Qed.

Lemma insert_log_sorted l ls :
  Sorted (fun a b => (AgentLog.timestamp a <= AgentLog.timestamp b)%Z) ls ->
  Sorted (fun a b => (AgentLog.timestamp a <= AgentLog.timestamp b)%Z) (insert_log l ls).
Proof.
  induction 1 as [|h ls Hs IH Hh]; simpl; [repeat constructor|].
  destruct (Z.ltb_spec (AgentLog.timestamp l) (AgentLog.timestamp h)) as [Hlt|Hge].
  - constructor; [constructor; assumption|]. constructor. lia.
  - constructor; [exact IH|].
    destruct ls as [|h2 ls']; simpl.
    + constructor. lia.
    + destruct (Z.ltb_spec (AgentLog.timestamp l) (AgentLog.timestamp h2)).
      * constructor. lia.
      * constructor. inversion Hh. assumption.
Qed.

Lemma order_by_timestamp_sorted ls :
  StronglySorted (fun a b => (AgentLog.timestamp a <= AgentLog.timestamp b)%Z)
    (order_by_timestamp ls).
Proof.
  apply Sorted_StronglySorted; [intros a b c; lia|].
  induction ls as [|l ls IH]; simpl; [constructor | now apply insert_log_sorted].
Qed.

(** X19. [get_research_state] never writes: the world is the same after
    it.  For an id that matches no session it answers "session not
    found"; for the id of one session row it answers with that row's
    columns and with the logs of the session, each exactly once, in
    ascending order of timestamp, whatever their order in the table. *)
Theorem get_research_state_reads w :
  snd (get_research_state isoformat session_id w) = w
  /\ (Query.session_rows (db w) session_id = [] ->
      fst (get_research_state isoformat session_id w) = Ok (StateError "session not found"))
  /\ (forall rs, Query.session_rows (db w) session_id = [rs] ->
      exists bs ls rows fs,
        fst (get_research_state isoformat session_id w)
        = Ok (State (mksv session_id (ResearchSession.original_prompt rs)
                       (ResearchSession.status rs)
                       (isoformat (ResearchSession.created_at rs))
                       (ResearchSession.final_synthesis rs)) bs ls fs)
        /\ ls = map (view_log isoformat) rows
        /\ Permutation rows
             (filter (fun l => (AgentLog.session_id l =? session_id)%Z) (logs (db w)))
        /\ StronglySorted (fun a b => (AgentLog.timestamp a <= AgentLog.timestamp b)%Z) rows).
Proof.
  unfold get_research_state, one_or_none. run_monad.
  destruct (Query.session_rows (db w) session_id) as [|rs0 [|rs1 rows0]] eqn:Hrow; simpl.
  - split; [reflexivity|]. split; [reflexivity | discriminate].
  - split; [reflexivity|]. split; [discriminate|].
    intros rs [= <-]. destruct (session_rows_found _ _ _ Hrow) as [Hid _].
    eexists _, _, (session_logs (db w) session_id), _.
    split; [rewrite Hid; reflexivity|]. split; [reflexivity|].
    split; [apply Permutation_sym, order_by_timestamp_perm | apply order_by_timestamp_sorted].
  - split; [reflexivity|]. split; discriminate.
Qed.

(** X20. The snapshot shows what the scheduler sees: every task that is
    pending in the session (so every task the loop may still execute) is
    listed in the snapshot of that session, under the entry of its branch
    and with its own columns; conversely every task listed under a branch
    entry is a row of the task table attached to a branch of the
    session. *)
Theorem snapshot_lists_pending_tasks w rs :
  Query.session_rows (db w) session_id = [rs] ->
  exists sv bs ls fs,
    fst (get_research_state isoformat session_id w) = Ok (State sv bs ls fs)
    /\ (forall k, pending_in_session (db w) session_id k ->
          exists bv, In bv bs /\ bv_id bv = ResearchTask.branch_id k
                     /\ In (view_task k) (bv_tasks bv))
    /\ (forall bv tv, In bv bs -> In tv (bv_tasks bv) ->
          exists k b, In k (tasks (db w)) /\ tv = view_task k
                      /\ In b (branches (db w))
                      /\ ResearchBranch.session_id b = session_id
                      /\ ResearchTask.branch_id k = ResearchBranch.id b
                      /\ bv_id bv = ResearchBranch.id b).
Proof.
  intros Hrow. unfold get_research_state, one_or_none. run_monad. rewrite Hrow. simpl.
  eexists _, _, _, _. split; [reflexivity|]. split.
  - intros k (Hin & _ & b & Hb & Hid & Hs).
    exists (view_branch (db w) b). split; [|split; [exact Hid|]].
    + apply in_map. apply filter_In. split; [exact Hb | now apply Z.eqb_eq].
    + simpl. apply in_map. apply filter_In. split; [exact Hin|].
      apply Z.eqb_eq. now symmetry.
  - intros bv tv Hbv Htv. apply in_map_iff in Hbv as (b & <- & Hb).
    apply filter_In in Hb as [Hb Hs]. apply Z.eqb_eq in Hs.
    simpl in Htv. apply in_map_iff in Htv as (k & <- & Hk).
    apply filter_In in Hk as [Hk Hid]. apply Z.eqb_eq in Hid.
    exists k, b. repeat split; auto.
Qed.

End Snapshot.

(** An instance of X20: the scenario, whose three tasks are pending. *)
Lemma snapshot_lists_pending_tasks_witness :
  exists sv bs ls fs,
    fst (state_route.get_research_state (fun _ => "t") 1 Scenario.w0)
    = Ok (state_route.State sv bs ls fs)
    /\ (forall k, pending_in_session (db Scenario.w0) 1 k ->
          exists bv, In bv bs /\ state_route.bv_id bv = ResearchTask.branch_id k
                     /\ In (state_route.view_task k) (state_route.bv_tasks bv))
    /\ (forall bv tv, In bv bs -> In tv (state_route.bv_tasks bv) ->
          exists k b, In k (tasks (db Scenario.w0)) /\ tv = state_route.view_task k
                      /\ In b (branches (db Scenario.w0))
                      /\ ResearchBranch.session_id b = 1%Z
                      /\ ResearchTask.branch_id k = ResearchBranch.id b
                      /\ state_route.bv_id bv = ResearchBranch.id b).
Proof.
  apply (snapshot_lists_pending_tasks (fun _ => "t") 1 Scenario.w0 Scenario.session1).
  reflexivity.
Defined.

(** ** Speech to text *)

Section Speech.

Import speech.

Implicit Types (s needle msg : string).

Lemma prefix_lower needle s :
  String.prefix needle s = true -> String.prefix (Py.lower needle) (Py.lower s) = true.
Proof.
  revert s. induction needle as [|c needle IH]; intros s H.
  - destruct s; reflexivity.
  - destruct s as [|b s]; [discriminate|]. simpl in H. cbn [Py.lower String.prefix].
    destruct (Ascii.ascii_dec c b) as [->|N]; [|discriminate].
    destruct (Ascii.ascii_dec (Py.lower_char b) (Py.lower_char b)) as [_|N];
      [now apply IH | now destruct N].
Qed.

Lemma contains_lower needle s :
  Py.contains needle s = true -> Py.contains (Py.lower needle) (Py.lower s) = true.
Proof.
  induction s as [|b s IH]; cbn [Py.contains Py.lower]; intros H.
  - apply orb_true_iff in H as [H|H]; [|discriminate].
    apply prefix_lower in H. cbn [Py.lower] in H. rewrite H. reflexivity.
  - apply orb_true_iff in H as [H|H].
    + apply prefix_lower in H. cbn [Py.lower] in H. rewrite H. reflexivity.
    + rewrite (IH H). apply orb_true_r.
Qed.

(** X21. [transcribe_speech] answers an empty upload with status 400
    whatever the environment.  For a non-empty upload it returns the
    stripped text of the API's answer; without API key it fails with
    status 500; and when the API call fails with some text, it fails with
    the detail "Transcription failed: " followed by that text, with status
    429 when the text contains "RESOURCE_EXHAUSTED" or "429" and status
    500 otherwise.  The test is on the text as it is, so it is narrower
    than the one of [_handle_gemini_error], which lower-cases first and
    also looks for "quota": every text that gets status 429 here is a
    quota error there, and some quota error there gets status 500 here. *)
Theorem transcribe_speech_status (env : speech_environment) (data : string)
    (content_type : option string) :
  (data = EmptyString ->
   transcribe_speech env data content_type = Raise (HTTPException 400 "Empty audio file"))
  /\ (data <> EmptyString ->
      match api_key env with
      | None | Some EmptyString =>
          transcribe_speech env data content_type
          = Raise (HTTPException 500
                     "Transcription failed: GEMINI_API_KEY environment variable is not set")
      | Some _ =>
          match generate_speech env
                  (speech_request_of env data (Py.opt_or content_type "audio/webm")) with
          | Response text _ =>
              transcribe_speech env data content_type
              = Ok (Py.strip (Py.opt_or text EmptyString))
          | ApiError msg =>
              transcribe_speech env data content_type
              = Raise (HTTPException (failure_status msg) ("Transcription failed: " ++ msg))
              /\ (failure_status msg = 429%Z \/ failure_status msg = 500%Z)
          end
      end)
  /\ (forall msg, failure_status msg = 429%Z ->
        exists q, gemini_service._handle_gemini_error msg "transcribe_audio"
                  = QuotaExhaustedError q)
  /\ (exists msg q,
        gemini_service._handle_gemini_error msg "transcribe_audio" = QuotaExhaustedError q
        /\ failure_status msg = 500%Z).
Proof.
  split; [intros ->; reflexivity|]. split; [|split].
  - intros Hne. unfold transcribe_speech, transcribe_audio, get_client.
    destruct data as [|c data]; [contradiction|].
    destruct (api_key env) as [[|k key]|]; [reflexivity| |reflexivity].
    destruct (generate_speech env _) as [text uris|msg]; [reflexivity|].
    split; [reflexivity|]. unfold failure_status. destruct (_ || _)%bool; auto.
  - intros msg. unfold failure_status, gemini_service._handle_gemini_error.
    destruct (Py.contains "RESOURCE_EXHAUSTED" msg) eqn:E1.
    + intros _. apply contains_lower in E1.
      change (Py.lower "RESOURCE_EXHAUSTED") with "resource_exhausted" in E1.
      rewrite E1, orb_true_r. simpl. eauto.
    + destruct (Py.contains "429" msg) eqn:E2; [|discriminate].
      intros _. apply contains_lower in E2.
      change (Py.lower "429") with "429" in E2. rewrite E2. simpl. eauto.
  - exists "Quota exceeded for this project". eexists. split; reflexivity.
Qed.

End Speech.

